(** * pipecat: end-of-turn detection and two leaf services

    A shallow embedding of

    - [src/pipecat/audio/turn/base_smart_turn.py]  (module [Turn]),
    - [src/pipecat/services/sarvam/stt.py]         (modules [Sarvam] and
      [SarvamSession]),
    - [src/pipecat/services/xtts/tts.py]           (modules [XTTS],
      [XTTSLanguage] and [XTTSStart]),

    followed by the properties of the specification that concern them
    (C1 to C10), each stated over these definitions, by further properties
    of the same code, and by their instances at concrete inputs.

    Python's [float] is IEEE 754 binary64, so numbers are Rocq's primitive
    floats: the arithmetic of the model rounds as the program's does.
    Methods that can raise return a [result]; the wall clock, the endpoint
    classifier, the Sarvam socket, the HTTP session and the resampler are
    inputs of the model. *)

From Stdlib Require Import ZArith List String Ascii Bool Floats QArith Lia Sorted.
From Stdlib.Strings Require Import Byte.
From stdpp Require Import base option list gmap strings pretty.
Import ListNotations.

Local Open Scope Z_scope.

(** ** Python values shared by the three modules *)

(** The exceptions the modelled methods can raise. *)
Inductive exn : Type :=
| ValueError
| TypeError
| ZeroDivisionError
| OverflowError
| KeyError
| Exception (message : string).

(** The outcome of a call: a returned value or a raised exception. What a
    raising call leaves of the instance state is not followed further. *)
Inductive result (A : Type) : Type :=
| Ok (a : A)
| Raise (e : exn).
Arguments Ok {A} a.
Arguments Raise {A} e.

#[global] Instance result_ret : MRet result := fun A a => Ok a.

#[global] Instance result_bind : MBind result := fun A B k r =>
  match r with
  | Ok a => k a
  | Raise e => Raise e
  end.

Module PyFloat.

(** [float(z)]: the binary64 value nearest to the integer [z], ties to
    even. Python raises OverflowError where this yields an infinity
    (|z| >= 2^1024); no integer of the model is that large. *)
Definition float_of_int (z : Z) : float :=
  SF2Prim (binary_normalize prec emax z 0 false).

(** [a / b] on Python ints: true division. Exact operands (|a|, |b| <= 2^53,
    as every sample count and sample rate is) make the quotient of the two
    conversions the correctly rounded quotient Python returns. *)
Definition int_truediv (a b : Z) : result float :=
  if b =? 0 then Raise ZeroDivisionError
  else Ok (PrimFloat.div (float_of_int a) (float_of_int b)).

(** [x / y] on Python floats raises on a zero divisor (of either sign). *)
Definition float_truediv (x y : float) : result float :=
  if PrimFloat.eqb y 0 then Raise ZeroDivisionError
  else Ok (PrimFloat.div x y).

(** The magnitude [m * 2^e] truncated to an integer. *)
Definition trunc_mag (m : positive) (e : Z) : Z :=
  match e with
  | Z0 => Zpos m
  | Zpos p => Zpos m * 2 ^ Zpos p
  | Zneg p => Zpos m / 2 ^ Zpos p
  end.

(** [int(x)]: truncation toward zero; ValueError on a NaN, OverflowError on
    an infinity. *)
Definition int_of_float (x : float) : result Z :=
  match Prim2SF x with
  | S754_zero _ => Ok 0
  | S754_finite s m e => Ok (if s then - trunc_mag m e else trunc_mag m e)
  | S754_infinity _ => Raise OverflowError
  | S754_nan => Raise ValueError
  end.

(** The rational number a finite float denotes. *)
Definition exact (x : float) : option Q :=
  match Prim2SF x with
  | S754_zero _ => Some 0%Q
  | S754_finite s m e =>
      let mag := match e with
                 | Z0 => inject_Z (Zpos m)
                 | Zpos p => inject_Z (Zpos m * 2 ^ Zpos p)
                 | Zneg p => Qmake (Zpos m) (2 ^ p)
                 end in
      Some (if s then Qopp mag else mag)
  | _ => None
  end.

(** [x >= y] and [x < y] on floats (false on a NaN, as in Python). *)
Definition geb (x y : float) : bool := PrimFloat.leb y x.
Definition ltb (x y : float) : bool := PrimFloat.ltb x y.

End PyFloat.

Module Turn.
Import PyFloat.

(** Modelled from the spec: [EndOfTurnState] is imported from
    [pipecat.audio.turn.base_turn_analyzer], which is not among the
    sources. Section 4.5 of the specification names its two decisions,
    Complete and Incomplete, the only members the code uses. *)
Inductive EndOfTurnState : Type :=
| COMPLETE
| INCOMPLETE.

Definition EndOfTurnState_eqb (a b : EndOfTurnState) : bool :=
  match a, b with
  | COMPLETE, COMPLETE | INCOMPLETE, INCOMPLETE => true
  | _, _ => false
  end.

(** Default timing parameters. *)
Definition STOP_SECS : float := 3.
Definition PRE_SPEECH_MS : float := 0.
Definition MAX_DURATION_SECONDS : float := 8.
Definition USE_ONLY_LAST_VAD_SEGMENT : bool := true.

Record SmartTurnParams : Type := {
  stop_secs : float;
  pre_speech_ms : float;
  max_duration_secs : float
}.

Definition default_params : SmartTurnParams :=
  {| stop_secs := STOP_SECS;
     pre_speech_ms := PRE_SPEECH_MS;
     max_duration_secs := MAX_DURATION_SECONDS |}.

(** One entry of [_audio_buffer]: [(time.time(), audio_float32)]. *)
Definition entry : Type := (float * list float)%type.

(** The instance state of [BaseSmartTurn]. [_sample_rate] belongs to the
    base class [BaseTurnAnalyzer] (outside the sources), which sets it
    before audio arrives; the [sample_rate] property reads it. *)
Record BaseSmartTurn : Type := {
  _params : SmartTurnParams;
  _sample_rate : Z;
  _stop_ms : float;
  _audio_buffer : list entry;
  _speech_triggered : bool;
  _silence_ms : float;
  _speech_start_time : option float
}.

Definition sample_rate (self : BaseSmartTurn) : Z := _sample_rate self.

(** [__init__], with the sample rate the base class ends up holding. *)
Definition init (rate : Z) (params : SmartTurnParams) : BaseSmartTurn :=
  {| _params := params;
     _sample_rate := rate;
     _stop_ms := PrimFloat.mul (stop_secs params) 1000;
     _audio_buffer := [];
     _speech_triggered := false;
     _silence_ms := 0;
     _speech_start_time := None |}.

Definition speech_triggered (self : BaseSmartTurn) : bool :=
  _speech_triggered self.

(** What the abstract method [_predict_endpoint] returns. *)
Record Prediction : Type := {
  prediction : Z;
  probability : float
}.

(** The abstract method of the class: a subclass supplies the classifier. *)
Class SmartTurnModel : Type := {
  _predict_endpoint : list float -> Prediction
}.

(** *** Decoding the raw audio *)

(** One little-endian 16-bit two's-complement sample. *)
Definition int16_of_bytes (lo hi : Byte.byte) : Z :=
  let u := Z.lor (Z.of_N (Byte.to_N lo)) (Z.shiftl (Z.of_N (Byte.to_N hi)) 8) in
  if Z.testbit u 15 then u - 65536 else u.

(** [np.frombuffer(buffer, dtype=np.int16)]: ValueError when the size is
    not a multiple of the element size. *)
Fixpoint frombuffer_int16 (buffer : list Byte.byte) : result (list Z) :=
  match buffer with
  | [] => Ok []
  | [_] => Raise ValueError
  | lo :: hi :: rest =>
      samples ← frombuffer_int16 rest;
      Ok (int16_of_bytes lo hi :: samples)
  end.

(** One sample of [audio_int16.astype(np.float32) / 32768.0]. The float32
    quotient of a 16-bit integer by 2^15 is exact, hence equal to the
    binary64 quotient computed here. *)
Definition normalize (s : Z) : float :=
  PrimFloat.div (float_of_int s) 32768.

Definition audio_float32 (audio_int16 : list Z) : list float :=
  map normalize audio_int16.

(** *** [_clear] *)

Definition _clear (self : BaseSmartTurn) (turn_state : EndOfTurnState)
  : BaseSmartTurn :=
  {| _params := _params self;
     _sample_rate := _sample_rate self;
     _stop_ms := _stop_ms self;
     _speech_triggered := EndOfTurnState_eqb turn_state INCOMPLETE;
     _audio_buffer := [];
     _speech_start_time := None;
     _silence_ms := 0 |}.

(** *** [append_audio] *)

Definition max_buffer_time (p : SmartTurnParams) : float :=
  PrimFloat.add
    (PrimFloat.add (PrimFloat.div (pre_speech_ms p) 1000) (stop_secs p))
    (max_duration_secs p).

(** The trimming loop
    [while buf and buf[0][0] < time.time() - max_buffer_time: buf.pop(0)].
    [now k] is the clock reading of the [k]-th test. *)
Fixpoint trim (mbt : float) (now : nat -> float) (k : nat) (buf : list entry)
  : list entry :=
  match buf with
  | [] => []
  | e :: rest =>
      if ltb (fst e) (PrimFloat.sub (now k) mbt)
      then trim mbt now (S k) rest
      else buf
  end.

(** [len(audio_int16) / (self._sample_rate / 1000)]. *)
Definition chunk_duration_ms (rate : Z) (audio_int16 : list Z)
  : result float :=
  per_ms ← int_truediv rate 1000;
  float_truediv (float_of_int (Z.of_nat (length audio_int16))) per_ms.

Definition set_buffer (self : BaseSmartTurn) (buf : list entry)
  : BaseSmartTurn :=
  {| _params := _params self;
     _sample_rate := _sample_rate self;
     _stop_ms := _stop_ms self;
     _audio_buffer := buf;
     _speech_triggered := _speech_triggered self;
     _silence_ms := _silence_ms self;
     _speech_start_time := _speech_start_time self |}.

Definition set_silence (self : BaseSmartTurn) (ms : float) : BaseSmartTurn :=
  {| _params := _params self;
     _sample_rate := _sample_rate self;
     _stop_ms := _stop_ms self;
     _audio_buffer := _audio_buffer self;
     _speech_triggered := _speech_triggered self;
     _silence_ms := ms;
     _speech_start_time := _speech_start_time self |}.

(** The speech branch: silence reset, trigger set, start time recorded once. *)
Definition on_speech (self : BaseSmartTurn) (t : float) : BaseSmartTurn :=
  {| _params := _params self;
     _sample_rate := _sample_rate self;
     _stop_ms := _stop_ms self;
     _audio_buffer := _audio_buffer self;
     _speech_triggered := true;
     _silence_ms := 0;
     _speech_start_time :=
       match _speech_start_time self with
       | None => Some t
       | Some t0 => Some t0
       end |}.

(** [append_audio(buffer, is_speech)]. [now k] is the value of the [k]-th
    call of [time.time()] made during this call. *)
Definition append_audio (now : nat -> float) (self : BaseSmartTurn)
    (buffer : list Byte.byte) (is_speech : bool)
  : result (BaseSmartTurn * EndOfTurnState) :=
  audio_int16 ← frombuffer_int16 buffer;
  let self := set_buffer self
                (_audio_buffer self ++ [(now 0%nat, audio_float32 audio_int16)]) in
  if is_speech then
    Ok (on_speech self (now 1%nat), INCOMPLETE)
  else if _speech_triggered self then
    d ← chunk_duration_ms (_sample_rate self) audio_int16;
    let self := set_silence self (PrimFloat.add (_silence_ms self) d) in
    if geb (_silence_ms self) (_stop_ms self)
    then Ok (_clear self COMPLETE, COMPLETE)
    else Ok (self, INCOMPLETE)
  else
    Ok (set_buffer self
          (trim (max_buffer_time (_params self)) now 1 (_audio_buffer self)),
        INCOMPLETE).

(** *** [_process_speech_segment] *)

(** The index the [for] loop leaves in [start_index]: that of the first
    entry with [t >= start_time], or 0 when there is none. *)
Fixpoint first_index_from (start_time : float) (i : nat) (buf : list entry)
  : option nat :=
  match buf with
  | [] => None
  | e :: rest =>
      if geb (fst e) start_time then Some i
      else first_index_from start_time (S i) rest
  end.

Definition start_index (start_time : float) (buf : list entry) : nat :=
  match first_index_from start_time 0 buf with
  | Some i => i
  | None => 0%nat
  end.

(** [a[start:]] for an integer [start], as Python slices: a negative start
    counts from the end, and both ends are clipped. *)
Definition slice_from {A : Type} (start : Z) (a : list A) : list A :=
  let n := Z.of_nat (length a) in
  let i := if start <? 0 then Z.max (n + start) 0 else Z.min start n in
  drop (Z.to_nat i) a.

(** The decision, and the segments the classifier was invoked on. *)
Definition _process_speech_segment `{SmartTurnModel} (self : BaseSmartTurn)
    (audio_buffer : list entry)
  : result (EndOfTurnState * list (list float)) :=
  match audio_buffer with
  | [] => Ok (INCOMPLETE, [])
  | _ :: _ =>
      match _speech_start_time self with
      | None => Raise TypeError
      | Some t0 =>
          let start_time :=
            PrimFloat.sub t0 (PrimFloat.div (pre_speech_ms (_params self)) 1000) in
          let start_index := start_index start_time audio_buffer in
          let segment_audio_chunks := map snd (drop start_index audio_buffer) in
          let segment_audio := concat segment_audio_chunks in
          max_samples ←
            int_of_float
              (PrimFloat.mul (max_duration_secs (_params self))
                 (float_of_int (sample_rate self)));
          let segment_audio :=
            if max_samples <? Z.of_nat (length segment_audio)
            then slice_from (- max_samples) segment_audio
            else segment_audio in
          if 0 <? Z.of_nat (length segment_audio) then
            let result := _predict_endpoint segment_audio in
            Ok (if prediction result =? 1 then COMPLETE else INCOMPLETE,
                [segment_audio])
          else Ok (INCOMPLETE, [])
      end
  end.

(** *** [analyze_end_of_turn] *)

Definition analyze_end_of_turn `{SmartTurnModel} (self : BaseSmartTurn)
  : result (BaseSmartTurn * EndOfTurnState * list (list float)) :=
  '(state, calls) ← _process_speech_segment self (_audio_buffer self);
  let self :=
    if EndOfTurnState_eqb state COMPLETE || USE_ONLY_LAST_VAD_SEGMENT
    then _clear self state
    else self in
  Ok (self, state, calls).

(** A sequence of [append_audio] calls, each with its clock readings;
    the decisions are returned in call order. *)
Fixpoint feed (self : BaseSmartTurn)
    (calls : list ((nat -> float) * list Byte.byte * bool))
  : result (BaseSmartTurn * list EndOfTurnState) :=
  match calls with
  | [] => Ok (self, [])
  | (now, buffer, is_speech) :: rest =>
      '(self, st) ← append_audio now self buffer is_speech;
      '(self, sts) ← feed self rest;
      Ok (self, st :: sts)
  end.

End Turn.

(** Modelled from the spec: the frame classes are declared in
    [pipecat.frames.frames], which is not among the sources. Section 6 of the
    specification gives their payloads: Error(message), SynthesizedAudio(pcm
    samples, sample rate, channel count), SynthesisStarted/Stopped. Only the
    classes the two services construct are listed. *)
Inductive Frame : Type :=
| ErrorFrame (error : string)
| TTSStartedFrame
| TTSStoppedFrame
| TTSAudioRawFrame (audio : list Byte.byte) (sample_rate : Z) (num_channels : Z).

Module PyStr.
Local Open Scope string_scope.

(** [c.lower()] on an ASCII character; strings are taken as ASCII. *)
Definition lower_ascii (c : ascii) : ascii :=
  let n := N_of_ascii c in
  if ((65 <=? n) && (n <=? 90))%N then ascii_of_N (n + 32) else c.

Fixpoint lower (s : string) : string :=
  match s with
  | EmptyString => EmptyString
  | String c rest => String (lower_ascii c) (lower rest)
  end.

(** [needle in hay]. *)
Fixpoint contains (needle hay : string) : bool :=
  if String.prefix needle hay then true
  else match hay with
       | EmptyString => false
       | String _ rest => contains needle rest
       end.

(** [s.replace(c, "")] for a one-character [c]. *)
Fixpoint remove_char (c : ascii) (s : string) : string :=
  match s with
  | EmptyString => EmptyString
  | String d rest =>
      if Ascii.eqb c d then remove_char c rest
      else String d (remove_char c rest)
  end.

Definition b64_alphabet : string :=
  "ABCDEFGHIJKLMNOPQRSTUVWXYZabcdefghijklmnopqrstuvwxyz0123456789+/".

Definition b64_char (n : Z) : ascii :=
  match String.get (Z.to_nat (Z.land n 63)) b64_alphabet with
  | Some c => c
  | None => "="%char
  end.

Definition byteZ (b : Byte.byte) : Z := Z.of_N (Byte.to_N b).

(** [base64.b64encode(audio).decode("utf-8")]. *)
Fixpoint b64encode (audio : list Byte.byte) : string :=
  match audio with
  | [] => EmptyString
  | [a] =>
      let n := Z.shiftl (byteZ a) 16 in
      String (b64_char (Z.shiftr n 18))
        (String (b64_char (Z.shiftr n 12)) "==")
  | [a; b] =>
      let n := Z.lor (Z.shiftl (byteZ a) 16) (Z.shiftl (byteZ b) 8) in
      String (b64_char (Z.shiftr n 18))
        (String (b64_char (Z.shiftr n 12))
           (String (b64_char (Z.shiftr n 6)) "="))
  | a :: b :: c :: rest =>
      let n := Z.lor (Z.lor (Z.shiftl (byteZ a) 16) (Z.shiftl (byteZ b) 8))
                 (byteZ c) in
      String (b64_char (Z.shiftr n 18))
        (String (b64_char (Z.shiftr n 12))
           (String (b64_char (Z.shiftr n 6))
              (String (b64_char n) (b64encode rest))))
  end.

End PyStr.

Module Sarvam.
Import PyStr.
Local Open Scope string_scope.

(** Modelled from the spec: [Language] is declared in
    [pipecat.transcriptions.language], which is not among the sources; the
    specification only speaks of a language tag. The members [stt.py]
    names are listed; [OtherLanguage name] stands for any other member of
    the enumeration. *)
Inductive Language : Type :=
| BN_IN | GU_IN | HI_IN | KN_IN | ML_IN | MR_IN | TA_IN | TE_IN
| PA_IN | OR_IN | EN_US | EN_IN | AS_IN
| OtherLanguage (name : string).

#[global] Instance Language_eq_dec : EqDecision Language.
Proof. solve_decision. Defined.

Definition Language_encode (l : Language) : nat + string :=
  match l with
  | BN_IN => inl 0%nat | GU_IN => inl 1%nat | HI_IN => inl 2%nat
  | KN_IN => inl 3%nat | ML_IN => inl 4%nat | MR_IN => inl 5%nat
  | TA_IN => inl 6%nat | TE_IN => inl 7%nat | PA_IN => inl 8%nat
  | OR_IN => inl 9%nat | EN_US => inl 10%nat | EN_IN => inl 11%nat
  | AS_IN => inl 12%nat
  | OtherLanguage name => inr name
  end.

Definition Language_decode (x : nat + string) : Language :=
  match x with
  | inl 0%nat => BN_IN | inl 1%nat => GU_IN | inl 2%nat => HI_IN
  | inl 3%nat => KN_IN | inl 4%nat => ML_IN | inl 5%nat => MR_IN
  | inl 6%nat => TA_IN | inl 7%nat => TE_IN | inl 8%nat => PA_IN
  | inl 9%nat => OR_IN | inl 10%nat => EN_US | inl 11%nat => EN_IN
  | inl _ => AS_IN
  | inr name => OtherLanguage name
  end.

#[global] Program Instance Language_countable : Countable Language :=
  inj_countable' Language_encode Language_decode _.
Next Obligation. intros []; reflexivity. Qed.

(** The dict literal of [language_to_sarvam_language] (its keys are
    distinct). *)
Definition SARVAM_LANGUAGES : gmap Language string :=
  list_to_map
    [ (BN_IN, "bn-IN"); (GU_IN, "gu-IN"); (HI_IN, "hi-IN"); (KN_IN, "kn-IN");
      (ML_IN, "ml-IN"); (MR_IN, "mr-IN"); (TA_IN, "ta-IN"); (TE_IN, "te-IN");
      (PA_IN, "pa-IN"); (OR_IN, "od-IN"); (EN_US, "en-US"); (EN_IN, "en-IN");
      (AS_IN, "as-IN") ].

Definition language_to_sarvam_language (language : Language) : string :=
  default "hi-IN" (SARVAM_LANGUAGES !! language).

(** The dict literal of [_map_language_code_to_enum]. *)
Definition mapping : gmap string Language :=
  list_to_map
    [ ("bn-IN", BN_IN); ("gu-IN", GU_IN); ("hi-IN", HI_IN); ("kn-IN", KN_IN);
      ("ml-IN", ML_IN); ("mr-IN", MR_IN); ("ta-IN", TA_IN); ("te-IN", TE_IN);
      ("pa-IN", PA_IN); ("od-IN", OR_IN); ("en-US", EN_US); ("en-IN", EN_IN);
      ("as-IN", AS_IN) ].

Definition _map_language_code_to_enum (language_code : string) : Language :=
  default HI_IN (mapping !! language_code).

(** What awaiting [transcribe] or [translate] on the socket does: it
    returns, or raises an [Exception] whose text is [e]. *)
Inductive SendOutcome : Type :=
| Sent
| SendRaised (e : string).

(** The SDK's socket client, an external collaborator. *)
Record SocketClient : Type := {
  transcribe : string -> string -> Z -> SendOutcome;
  translate : string -> string -> Z -> SendOutcome
}.

Record SarvamSTTService : Type := {
  _model : string;
  _language_code : Language;
  _language_string : string;
  _socket_client : option SocketClient;
  sample_rate : Z
}.

(** What one [run_stt] call does: the values it yields, and the frames it
    hands to [push_error]. *)
Record SttRun : Type := {
  yielded : list (option Frame);
  pushed_errors : list Frame
}.

(** The body of the [try] block of [run_stt]: the audio goes out base64
    encoded, through [transcribe] for a saarika model and through
    [translate] otherwise. *)
Definition send_audio (self : SarvamSTTService) (client : SocketClient)
    (audio : list Byte.byte) : SendOutcome :=
  let audio_base64 := b64encode audio in
  if contains "saarika" (lower (_model self))
  then transcribe client audio_base64 "audio/wav" (sample_rate self)
  else translate client audio_base64 "audio/wav" (sample_rate self).

Definition run_stt (self : SarvamSTTService) (audio : list Byte.byte) : SttRun :=
  match _socket_client self with
  | None => {| yielded := [None]; pushed_errors := [] |}
  | Some client =>
      match send_audio self client audio with
      | Sent => {| yielded := [None]; pushed_errors := [] |}
      | SendRaised e =>
          {| yielded := [None];
             pushed_errors := [ErrorFrame ("Failed to send audio: " ++ e)] |}
      end
  end.

End Sarvam.

Module XTTS.
Import PyStr.
Local Open Scope string_scope.

(** A JSON value of the studio-speakers document, kept as its text: the
    service hands it on unread. *)
Definition Json : Type := string.

(** The [_settings] dict, whose two keys are fixed at construction. *)
Record Settings : Type := {
  language : option string;
  base_url : string
}.

(** The JSON body of the synthesis request. *)
Record Payload : Type := {
  text : string;
  payload_language : option string;
  speaker_embedding : Json;
  gpt_cond_latent : Json;
  add_wav_header : bool;
  stream_chunk_size : Z
}.

(** What [aiohttp_session.post(url, json=payload)] does: a response with
    its status, its body text and its content as [iter_chunked] delivers
    it, or an exception raised by the client. *)
Inductive PostOutcome : Type :=
| Response (status : Z) (body : string) (content : list (list Byte.byte))
| PostRaised (e : string).

(** The stream resampler made by [create_stream_resampler] (outside the
    sources): it keeps a state of its own from call to call. *)
Class StreamResampler (R : Type) : Type := {
  resample : R -> list Byte.byte -> Z -> Z -> R * list Byte.byte
}.

Section Service.
Context {R : Type} `{StreamResampler R}.

Record XTTSService : Type := {
  _settings : Settings;
  _voice_id : string;
  _studio_speakers : option (gmap string (gmap string Json));
  _aiohttp_session : string -> Payload -> PostOutcome;
  _resampler : R;
  sample_rate : Z
}.

Definition set_resampler (self : XTTSService) (rs : R) : XTTSService :=
  {| _settings := _settings self;
     _voice_id := _voice_id self;
     _studio_speakers := _studio_speakers self;
     _aiohttp_session := _aiohttp_session self;
     _resampler := rs;
     sample_rate := sample_rate self |}.

Definition audio_frame (self : XTTSService) (resampled_audio : list Byte.byte)
  : Frame :=
  TTSAudioRawFrame resampled_audio (sample_rate self) 1.

(** The loop [while len(buffer) >= 48000], run on fuel: each turn takes
    48000 bytes off the buffer, so [length buffer] turns are enough. *)
Fixpoint drain (fuel : nat) (self : XTTSService) (buffer : list Byte.byte)
  : XTTSService * list Byte.byte * list Frame :=
  match fuel with
  | O => (self, buffer, [])
  | S fuel =>
      if (48000 <=? Z.of_nat (length buffer))%Z then
        let process_data := take (Z.to_nat 48000) buffer in
        let buffer := drop (Z.to_nat 48000) buffer in
        let '(rs, resampled_audio) :=
          resample (_resampler self) process_data 24000 (sample_rate self) in
        let self := set_resampler self rs in
        let '(self', buffer, frames) := drain fuel self buffer in
        (self', buffer, audio_frame self resampled_audio :: frames)
      else (self, buffer, [])
  end.

(** The loop [async for chunk in r.content.iter_chunked(CHUNK_SIZE)]. *)
Fixpoint stream (self : XTTSService) (buffer : list Byte.byte)
    (content : list (list Byte.byte))
  : XTTSService * list Byte.byte * list Frame :=
  match content with
  | [] => (self, buffer, [])
  | chunk :: rest =>
      if (0 <? Z.of_nat (length chunk))%Z then
        let buffer := (buffer ++ chunk)%list in
        let '(self, buffer, frames) := drain (length buffer) self buffer in
        let '(self, buffer, frames') := stream self buffer rest in
        (self, buffer, (frames ++ frames')%list)
      else stream self buffer rest
  end.

(** One run of the [run_tts] generator: the frames it yields, then how it
    ends (it returns, leaving the service in a new state, or an exception
    leaves it). *)
Record TtsRun : Type := {
  yielded : list Frame;
  finish : result XTTSService
}.

(** The lookups of [run_tts] before the request: the speaker's
    embeddings, the url and the payload; a missing key raises. *)
Definition request (self : XTTSService)
    (speakers : gmap string (gmap string Json)) (text0 : string)
  : result (string * Payload) :=
  embeddings ← match speakers !! _voice_id self with
                | Some embeddings => Ok embeddings
                | None => Raise KeyError
                end;
  let url := base_url (_settings self) ++ "/tts_stream" in
  se ← match embeddings !! "speaker_embedding" with
        | Some v => Ok v
        | None => Raise KeyError
        end;
  gcl ← match embeddings !! "gpt_cond_latent" with
         | Some v => Ok v
         | None => Raise KeyError
         end;
  Ok (url,
      {| text := remove_char "*" (remove_char "." text0);
         payload_language := language (_settings self);
         speaker_embedding := se;
         gpt_cond_latent := gcl;
         add_wav_header := false;
         stream_chunk_size := 20 |}).

(** [not self._studio_speakers]: unset, or an empty dict. *)
Definition usable_speakers (self : XTTSService)
  : option (gmap string (gmap string Json)) :=
  match _studio_speakers self with
  | None => None
  | Some speakers => if bool_decide (speakers = ∅) then None else Some speakers
  end.

Definition run_tts (self : XTTSService) (text0 : string) : TtsRun :=
  match usable_speakers self with
  | None => {| yielded := []; finish := Ok self |}
  | Some speakers =>
      match request self speakers text0 with
      | Raise e => {| yielded := []; finish := Raise e |}
      | Ok (url, payload) =>
          match _aiohttp_session self url payload with
          | PostRaised e => {| yielded := []; finish := Raise (Exception e) |}
          | Response status body content =>
              if negb (status =? 200)%Z then
                {| yielded :=
                     [ErrorFrame ("Error getting audio (status: "
                                  ++ pretty status ++ ", error: " ++ body ++ ")")];
                   finish := Ok self |}
              else
                let '(self, buffer, frames) := stream self [] content in
                let '(self, tail) :=
                  if (0 <? Z.of_nat (length buffer))%Z then
                    let '(rs, resampled_audio) :=
                      resample (_resampler self) buffer 24000 (sample_rate self) in
                    (set_resampler self rs, [audio_frame self resampled_audio])
                  else (self, []) in
                {| yielded := ([TTSStartedFrame] ++ frames ++ tail
                               ++ [TTSStoppedFrame])%list;
                   finish := Ok self |}
          end
      end
  end.

End Service.

Arguments XTTSService R : clear implicits.
Arguments TtsRun R : clear implicits.

End XTTS.

(** ** More of the XTTS service *)

Module XTTSLanguage.
Import PyStr.
Local Open Scope string_scope.

(** Modelled from the spec: [Language] is declared in
    [pipecat.transcriptions.language], which is not among the sources; the
    specification only speaks of a language tag. The members [tts.py] names
    are listed; [OtherLanguage value] stands for any other member, by its
    string value (such as es-ES): the values of the sixteen listed members
    belong to these and to no other member. *)
Inductive Language : Type :=
| CS | DE | EN | ES | FR | HI | HU | IT | JA | KO | NL | PL | PT | RU | TR | ZH
| OtherLanguage (value : string).

#[global] Instance Language_eq_dec : EqDecision Language.
Proof. solve_decision. Defined.

Definition Language_encode (l : Language) : nat + string :=
  match l with
  | CS => inl 0%nat | DE => inl 1%nat | EN => inl 2%nat | ES => inl 3%nat
  | FR => inl 4%nat | HI => inl 5%nat | HU => inl 6%nat | IT => inl 7%nat
  | JA => inl 8%nat | KO => inl 9%nat | NL => inl 10%nat | PL => inl 11%nat
  | PT => inl 12%nat | RU => inl 13%nat | TR => inl 14%nat | ZH => inl 15%nat
  | OtherLanguage value => inr value
  end.

Definition Language_decode (x : nat + string) : Language :=
  match x with
  | inl 0%nat => CS | inl 1%nat => DE | inl 2%nat => EN | inl 3%nat => ES
  | inl 4%nat => FR | inl 5%nat => HI | inl 6%nat => HU | inl 7%nat => IT
  | inl 8%nat => JA | inl 9%nat => KO | inl 10%nat => NL | inl 11%nat => PL
  | inl 12%nat => PT | inl 13%nat => RU | inl 14%nat => TR | inl _ => ZH
  | inr value => OtherLanguage value
  end.

#[global] Program Instance Language_countable : Countable Language :=
  inj_countable' Language_encode Language_decode _.
Next Obligation. intros []; reflexivity. Qed.

(** [language.value]. The sixteen members of the dict are given the value
    their name spells; [language_to_xtts_language] never reads it, the dict
    answering first. *)
Definition value (language : Language) : string :=
  match language with
  | CS => "cs" | DE => "de" | EN => "en" | ES => "es" | FR => "fr"
  | HI => "hi" | HU => "hu" | IT => "it" | JA => "ja" | KO => "ko"
  | NL => "nl" | PL => "pl" | PT => "pt" | RU => "ru" | TR => "tr"
  | ZH => "zh"
  | OtherLanguage value => value
  end.

(** The dict literal [BASE_LANGUAGES], as written (its keys are distinct). *)
Definition BASE_TABLE : list (Language * string) :=
  [ (CS, "cs"); (DE, "de"); (EN, "en"); (ES, "es"); (FR, "fr"); (HI, "hi");
    (HU, "hu"); (IT, "it"); (JA, "ja"); (KO, "ko"); (NL, "nl"); (PL, "pl");
    (PT, "pt"); (RU, "ru"); (TR, "tr"); (ZH, "zh-cn") ].

Definition BASE_LANGUAGES : gmap Language string := list_to_map BASE_TABLE.

(** [BASE_LANGUAGES.values()]. *)
Definition BASE_VALUES : list string := (map_to_list BASE_LANGUAGES).*2.

(** [s.split("-")[0]]: what stands before the first dash. *)
Fixpoint before_dash (s : string) : string :=
  match s with
  | EmptyString => EmptyString
  | String c rest =>
      if Ascii.eqb c "-" then EmptyString else String c (before_dash rest)
  end.

(** The truth value of an optional string: [None] and the empty string are
    false. *)
Definition truthy (result : option string) : bool :=
  match result with
  | None => false
  | Some s => negb (String.eqb s "")
  end.

Definition language_to_xtts_language (language : Language) : option string :=
  let result := BASE_LANGUAGES !! language in
  if truthy result then result
  else
    let lang_str := value language in
    let base_code := lower (before_dash lang_str) in
    if String.eqb base_code "zh" then Some "zh-cn"
    else if bool_decide (base_code ∈ BASE_VALUES) then Some base_code
    else None.

End XTTSLanguage.

Module XTTSStart.
Import PyStr XTTS XTTSLanguage.
Local Open Scope string_scope.

(** What [aiohttp_session.get(url)] does: a response with its status, its
    body text and its JSON document, or an exception (raised by the client,
    or by the parsing of the document). *)
Inductive GetOutcome : Type :=
| GetResponse (status : Z) (body : string)
              (document : gmap string (gmap string Json))
| GetRaised (e : string).

Section Service.
Context {R : Type}.

Definition set_studio_speakers (self : XTTSService R)
    (speakers : option (gmap string (gmap string Json))) : XTTSService R :=
  {| _settings := _settings self;
     _voice_id := _voice_id self;
     _studio_speakers := speakers;
     _aiohttp_session := _aiohttp_session self;
     _resampler := _resampler self;
     sample_rate := sample_rate self |}.

Definition language_to_service_language (language : Language)
  : option string :=
  language_to_xtts_language language.

(** [__init__]: the language is stored as the server's code for it, and no
    studio speakers are known yet. [rate] is the sample rate the base class
    settles, [resampler] what [create_stream_resampler] makes. *)
Definition init (voice_id base_url : string)
    (aiohttp_session : string -> Payload -> PostOutcome)
    (language : Language) (rate : Z) (resampler : R) : XTTSService R :=
  {| _settings := {| XTTS.language := language_to_service_language language;
                     base_url := base_url |};
     _voice_id := voice_id;
     _studio_speakers := None;
     _aiohttp_session := aiohttp_session;
     _resampler := resampler;
     sample_rate := rate |}.

(** One call of [start]: the frames handed to [push_error], then how it
    ends. *)
Record StartRun : Type := {
  pushed : list Frame;
  outcome : result (XTTSService R)
}.

(** [start(frame)], after the base class's own [start]. [get] is the
    session's answer to a GET of the url. *)
Definition start (get : string -> GetOutcome) (self : XTTSService R) : StartRun :=
  match usable_speakers self with
  | Some _ => {| pushed := []; outcome := Ok self |}
  | None =>
      match get (base_url (_settings self) ++ "/studio_speakers") with
      | GetRaised e => {| pushed := []; outcome := Raise (Exception e) |}
      | GetResponse status body document =>
          if negb (status =? 200)%Z then
            {| pushed :=
                 [ErrorFrame ("Error error getting studio speakers (status: "
                              ++ pretty status ++ ", error: " ++ body ++ ")")];
               outcome := Ok self |}
          else
            {| pushed := [];
               outcome := Ok (set_studio_speakers self (Some document)) |}
      end
  end.

End Service.

Arguments StartRun R : clear implicits.

End XTTSStart.

(** ** More of the Sarvam service *)

Module SarvamSession.
Import PyStr Sarvam.
Local Open Scope string_scope.

(** *** The messages of the socket, as the models of [stt.py] declare them *)

(** [VADSignal]: START is START_SPEECH, END is END_SPEECH. *)
Inductive VADSignal : Type :=
| START
| END.

Record EventData : Type := {
  signal_type : VADSignal;
  occured_at : float
}.

Record TranscriptionMetrics : Type := {
  audio_duration : float;
  processing_latency : float
}.

(** A Python [str] read character by character: the list of its Unicode
    code points. The transcript is kept so, [strip] depending on them. *)
Definition Text : Type := list N.

Record TranscriptionData : Type := {
  request_id : string;
  transcript : Text;
  language_code : option string;
  metrics : option TranscriptionMetrics;
  is_final : option bool
}.

(** A parsed response, by its [type]: events, data, or anything else. *)
Inductive Message : Type :=
| EventResponse (data : EventData)
| TranscriptionResponse (data : TranscriptionData)
| OtherResponse (type : string).

(** *** The state of a session *)

(** What is asked of the SDK when connecting: the streaming endpoint and its
    arguments. The language is given to the speech-to-text endpoint only. *)
Inductive Endpoint : Type :=
| speech_to_text_streaming
| speech_to_text_translate_streaming.

Record ConnectRequest : Type := {
  endpoint : Endpoint;
  request_language_code : option string;
  request_model : string;
  vad_signals : bool;
  high_vad_sensitivity : bool;
  request_sample_rate : string;
  input_audio_codec : string
}.

(** How awaiting the listening task ends once it was cancelled: it is
    cancelled, it had returned, or it had failed with an exception. *)
Inductive TaskOutcome : Type :=
| TaskCancelled
| TaskReturned
| TaskFailed (e : string).

(** The service with the fields [run_stt] does not read: the user id of the
    base class, the context manager of the connection, and the listening
    task. *)
Record Session : Type := {
  service : SarvamSTTService;
  _user_id : string;
  _websocket_context : option ConnectRequest;
  _listening_task : option TaskOutcome
}.

Definition set_socket_client (self : SarvamSTTService)
    (client : option SocketClient) : SarvamSTTService :=
  {| _model := _model self;
     _language_code := _language_code self;
     _language_string := _language_string self;
     _socket_client := client;
     sample_rate := sample_rate self |}.

Definition set_model_name (self : SarvamSTTService) (model : string)
  : SarvamSTTService :=
  {| _model := model;
     _language_code := _language_code self;
     _language_string := _language_string self;
     _socket_client := _socket_client self;
     sample_rate := sample_rate self |}.

(** [__init__]: the language string is fixed from the language, and nothing
    is connected. *)
Definition init (model : string) (language_code : Language) (rate : Z)
    (user : string) : Session :=
  {| service :=
       {| _model := model;
          _language_code := language_code;
          _language_string := language_to_sarvam_language language_code;
          _socket_client := None;
          sample_rate := rate |};
     _user_id := user;
     _websocket_context := None;
     _listening_task := None |}.

Definition language_to_service_language (language : Language) : string :=
  language_to_sarvam_language language.

Definition can_generate_metrics : bool := true.

(** *** [_connect] *)

(** The argument list of the [connect] call of [_connect]. *)
Definition connect_request (self : SarvamSTTService) : ConnectRequest :=
  if contains "saarika" (lower (_model self)) then
    {| endpoint := speech_to_text_streaming;
       request_language_code := Some (_language_string self);
       request_model := _model self;
       vad_signals := true;
       high_vad_sensitivity := true;
       request_sample_rate := pretty (sample_rate self);
       input_audio_codec := "wav" |}
  else
    {| endpoint := speech_to_text_translate_streaming;
       request_language_code := None;
       request_model := _model self;
       vad_signals := true;
       high_vad_sensitivity := true;
       request_sample_rate := pretty (sample_rate self);
       input_audio_codec := "wav" |}.

(** What entering the context manager does: it gives the socket client, on
    which the handlers are registered and the listening task started, or it
    raises an ApiError, or another exception. [listening] is how awaiting
    that task will end. Building the context manager, registering the
    handlers and creating the task are taken not to raise. *)
Inductive OpenOutcome : Type :=
| Opened (client : SocketClient) (listening : TaskOutcome)
| OpenApiError (e : string)
| OpenRaised (e : string).

(** [_connect]: the new state, and the frames handed to [push_error]. The
    context manager is stored before it is entered. *)
Definition _connect (open : ConnectRequest -> OpenOutcome) (self : Session)
  : Session * list Frame :=
  let context := connect_request (service self) in
  match open context with
  | Opened client listening =>
      ({| service := set_socket_client (service self) (Some client);
          _user_id := _user_id self;
          _websocket_context := Some context;
          _listening_task := Some listening |},
       [])
  | OpenApiError e =>
      ({| service := service self;
          _user_id := _user_id self;
          _websocket_context := Some context;
          _listening_task := _listening_task self |},
       [ErrorFrame ("Sarvam API error: " ++ e)])
  | OpenRaised e =>
      ({| service := set_socket_client (service self) None;
          _user_id := _user_id self;
          _websocket_context := None;
          _listening_task := _listening_task self |},
       [ErrorFrame ("Failed to connect to Sarvam: " ++ e)])
  end.

(** *** [_disconnect] *)

(** The first half of [_disconnect]: the listening task is cancelled and
    awaited; an exception it had failed with is raised again. *)
Definition stop_listening (self : Session) : result Session :=
  match _listening_task self with
  | None => Ok self
  | Some (TaskFailed e) => Raise (Exception e)
  | Some _ =>
      Ok {| service := service self;
            _user_id := _user_id self;
            _websocket_context := _websocket_context self;
            _listening_task := None |}
  end.

(** [_disconnect]. The context manager is left only when both it and the
    socket client are set; what leaving it raises is logged, and both
    fields are reset in any case. *)
Definition _disconnect (self : Session) : result Session :=
  self ← stop_listening self;
  match _websocket_context self, _socket_client (service self) with
  | Some _, Some _ =>
      Ok {| service := set_socket_client (service self) None;
            _user_id := _user_id self;
            _websocket_context := None;
            _listening_task := _listening_task self |}
  | _, _ => Ok self
  end.

(** [start], [stop] and [cancel], after the base class's own. *)
Definition start (open : ConnectRequest -> OpenOutcome) (self : Session)
  : Session * list Frame :=
  _connect open self.

Definition stop (self : Session) : result Session := _disconnect self.

Definition cancel (self : Session) : result Session := _disconnect self.

(** [set_model(model)], after the base class's own: the name is stored
    first, then the connection is closed and opened again. *)
Definition set_model (open : ConnectRequest -> OpenOutcome) (self : Session)
    (model : string) : result (Session * list Frame) :=
  let self :=
    {| service := set_model_name (service self) model;
       _user_id := _user_id self;
       _websocket_context := _websocket_context self;
       _listening_task := _listening_task self |} in
  self ← _disconnect self;
  Ok (_connect open self).

(** *** [_handle_response] *)

(** Modelled from the spec: [TranscriptionFrame] is declared in
    [pipecat.frames.frames], which is not among the sources. Section 6 of the
    specification gives its payload: Transcript(text, speaker id, timestamp,
    language tag); the handler adds the response as [result]. *)
Record TranscriptionFrame : Type := {
  text : Text;
  user_id : string;
  timestamp : string;
  language : Language;
  result : Message
}.

(** The calls the handler awaits. *)
Inductive Call : Type :=
| start_ttfb_metrics
| start_processing_metrics
| stop_ttfb_metrics
| stop_processing_metrics
| _call_event_handler (event : string)
| push_frame (frame : TranscriptionFrame)
| push_error (frame : Frame).

(** [start_metrics]. *)
Definition start_metrics : list Call :=
  [start_ttfb_metrics; start_processing_metrics].

(** The whitespace [str.strip()] removes, by code point: U+0009 to U+000D,
    U+001C to U+0020, U+0085, U+00A0, U+1680, U+2000 to U+200A, U+2028,
    U+2029, U+202F, U+205F and U+3000. *)
Definition is_space (c : N) : bool :=
  (((9 <=? c) && (c <=? 13)) || ((28 <=? c) && (c <=? 32))
   || (c =? 133) || (c =? 160) || (c =? 5760)
   || ((8192 <=? c) && (c <=? 8202))
   || (c =? 8232) || (c =? 8233) || (c =? 8239) || (c =? 8287)
   || (c =? 12288))%N.

(** [s.lstrip()] and [s.strip()]. *)
Fixpoint lstrip (s : Text) : Text :=
  match s with
  | [] => []
  | c :: rest => if is_space c then lstrip rest else s
  end.

Definition strip (s : Text) : Text :=
  rev (lstrip (rev (lstrip s))).

(** The truth value of a string: the empty string is false. *)
Definition nonempty (s : Text) : bool :=
  match s with
  | [] => false
  | _ :: _ => true
  end.

(** The calls of the [try] block for a message, in order; none of them
    returns a value the handler reads. [now] is [time_now_iso8601()]. *)
Definition response_calls (self : Session) (now : string) (message : Message)
  : list Call :=
  match message with
  | EventResponse data =>
      match signal_type data with
      | START => start_metrics ++ [_call_event_handler "on_speech_started"]
      | END => []
      end
  | TranscriptionResponse data =>
      let language_code :=
        match language_code data with
        | None => "hi-IN"
        | Some code => code
        end in
      let language := _map_language_code_to_enum language_code in
      [stop_ttfb_metrics; _call_event_handler "on_utterance_end"]
      ++ (if nonempty (transcript data) && nonempty (strip (transcript data))
          then [push_frame {| text := transcript data;
                              user_id := _user_id self;
                              timestamp := now;
                              language := language;
                              result := message |}]
          else [])
      ++ [stop_processing_metrics]
  | OtherResponse _ => []
  end.

(** The calls made until one raises: [raises call] is the text of the
    exception [call] raises, if it does. *)
Fixpoint attempt (raises : Call -> option string) (calls : list Call)
  : list Call * option string :=
  match calls with
  | [] => ([], None)
  | call :: rest =>
      match raises call with
      | Some e => ([], Some e)
      | None =>
          let '(made, raised) := attempt raises rest in
          (call :: made, raised)
      end
  end.

(** [_handle_response(message)]: the calls it makes, the [push_error] of
    the [except] clause last ([push_error] itself is taken to return). *)
Definition _handle_response (raises : Call -> option string) (self : Session)
    (now : string) (message : Message) : list Call :=
  let '(made, raised) := attempt raises (response_calls self now message) in
  match raised with
  | None => made
  | Some e => made ++ [push_error (ErrorFrame ("Failed to handle response: " ++ e))]
  end.

End SarvamSession.

(** ** Concrete scenarios *)

Module Scenarios.
Local Open Scope string_scope.

(** A classifier whose prediction is [p] whatever the audio. *)
Definition constant_model (p : Z) : Turn.SmartTurnModel :=
  {| Turn._predict_endpoint :=
       fun _ => {| Turn.prediction := p; Turn.probability := 1 |} |}.

(** A clock that reads 1000 s at every call. *)
Definition steady_clock : nat -> float := fun _ => 1000%float.

(** 100 ms of digital silence at 16 kHz: 1600 samples in 3200 bytes. *)
Definition chunk_16k : list Byte.byte := replicate (Z.to_nat 3200) x00.

(** 100 ms of digital silence at 1100 Hz: 110 samples in 220 bytes. *)
Definition chunk_1100Hz : list Byte.byte := replicate (Z.to_nat 220) x00.

(** A threshold of 62.5 ms, which one 100 ms chunk of silence exceeds. *)
Definition quick_params : Turn.SmartTurnParams :=
  {| Turn.stop_secs := 0.0625; Turn.pre_speech_ms := 0;
     Turn.max_duration_secs := 8 |}.

(** The analyzer after one speech chunk holding the single sample 0x4000. *)
Definition spoken (params : Turn.SmartTurnParams) : Turn.BaseSmartTurn :=
  Turn.on_speech
    (Turn.set_buffer (Turn.init 16000 params) [(1000%float, [0.5%float])])
    1000.

(** An idle analyzer that buffered one chunk of silence at time 100 s. *)
Definition stale : Turn.BaseSmartTurn :=
  Turn.set_buffer (Turn.init 16000 Turn.default_params)
    [(100%float, [0.5%float])].

(** The analyzer after one speech chunk of ten seconds at 16 kHz. *)
Definition ten_seconds : Turn.BaseSmartTurn :=
  Turn.on_speech
    (Turn.set_buffer (Turn.init 16000 Turn.default_params)
       [(1000%float, replicate (Z.to_nat 160000) 0.5%float)])
    1000.

(** A budget of one sample: a sixteenth of a second at 16 Hz. *)
Definition one_sample_budget : Turn.BaseSmartTurn :=
  Turn.on_speech
    (Turn.set_buffer
       (Turn.init 16 {| Turn.stop_secs := 3; Turn.pre_speech_ms := 0;
                        Turn.max_duration_secs := 0.0625 |})
       [(1000%float, [0.5%float; 0.25%float])])
    1000.

(** The analyzer after one speech chunk of no bytes at all. *)
Definition spoken_nothing : Turn.BaseSmartTurn :=
  Turn.on_speech
    (Turn.set_buffer (Turn.init 16000 Turn.default_params) [(1000%float, [])])
    1000.

(** A socket whose every send raises. *)
Definition failing_client : Sarvam.SocketClient :=
  {| Sarvam.transcribe := fun _ _ _ => Sarvam.SendRaised "connection closed";
     Sarvam.translate := fun _ _ _ => Sarvam.SendRaised "connection closed" |}.

Definition stt_service (client : option Sarvam.SocketClient)
  : Sarvam.SarvamSTTService :=
  {| Sarvam._model := "saarika:v2.5";
     Sarvam._language_code := Sarvam.HI_IN;
     Sarvam._language_string := "hi-IN";
     Sarvam._socket_client := client;
     Sarvam.sample_rate := 16000 |}.

(** A resampler without state that hands the audio back. *)
#[global] Instance passthrough : XTTS.StreamResampler unit :=
  {| XTTS.resample := fun rs audio _ _ => (rs, audio) |}.

Definition one_speaker : gmap string (gmap string XTTS.Json) :=
  {[ "Ana" := {[ "speaker_embedding" := "[0.1]"; "gpt_cond_latent" := "[[0.2]]" ]} ]}.

(** An XTTS service whose server answers every request with [outcome]. *)
Definition tts_service
    (speakers : option (gmap string (gmap string XTTS.Json)))
    (outcome : XTTS.PostOutcome) : XTTS.XTTSService unit :=
  {| XTTS._settings := {| XTTS.language := Some "en";
                          XTTS.base_url := "http://localhost:8000" |};
     XTTS._voice_id := "Ana";
     XTTS._studio_speakers := speakers;
     XTTS._aiohttp_session := fun _ _ => outcome;
     XTTS._resampler := tt;
     XTTS.sample_rate := 24000 |}.

End Scenarios.

(** ** Vocabulary of the properties *)

Module TurnProps.
Import PyFloat Turn.

(** A state as [_clear] leaves it after a Complete decision. *)
Definition cleared (self : BaseSmartTurn) : Prop :=
  _audio_buffer self = [] /\
  _speech_triggered self = false /\
  _silence_ms self = 0%float /\
  _speech_start_time self = None.

(** [buffer] holds whole samples, and the analyzer computes [ms]
    milliseconds as its duration at sample rate [rate]. *)
Definition chunk_of_ms (rate : Z) (ms : float) (buffer : list Byte.byte) : Prop :=
  exists audio_int16,
    frombuffer_int16 buffer = Ok audio_int16 /\
    chunk_duration_ms rate audio_int16 = Ok ms.

(** [buffer] is [ms] milliseconds of audio at [rate] Hz: a whole number
    [rate * ms / 1000] of samples, of two bytes each. *)
Definition chunk_lasting (rate ms : Z) (buffer : list Byte.byte) : Prop :=
  (rate * ms) mod 1000 = 0 /\
  Z.of_nat (length buffer) = 2 * (rate * ms / 1000).

(** The sample rates in whole thousands of hertz up to 1 MHz, and those of
    the 44.1 kHz family. *)
Definition round_rate (rate : Z) : Prop :=
  (exists k, 1 <= k <= 1000 /\ rate = 1000 * k) \/
  rate = 22050 \/ rate = 44100 \/ rate = 88200 \/ rate = 176400.

Definition round_rates : list Z :=
  map (fun k => 1000 * Z.of_nat k) (seq 1 1000)
  ++ [22050; 44100; 88200; 176400].

(** The accumulator after [k] more chunks of [d] milliseconds each. *)
Fixpoint accumulate (x d : float) (k : nat) : float :=
  match k with
  | O => x
  | S k => accumulate (PrimFloat.add x d) d k
  end.

(** None of the next [k] chunks brings the accumulator to the threshold. *)
Fixpoint below_stop (x d stop_ms : float) (k : nat) : bool :=
  match k with
  | O => true
  | S k =>
      negb (geb (PrimFloat.add x d) stop_ms)
      && below_stop (PrimFloat.add x d) d stop_ms k
  end.

(** A call [append_audio(buffer, is_speech=False)] with its clock. *)
Definition silence_call (c : (nat -> float) * list Byte.byte)
  : (nat -> float) * list Byte.byte * bool :=
  (c.1, c.2, false).

(** The claim C1 as the specification words it, at any sample rate: with
    [stop_secs = 3.0], a 100 ms speech chunk and thirty 100 ms silence
    chunks are answered Incomplete thirty times and then Complete. *)
Definition thirtieth_silence_completes : Prop :=
  forall (rate : Z) (params : SmartTurnParams) now0 speech
         (silence : list ((nat -> float) * list Byte.byte)),
    stop_secs params = 3%float ->
    chunk_lasting rate 100 speech ->
    length silence = 30%nat ->
    Forall (fun c => chunk_lasting rate 100 c.2) silence ->
    exists self',
      feed (init rate params)
        ((now0, speech, true) :: map silence_call silence) =
        Ok (self', INCOMPLETE :: replicate 29 INCOMPLETE ++ [COMPLETE]).

(** The retention window as the specification names it, in seconds:
    [pre_speech_ms / 1000 + stop_secs + max_duration_secs]. *)
Definition retention_window (p : SmartTurnParams) : float :=
  PrimFloat.add
    (PrimFloat.add (PrimFloat.div (pre_speech_ms p) 1000) (stop_secs p))
    (max_duration_secs p).

(** An entry is older than the retention window at clock reading [tnow]:
    its timestamp lies before [tnow] less the window. *)
Definition older (p : SmartTurnParams) (tnow : float) (e : entry) : bool :=
  PrimFloat.ltb e.1 (PrimFloat.sub tnow (retention_window p)).

(** The timestamps of the buffer never decrease. *)
Definition time_ordered (buf : list entry) : Prop :=
  StronglySorted (fun a b : entry => PrimFloat.leb a.1 b.1 = true) buf.

(** The segment [analyze_end_of_turn] extracts before clamping. *)
Definition extracted_segment (self : BaseSmartTurn) (t0 : float) : list float :=
  concat
    (map snd
       (drop (start_index
                (PrimFloat.sub t0 (PrimFloat.div (pre_speech_ms (_params self)) 1000))
                (_audio_buffer self))
             (_audio_buffer self))).

(** The values of a 16-bit signed integer. *)
Definition int16_range (s : Z) : Prop := -32768 <= s <= 32767.

(** [x] lies in [[-1, 1]], as floats compare. *)
Definition unit_range (x : float) : bool :=
  PrimFloat.leb (-1) x && PrimFloat.leb x 1.

(** The float [normalize s] denotes the rational [s / 32768], and lies in
    [[-1, 1]] both as a rational and as a float. *)
Definition normalize_checked (s : Z) : bool :=
  unit_range (normalize s)
  && match exact (normalize s) with
     | Some q => Qeq_bool q (s # 32768) && Qle_bool (-1) q && Qle_bool q 1
     | None => false
     end.

(** [P] holds of every integer of [n] bits. *)
Fixpoint forall_bits (n : nat) (P : Z -> bool) : bool :=
  match n with
  | O => P 0
  | S n => forall_bits n (fun z => P (2 * z)) && forall_bits n (fun z => P (2 * z + 1))
  end.

(** The 16-bit signed integer the little-endian bytes [lo], [hi] hold. *)
Definition signed16 (lo hi : Byte.byte) : Z :=
  let u := Z.of_N (Byte.to_N lo) + 256 * Z.of_N (Byte.to_N hi) in
  if u <? 32768 then u else u - 65536.

(** The incoming samples: those the bytes of [buffer] hold, two bytes to a
    sample. *)
Fixpoint samples_of (buffer : list Byte.byte) : list Z :=
  match buffer with
  | lo :: hi :: rest => signed16 lo hi :: samples_of rest
  | _ => []
  end.

(** [x] is a normalized sample: the float [normalize s] of a 16-bit
    sample [s], within [[-1, 1]]. *)
Definition normalized_sample (x : float) : Prop :=
  exists s, int16_range s /\ x = normalize s /\ unit_range x = true.

(** Every buffered sample is a normalized sample. *)
Definition normalized (buf : list entry) : Prop :=
  Forall (fun e : entry => Forall normalized_sample e.2) buf.

End TurnProps.

Module ServiceProps.
Import Sarvam.
Local Open Scope string_scope.

(** The languages and the codes the two tables of [stt.py] list. *)
Definition supported_languages : list Language :=
  [BN_IN; GU_IN; HI_IN; KN_IN; ML_IN; MR_IN; TA_IN; TE_IN;
   PA_IN; OR_IN; EN_US; EN_IN; AS_IN].

Definition supported_codes : list string :=
  ["bn-IN"; "gu-IN"; "hi-IN"; "kn-IN"; "ml-IN"; "mr-IN"; "ta-IN"; "te-IN";
   "pa-IN"; "od-IN"; "en-US"; "en-IN"; "as-IN"].

(** A fault of the audio send of [Sarvam.run_stt]: no socket to send on, or
    the send raised. *)
Definition stt_fault (self : Sarvam.SarvamSTTService) (audio : list Byte.byte)
  : Prop :=
  Sarvam._socket_client self = None \/
  exists client e,
    Sarvam._socket_client self = Some client /\
    Sarvam.send_audio self client audio = Sarvam.SendRaised e.

(** An ErrorFrame was pushed or yielded by a [run_stt] call. *)
Definition stt_error_emitted (run : Sarvam.SttRun) : Prop :=
  exists e,
    ErrorFrame e ∈ Sarvam.pushed_errors run \/
    Some (ErrorFrame e) ∈ Sarvam.yielded run.

(** A fault of the synthesis request of [XTTS.run_tts]: no studio speakers, a
    missing key, a request that raised, or a status other than 200. *)
Definition tts_fault {R : Type} (self : XTTS.XTTSService R) (text : string)
  : Prop :=
  match XTTS.usable_speakers self with
  | None => True
  | Some speakers =>
      match XTTS.request self speakers text with
      | Raise _ => True
      | Ok (url, payload) =>
          match XTTS._aiohttp_session self url payload with
          | XTTS.PostRaised _ => True
          | XTTS.Response status _ _ => status <> 200
          end
      end
  end.

Definition tts_error_emitted {R : Type} (run : XTTS.TtsRun R) : Prop :=
  exists e, ErrorFrame e ∈ XTTS.yielded run.

(** The claim as the specification words it: every fault of either call
    ends in an ErrorFrame. *)
Definition every_fault_emits_error_frame : Prop :=
  (forall self audio,
      stt_fault self audio -> stt_error_emitted (Sarvam.run_stt self audio)) /\
  (forall (R : Type) (resampler : XTTS.StreamResampler R)
          (self : XTTS.XTTSService R) text,
      tts_fault self text -> tts_error_emitted (XTTS.run_tts self text)).

End ServiceProps.

(** ** Vocabulary of the further properties *)

Module MoreTurnProps.
Import PyFloat Turn.

(** The configuration of the analyzer: parameters, sample rate, threshold. *)
Definition same_config (a b : BaseSmartTurn) : Prop :=
  _params b = _params a /\
  _sample_rate b = _sample_rate a /\
  _stop_ms b = _stop_ms a.

(** The time from which [analyze_end_of_turn] keeps the buffered audio:
    [speech_start_time - pre_speech_ms / 1000]. *)
Definition segment_start_time (self : BaseSmartTurn) (t0 : float) : float :=
  PrimFloat.sub t0 (PrimFloat.div (pre_speech_ms (_params self)) 1000).

(** The samples of a buffer, oldest first. *)
Definition buffered_audio (buf : list entry) : list float :=
  concat (map snd buf).

End MoreTurnProps.

Module XTTSLanguageProps.
Local Open Scope string_scope.

(** The codes the XTTS server knows, as [BASE_LANGUAGES] lists them. *)
Definition xtts_codes : list string :=
  ["cs"; "de"; "en"; "es"; "fr"; "hi"; "hu"; "it"; "ja"; "ko"; "nl"; "pl";
   "pt"; "ru"; "tr"; "zh-cn"].

(** The sixteen languages [BASE_LANGUAGES] names, in the order of
    [xtts_codes]. *)
Definition xtts_members : list XTTSLanguage.Language :=
  [XTTSLanguage.CS; XTTSLanguage.DE; XTTSLanguage.EN; XTTSLanguage.ES;
   XTTSLanguage.FR; XTTSLanguage.HI; XTTSLanguage.HU; XTTSLanguage.IT;
   XTTSLanguage.JA; XTTSLanguage.KO; XTTSLanguage.NL; XTTSLanguage.PL;
   XTTSLanguage.PT; XTTSLanguage.RU; XTTSLanguage.TR; XTTSLanguage.ZH].

(** [s] holds no dash. *)
Fixpoint dashless (s : string) : bool :=
  match s with
  | EmptyString => true
  | String c rest => negb (Ascii.eqb c "-") && dashless rest
  end.

End XTTSLanguageProps.

Module XTTSStreamProps.
Import XTTS.

(** A stream of bytes cut into blocks of 48000, the shorter rest last. *)
Fixpoint blocks_fuel (fuel : nat) (data : list Byte.byte) : list (list Byte.byte) :=
  match fuel with
  | O => []
  | S fuel =>
      if (48000 <=? Z.of_nat (length data))%Z
      then take (Z.to_nat 48000) data
             :: blocks_fuel fuel (drop (Z.to_nat 48000) data)
      else if (0 <? Z.of_nat (length data))%Z then [data] else []
  end.

Definition blocks_of (data : list Byte.byte) : list (list Byte.byte) :=
  blocks_fuel (S (length data)) data.

(** [data] is the full blocks [full] followed by a shorter [rest]. *)
Definition split48 (data : list Byte.byte) (full : list (list Byte.byte))
    (rest : list Byte.byte) : Prop :=
  data = concat full ++ rest /\
  Forall (fun b => length b = Z.to_nat 48000) full /\
  (Z.of_nat (length rest) < 48000)%Z.

(** The rest as a last block, when there is one. *)
Definition tail_block (rest : list Byte.byte) : list (list Byte.byte) :=
  match rest with
  | [] => []
  | _ :: _ => [rest]
  end.

Section Resampling.
Context {R : Type} `{StreamResampler R}.

(** The blocks resampled one after the other, each into an audio frame; the
    resampler's state goes from one block to the next. *)
Fixpoint resample_blocks (self : XTTSService R) (blocks : list (list Byte.byte))
  : XTTSService R * list Frame :=
  match blocks with
  | [] => (self, [])
  | block :: rest =>
      let '(rs, resampled_audio) :=
        resample (_resampler self) block 24000 (sample_rate self) in
      let '(self', frames) := resample_blocks (set_resampler self rs) rest in
      (self', audio_frame self resampled_audio :: frames)
  end.

End Resampling.

End XTTSStreamProps.

Module SarvamSessionProps.
Import PyStr Sarvam SarvamSession.

(** No call raises. *)
Definition quiet : Call -> option string := fun _ => None.

(** A string of whitespace only (the empty string too). *)
Definition blank (s : Text) : bool := forallb is_space s.

(** The frames handed to [push_frame], and to [push_error], among calls. *)
Definition frames_pushed (calls : list Call) : list TranscriptionFrame :=
  omap (fun call => match call with push_frame f => Some f | _ => None end)
       calls.

Definition errors_pushed (calls : list Call) : list Frame :=
  omap (fun call => match call with push_error f => Some f | _ => None end)
       calls.

(** A socket client is only ever held together with its context manager. *)
Definition linked (self : Session) : Prop :=
  _socket_client (service self) <> None -> _websocket_context self <> None.

(** The language string is the one [__init__] computed. *)
Definition language_fixed (self : Session) : Prop :=
  _language_string (service self) =
    language_to_sarvam_language (_language_code (service self)).

(** The result of [run_stt] once the send has ended as [outcome]. *)
Definition run_of (outcome : SendOutcome) : SttRun :=
  match outcome with
  | Sent => {| yielded := [None]; pushed_errors := [] |}
  | SendRaised e =>
      {| yielded := [None];
         pushed_errors := [ErrorFrame ("Failed to send audio: " ++ e)%string] |}
  end.

(** The listening task has not failed with an exception. *)
Definition listening_sound (self : Session) : Prop :=
  forall e, _listening_task self <> Some (TaskFailed e).

End SarvamSessionProps.

(** ** Further scenarios *)

Module MoreScenarios.
Import Scenarios.
Local Open Scope string_scope.

(** A triggered analyzer whose sample rate is 0. *)
Definition rate_zero : Turn.BaseSmartTurn :=
  Turn.on_speech (Turn.init 0 Turn.default_params) 1000.

(** The analyzer after an Incomplete answer of the classifier. *)
Definition undecided : Turn.BaseSmartTurn :=
  Turn._clear (spoken Turn.default_params) Turn.INCOMPLETE.

(** The same after one more chunk of silence. *)
Definition paused : Turn.BaseSmartTurn :=
  match Turn.append_audio steady_clock undecided chunk_16k false with
  | Ok (self, _) => self
  | Raise _ => undecided
  end.

(** Two chunks, buffered at 999 s and at 1000 s, the speech starting at
    1000 s. *)
Definition two_chunks : Turn.BaseSmartTurn :=
  Turn.on_speech
    (Turn.set_buffer (Turn.init 16000 quick_params)
       [(999%float, [0.25%float]); (1000%float, [0.5%float])])
    1000.

(** A studio-speakers document without the voice Ana. *)
Definition other_speaker : gmap string (gmap string XTTS.Json) :=
  {[ "Bob" := {[ "speaker_embedding" := "[0.3]"; "gpt_cond_latent" := "[[0.4]]" ]} ]}.

(** A server that fails every GET with status 500. *)
Definition server_down : string -> XTTSStart.GetOutcome :=
  fun _ => XTTSStart.GetResponse 500 "down" ∅.

(** Three bytes of audio in two chunks, an empty chunk between them. *)
Definition three_bytes : list (list Byte.byte) := [[x00; x01]; []; [x02]].

(** A Sarvam session as built for a saarika model and Hindi. *)
Definition session : SarvamSession.Session :=
  SarvamSession.init "saarika:v2.5" Sarvam.HI_IN 16000 "user-1".

(** A connection that opens on a socket whose sends raise, and one that is
    refused. *)
Definition opens : SarvamSession.ConnectRequest -> SarvamSession.OpenOutcome :=
  fun _ => SarvamSession.Opened failing_client SarvamSession.TaskCancelled.

Definition refused : SarvamSession.ConnectRequest -> SarvamSession.OpenOutcome :=
  fun _ => SarvamSession.OpenRaised "refused".

Definition connected : SarvamSession.Session :=
  (SarvamSession._connect opens session).1.

(** The code points of an ASCII literal. *)
Definition code_points (s : string) : SarvamSession.Text :=
  map N_of_ascii (list_ascii_of_string s).

(** A transcription response with the given transcript. *)
Definition heard (transcript : SarvamSession.Text)
  : SarvamSession.TranscriptionData :=
  {| SarvamSession.request_id := "r1";
     SarvamSession.transcript := transcript;
     SarvamSession.language_code := None;
     SarvamSession.metrics := None;
     SarvamSession.is_final := None |}.

(** An on_utterance_end handler that raises. *)
Definition handler_raises : SarvamSession.Call -> option string :=
  fun call =>
    match call with
    | SarvamSession._call_event_handler _ => Some "boom"
    | _ => None
    end.

End MoreScenarios.

(** * The embedding on small inputs *)

Example frombuffer_int16_samples :
  Turn.frombuffer_int16 [x01; x00; xff; xff; x00; x80; xff; x7f] =
    Ok [1; -1; -32768; 32767] /\
  Turn.frombuffer_int16 [x01] = Raise ValueError.
Proof. split; reflexivity. Qed.

Example normalize_samples :
  map Turn.normalize [-32768; -16384; 0; 8192; 32767] =
    [(-1)%float; (-0.5)%float; 0%float; 0.25%float;
     PrimFloat.div 32767 32768].
Proof. vm_compute. reflexivity. Qed.

Example slice_from_cases :
  Turn.slice_from (-2) [1; 2; 3] = [2; 3] /\
  Turn.slice_from (-5) [1; 2; 3] = [1; 2; 3] /\
  Turn.slice_from 0 [1; 2; 3] = [1; 2; 3] /\
  Turn.slice_from 7 [1; 2; 3] = [].
Proof. repeat split; reflexivity. Qed.

Example int_of_float_cases :
  PyFloat.int_of_float (PrimFloat.mul 8 (PyFloat.float_of_int 16000)) = Ok 128000 /\
  PyFloat.int_of_float (-3.5)%float = Ok (-3) /\
  PyFloat.int_of_float PrimFloat.infinity = Raise OverflowError /\
  PyFloat.int_of_float PrimFloat.nan = Raise ValueError.
Proof. repeat split; vm_compute; reflexivity. Qed.

Example default_threshold :
  Turn._stop_ms (Turn.init 16000 Turn.default_params) = 3000%float /\
  Turn.max_buffer_time Turn.default_params = 11%float.
Proof. split; vm_compute; reflexivity. Qed.

Example b64encode_cases :
  PyStr.b64encode (list_byte_of_string "Man") = "TWFu"%string /\
  PyStr.b64encode (list_byte_of_string "Ma") = "TWE="%string /\
  PyStr.b64encode (list_byte_of_string "M") = "TQ=="%string /\
  PyStr.b64encode [xff; xfe; x00; x80] = "//4AgA=="%string.
Proof. repeat split; vm_compute; reflexivity. Qed.

Example model_names :
  PyStr.contains "saarika" (PyStr.lower "Saarika:v2.5") = true /\
  PyStr.contains "saarika" (PyStr.lower "saaras:v2") = false.
Proof. split; vm_compute; reflexivity. Qed.

(** * Order of the floats *)

(** [a <= b < c] gives [a < c] on the values floats denote. *)
Lemma SFcompare_le_lt_trans a b c :
  (SFcompare a b = Some Lt \/ SFcompare a b = Some Eq) ->
  SFcompare b c = Some Lt ->
  SFcompare a c = Some Lt.
Proof.
  destruct a as [sa|sa| |sa ma ea], b as [sb|sb| |sb mb eb], c as [sc|sc| |sc mc ec];
    cbn [SFcompare];
    try (intros [Hab|Hab] Hbc; discriminate);
    try (destruct sa, sb, sc; intros [Hab|Hab] Hbc; first [discriminate | reflexivity | assumption]).
  destruct sa, sb, sc; intros Hab Hbc;
    try (destruct Hab as [Hab|Hab]; discriminate); try discriminate; try reflexivity.
  - (* all negative *)
    f_equal.
    change (Pos.compare_cont Eq) with Pos.compare in *.
    destruct (Z.compare_spec ea eb), (Z.compare_spec eb ec), (Z.compare_spec ea ec);
      subst; try lia;
      try (destruct Hab as [Hab|Hab]; discriminate); try discriminate; try reflexivity.
    destruct (Pos.compare_spec ma mb), (Pos.compare_spec mb mc), (Pos.compare_spec ma mc);
      subst; cbn in *; try lia;
      try (destruct Hab as [Hab|Hab]; discriminate); try discriminate; try reflexivity.
  - f_equal.
    change (Pos.compare_cont Eq) with Pos.compare in *.
    destruct (Z.compare_spec ea eb), (Z.compare_spec eb ec), (Z.compare_spec ea ec);
      subst; try lia;
      try (destruct Hab as [Hab|Hab]; discriminate); try discriminate; try reflexivity.
    destruct (Pos.compare_spec ma mb), (Pos.compare_spec mb mc), (Pos.compare_spec ma mc);
      subst; cbn in *; try lia;
      try (destruct Hab as [Hab|Hab]; discriminate); try discriminate; try reflexivity.
Qed.

(** An entry not below a bound stays so for every later, larger entry. *)
Lemma ltb_false_mono a b c :
  PrimFloat.leb a b = true -> PrimFloat.ltb a c = false -> PrimFloat.ltb b c = false.
Proof.
  rewrite leb_spec, !ltb_spec. unfold SFleb, SFltb.
  intros Hab Hac.
  destruct (SFcompare (Prim2SF b) (Prim2SF c)) as [[| |]|] eqn:Hbc; try reflexivity.
  rewrite (SFcompare_le_lt_trans (Prim2SF a) (Prim2SF b) (Prim2SF c)) in Hac; try assumption; try discriminate.
  destruct (SFcompare (Prim2SF a) (Prim2SF b)) as [[| |]|]; auto; discriminate.
Qed.

(** * Properties of the turn analyzer *)

Section TurnProperties.
Import PyFloat Turn TurnProps.
Context `{SmartTurnModel}.

Lemma append_audio_speech now self buffer audio_int16 :
  frombuffer_int16 buffer = Ok audio_int16 ->
  append_audio now self buffer true =
    Ok (on_speech
          (set_buffer self
             (_audio_buffer self ++ [(now 0%nat, audio_float32 audio_int16)]))
          (now 1%nat),
        INCOMPLETE).
Proof. intros Hdec. unfold append_audio. rewrite Hdec. reflexivity. Qed.

Lemma append_audio_silence now self buffer audio_int16 d :
  _speech_triggered self = true ->
  frombuffer_int16 buffer = Ok audio_int16 ->
  chunk_duration_ms (_sample_rate self) audio_int16 = Ok d ->
  append_audio now self buffer false =
    let self' :=
      set_silence
        (set_buffer self
           (_audio_buffer self ++ [(now 0%nat, audio_float32 audio_int16)]))
        (PrimFloat.add (_silence_ms self) d) in
    if geb (PrimFloat.add (_silence_ms self) d) (_stop_ms self)
    then Ok (_clear self' COMPLETE, COMPLETE)
    else Ok (self', INCOMPLETE).
Proof.
  intros Htrig Hdec Hdur. unfold append_audio. rewrite Hdec.
  cbv beta iota delta [mbind result_bind set_buffer _speech_triggered _sample_rate].
  fold (_speech_triggered self). fold (_sample_rate self).
  rewrite Htrig, Hdur. reflexivity.
Qed.

Lemma append_audio_idle now self buffer audio_int16 :
  _speech_triggered self = false ->
  frombuffer_int16 buffer = Ok audio_int16 ->
  append_audio now self buffer false =
    Ok (set_buffer self
          (trim (max_buffer_time (_params self)) now 1
             (_audio_buffer self ++ [(now 0%nat, audio_float32 audio_int16)])),
        INCOMPLETE).
Proof.
  intros Htrig Hdec. unfold append_audio. rewrite Hdec.
  cbv beta iota delta [mbind result_bind set_buffer _speech_triggered].
  fold (_speech_triggered self).
  rewrite Htrig. reflexivity.
Qed.

(** [np.frombuffer] accepts exactly the buffers of whole samples. *)
Lemma frombuffer_int16_parity : forall buffer,
  (Nat.even (length buffer) = true ->
   exists audio_int16,
     frombuffer_int16 buffer = Ok audio_int16 /\
     length buffer = (2 * length audio_int16)%nat) /\
  (Nat.even (length buffer) = false ->
   frombuffer_int16 buffer = Raise ValueError).
Proof.
  fix IH 1. intros [|lo [|hi rest]].
  - split; [|discriminate]. intros _. exists []. split; reflexivity.
  - split; [discriminate|]. reflexivity.
  - destruct (IH rest) as [Heven Hodd].
    change (Nat.even (length (lo :: hi :: rest))) with (Nat.even (length rest)).
    cbn [frombuffer_int16]. split.
    + intros Hpar. destruct (Heven Hpar) as (audio & -> & Hlen).
      exists (int16_of_bytes lo hi :: audio). split; [reflexivity|].
      cbn [length]. lia.
    + intros Hpar. rewrite (Hodd Hpar). reflexivity.
Qed.

(** While the accumulator stays below the threshold, silence chunks of a
    triggered analyzer are all answered Incomplete. *)
Lemma feed_silence_below d silence : forall self,
  _speech_triggered self = true ->
  Forall (fun c => chunk_of_ms (_sample_rate self) d c.2) silence ->
  below_stop (_silence_ms self) d (_stop_ms self) (length silence) = true ->
  exists self',
    feed self (map silence_call silence) =
      Ok (self', replicate (length silence) INCOMPLETE) /\
    _speech_triggered self' = true /\
    _sample_rate self' = _sample_rate self /\
    _stop_ms self' = _stop_ms self /\
    _silence_ms self' = accumulate (_silence_ms self) d (length silence).
Proof.
  induction silence as [|[now buffer] silence IH]; intros self Htrig Hall Hbelow.
  - exists self. cbn. auto.
  - apply Forall_cons in Hall as [(audio & Hdec & Hdur) Hall].
    cbn [length below_stop] in Hbelow.
    apply andb_true_iff in Hbelow as [Hlt Hbelow].
    apply negb_true_iff in Hlt.
    cbn [map silence_call feed fst snd].
    rewrite (append_audio_silence _ _ _ _ _ Htrig Hdec Hdur). cbn zeta.
    rewrite Hlt.
    set (self1 := set_silence _ _).
    destruct (IH self1) as (self' & Hfeed & Ht & Hr & Hs & Hm); auto.
    exists self'. cbn. rewrite Hfeed. cbn. auto.
Qed.


Lemma feed_app a b : forall self,
  feed self (a ++ b) =
    '(self1, sts1) ← feed self a;
    '(self2, sts2) ← feed self1 b;
    Ok (self2, sts1 ++ sts2).
Proof.
  induction a as [|[[now buffer] is_speech] a IH]; intros self.
  - cbn. destruct (feed self b) as [[self2 sts2]|e]; reflexivity.
  - cbn [app feed]. destruct (append_audio now self buffer is_speech) as [[self1 st]|e];
      [|reflexivity].
    cbn. rewrite IH. destruct (feed self1 a) as [[self2 sts]|e]; [|reflexivity].
    cbn. destruct (feed self2 b) as [[self3 sts']|e]; reflexivity.
Qed.

(** From a triggered analyzer whose accumulator is at 0 and whose threshold
    is 3000 ms, thirty silence chunks of 100 ms are answered Incomplete
    twenty-nine times and then Complete. *)
Lemma feed_thirty_silences self silence :
  _speech_triggered self = true ->
  _silence_ms self = 0%float ->
  _stop_ms self = 3000%float ->
  length silence = 30%nat ->
  Forall (fun c => chunk_of_ms (_sample_rate self) 100 c.2) silence ->
  exists self',
    feed self (map silence_call silence) =
      Ok (self', replicate 29 INCOMPLETE ++ [COMPLETE]) /\
    cleared self'.
Proof.
  intros Htrig Hms Hstop Hlen Hall.
  destruct (exists_last (l := silence)) as (front & [now buffer] & ->).
  { intros ->. discriminate. }
  rewrite length_app in Hlen. cbn in Hlen.
  assert (Hfront : length front = 29%nat) by lia.
  apply Forall_app in Hall as [Hfr Hlast].
  apply Forall_cons in Hlast as [(audio & Hdec & Hdur) _]. cbn in Hdec, Hdur.
  destruct (feed_silence_below 100 front self Htrig Hfr)
    as (self1 & Hfeed & Ht1 & Hr1 & Hs1 & Hm1).
  { rewrite Hms, Hstop, Hfront. vm_compute. reflexivity. }
  rewrite map_app, feed_app, Hfeed, Hfront.
  cbv beta iota delta [mbind result_bind].
  cbn [map silence_call feed fst snd].
  rewrite <- Hr1 in Hdur.
  rewrite (append_audio_silence _ _ _ _ _ Ht1 Hdec Hdur).
  rewrite Hm1, Hs1, Hms, Hstop, Hfront.
  replace (geb (PrimFloat.add (accumulate 0 100 29) 100) 3000) with true
    by (vm_compute; reflexivity).
  cbv beta iota zeta delta [mbind result_bind].
  eexists. split; [reflexivity|]. repeat split.
Qed.

(** At a round rate the samples of a tenth of a second are computed to
    last exactly 100.0 ms: checked by evaluation at each of the rates. *)
Lemma round_rates_give_100ms :
  map (fun rate =>
         chunk_duration_ms rate (replicate (Z.to_nat (rate * 100 / 1000)) 0))
      round_rates
  = map (fun _ => Ok 100%float) round_rates.
Proof. vm_compute. reflexivity. Qed.

Lemma round_rate_listed rate : round_rate rate -> In rate round_rates.
Proof.
  unfold round_rates. intros [(k & Hk & ->)|Hrate]; apply in_or_app.
  - left. apply in_map_iff. exists (Z.to_nat k). split; [lia|].
    apply in_seq. lia.
  - right. cbn. intuition.
Qed.

Lemma chunk_duration_ms_length rate a b :
  length a = length b -> chunk_duration_ms rate a = chunk_duration_ms rate b.
Proof. intros Hlen. unfold chunk_duration_ms. rewrite Hlen. reflexivity. Qed.

(** At a round rate a chunk of 100 ms decodes, and the analyzer computes
    100.0 ms as its duration. *)
Lemma round_rate_chunk rate buffer :
  round_rate rate -> chunk_lasting rate 100 buffer ->
  chunk_of_ms rate 100 buffer.
Proof.
  intros Hrate [_ Hlen].
  destruct (proj1 (frombuffer_int16_parity buffer)) as (audio & Hdec & Hbytes).
  { apply Nat.even_spec. exists (Z.to_nat (rate * 100 / 1000)). lia. }
  exists audio. split; [exact Hdec|].
  pose proof (proj1 List.map_ext_in_iff round_rates_give_100ms rate
                (round_rate_listed rate Hrate)) as Hms.
  cbv beta in Hms. rewrite <- Hms.
  apply chunk_duration_ms_length. rewrite length_replicate. lia.
Qed.

(** C1, at the round sample rates. With [stop_secs = 3.0], so that
    [__init__] set [_stop_ms] to [3.0 * 1000], one 100 ms speech chunk
    followed by successive 100 ms silence chunks is answered Incomplete on
    the speech chunk and on each of the first 29 silence chunks, and
    Complete on the 30th, the first at which the accumulated silence reaches
    3000 ms. A 100 ms chunk holds the samples of a tenth of a second. *)
Theorem C1_silence_completion self now0 speech
    (silence : list ((nat -> float) * list Byte.byte)) :
  _stop_ms self = PrimFloat.mul 3 1000 ->
  round_rate (_sample_rate self) ->
  chunk_lasting (_sample_rate self) 100 speech ->
  length silence = 30%nat ->
  Forall (fun c => chunk_lasting (_sample_rate self) 100 c.2) silence ->
  exists self',
    feed self ((now0, speech, true) :: map silence_call silence) =
      Ok (self', INCOMPLETE :: replicate 29 INCOMPLETE ++ [COMPLETE]).
Proof.
  intros Hstop Hrate Hspeech Hlen Hall.
  destruct (round_rate_chunk _ _ Hrate Hspeech) as (audio & Hdec & _).
  cbn [feed]. rewrite (append_audio_speech _ _ _ _ Hdec).
  cbv beta iota delta [mbind result_bind].
  set (self1 := on_speech _ _).
  destruct (feed_thirty_silences self1 silence) as (self' & Hfeed & _); auto.
  { eapply Forall_impl; [exact Hall|]. intros c Hc.
    apply round_rate_chunk; assumption. }
  rewrite Hfeed. exists self'. reflexivity.
Qed.

(** At the usual audio rates a chunk of a tenth of a second is computed to
    last exactly 100.0 ms. *)
Lemma usual_rates_give_100ms :
  Forall (fun rate =>
            chunk_duration_ms rate (replicate (Z.to_nat (rate / 10)) 0) =
              Ok 100%float)
    [8000; 16000; 22050; 24000; 32000; 44100; 48000].
Proof. repeat constructor; vm_compute; reflexivity. Qed.

(** The quotient is rounded: at 1090 Hz the 109 samples of a tenth of a
    second are computed to last the float just below 100, and thirty such
    chunks leave the accumulator below 3000. *)
Example rounded_duration_at_1090Hz :
  chunk_duration_ms 1090 (replicate 109 0) = Ok (PrimFloat.next_down 100) /\
  below_stop 0 (PrimFloat.next_down 100) 3000 30 = true.
Proof. split; vm_compute; reflexivity. Qed.

(** What [_process_speech_segment] answers: without a classifier call it
    is Incomplete, and a call is made on one non-empty segment whose
    prediction decides. *)
Lemma process_speech_segment_calls self buf st calls :
  _process_speech_segment self buf = Ok (st, calls) ->
  (calls = [] /\ st = INCOMPLETE) \/
  (exists segment,
      calls = [segment] /\ segment <> [] /\
      st = if prediction (_predict_endpoint segment) =? 1
           then COMPLETE else INCOMPLETE).
Proof.
  unfold _process_speech_segment.
  destruct buf as [|e buf]; [intros [= <- <-]; auto|].
  destruct (_speech_start_time self) as [t0|]; [|discriminate].
  destruct (int_of_float _) as [m|]; [|discriminate].
  cbv beta iota delta [mbind result_bind].
  set (seg := if m <? _ then _ else _).
  destruct (0 <? Z.of_nat (length seg)) eqn:Hlen; intros [= <- <-]; auto.
  right. exists seg. repeat split.
  intros Hnil. rewrite Hnil in Hlen. discriminate.
Qed.

(** C3. Right after a Complete decision, from the silence timer of
    [append_audio] or from [analyze_end_of_turn], the buffer is empty, the
    trigger is off, the silence accumulator is 0 and no speech start is
    recorded. *)
Theorem C3_post_complete_reset now self buffer is_speech self' calls :
  (append_audio now self buffer is_speech = Ok (self', COMPLETE) ->
   cleared self') /\
  (analyze_end_of_turn self = Ok (self', COMPLETE, calls) ->
   cleared self').
Proof.
  split.
  - unfold append_audio.
    destruct (frombuffer_int16 buffer) as [audio|]; [|discriminate].
    cbv beta iota delta [mbind result_bind].
    destruct is_speech; [discriminate|].
    destruct (_speech_triggered _); [|discriminate].
    destruct (chunk_duration_ms _ _) as [d|]; [|discriminate].
    destruct (geb _ _); [|discriminate].
    intros [= <-]. repeat split.
  - unfold analyze_end_of_turn.
    destruct (_process_speech_segment _ _) as [[st calls']|]; [|discriminate].
    cbv beta iota delta [mbind result_bind].
    destruct st; [|discriminate].
    intros [= <- _]. repeat split.
Qed.

(** The trimming loop pops a run of entries off the head, each older than
    the window at the reading it was tested against, and stops at the
    first entry that is not. *)
Lemma trim_spec p now buf : forall k,
  exists removed,
    buf = removed ++ trim (max_buffer_time p) now k buf /\
    (forall i e, removed !! i = Some e -> older p (now (k + i)%nat) e = true) /\
    (forall e, head (trim (max_buffer_time p) now k buf) = Some e ->
               older p (now (k + length removed)%nat) e = false).
Proof.
  induction buf as [|e buf IH]; intros k.
  - exists []. cbn. repeat split; intros; discriminate.
  - cbn [trim]. destruct (ltb e.1 _) eqn:Hold.
    + destruct (IH (S k)) as (removed & Heq & Hrem & Hkeep).
      exists (e :: removed). split; [|split].
      * cbn. f_equal. exact Heq.
      * intros [|i] e' Hi; cbn in Hi.
        -- injection Hi as <-. rewrite Nat.add_0_r. exact Hold.
        -- rewrite Nat.add_succ_r. apply (Hrem i e' Hi).
      * intros e' He'. cbn [length]. rewrite Nat.add_succ_r.
        apply (Hkeep e' He').
    + exists []. cbn [app length]. split; [reflexivity|]. split.
      * intros i e' Hi. destruct i; discriminate.
      * intros e' [= <-]. rewrite Nat.add_0_r. exact Hold.
Qed.

(** With one reading [tnow] of the clock for the whole loop and timestamps
    that never decrease, the loop removes exactly the entries older than the
    window. *)
Lemma trim_removes_exactly_older p now tnow buf : forall k,
  (forall j, now (k + j)%nat = tnow) ->
  time_ordered buf ->
  trim (max_buffer_time p) now k buf =
    List.filter (fun e => negb (older p tnow e)) buf.
Proof.
  induction buf as [|e buf IH]; intros k Hnow Hsorted; [reflexivity|].
  apply StronglySorted_inv in Hsorted as [Hsorted Hhead].
  pose proof (Hnow 0%nat) as Hk. rewrite Nat.add_0_r in Hk.
  cbn [trim List.filter]. rewrite Hk.
  change (ltb e.1 (PrimFloat.sub tnow (max_buffer_time p)))
    with (older p tnow e).
  destruct (older p tnow e) eqn:Hold; cbn [negb].
  - apply IH; [|exact Hsorted].
    intros j. rewrite <- (Hnow (S j)). f_equal. lia.
  - f_equal. symmetry. apply forallb_filter_id.
    apply forallb_forall. intros x Hx.
    apply negb_true_iff. unfold older in *.
    apply (ltb_false_mono e.1); [|exact Hold].
    rewrite Forall_forall in Hhead. apply Hhead. apply list_elem_of_In. exact Hx.
Qed.

(** C4. A speech chunk removes nothing from the buffer: the new chunk is
    appended to it. A silence chunk before speech was triggered removes
    from the head of the buffer, new chunk included, the run of entries
    older than [pre_speech_ms/1000 + stop_secs + max_duration_secs] seconds
    before the current time, the clock being read anew for each entry; with
    one reading [tnow] for the loop and timestamps that never decrease these
    are exactly the entries older than the window. *)
Theorem C4_trim_invariant now self buffer self' st :
  (append_audio now self buffer true = Ok (self', st) ->
   exists audio_int16,
     frombuffer_int16 buffer = Ok audio_int16 /\
     _audio_buffer self' =
       _audio_buffer self ++ [(now 0%nat, audio_float32 audio_int16)]) /\
  (_speech_triggered self = false ->
   append_audio now self buffer false = Ok (self', st) ->
   exists audio_int16 removed,
     frombuffer_int16 buffer = Ok audio_int16 /\
     _audio_buffer self ++ [(now 0%nat, audio_float32 audio_int16)] =
       removed ++ _audio_buffer self' /\
     (forall i e, removed !! i = Some e ->
                  older (_params self) (now (1 + i)%nat) e = true) /\
     (forall e, head (_audio_buffer self') = Some e ->
                older (_params self) (now (1 + length removed)%nat) e = false) /\
     (forall tnow,
         (forall j, now (1 + j)%nat = tnow) ->
         time_ordered
           (_audio_buffer self ++ [(now 0%nat, audio_float32 audio_int16)]) ->
         _audio_buffer self' =
           List.filter (fun e => negb (older (_params self) tnow e))
             (_audio_buffer self ++ [(now 0%nat, audio_float32 audio_int16)]))).
Proof.
  split.
  - destruct (frombuffer_int16 buffer) as [audio|] eqn:Hdec.
    + rewrite (append_audio_speech _ _ _ _ Hdec). intros [= <- _].
      exists audio. split; reflexivity.
    + unfold append_audio. rewrite Hdec. discriminate.
  - intros Hidle.
    destruct (frombuffer_int16 buffer) as [audio|] eqn:Hdec.
    + rewrite (append_audio_idle _ _ _ _ Hidle Hdec). intros [= <- _].
      destruct (trim_spec (_params self) now
                  (_audio_buffer self ++ [(now 0%nat, audio_float32 audio)]) 1)
        as (removed & Heq & Hrem & Hkeep).
      exists audio, removed. cbn [_audio_buffer set_buffer].
      repeat split; auto.
      intros tnow Hnow Hsorted.
      apply trim_removes_exactly_older; assumption.
    + unfold append_audio. rewrite Hdec. discriminate.
Qed.

(** C8. When [analyze_end_of_turn] invokes the classifier, it does so once,
    on a non-empty segment, and the decision is Complete exactly when the
    prediction equals 1, Incomplete for any other value. *)
Theorem C8_classifier_decision self self' st calls segment :
  analyze_end_of_turn self = Ok (self', st, calls) ->
  segment ∈ calls ->
  calls = [segment] /\ segment <> [] /\
  (st = COMPLETE <-> prediction (_predict_endpoint segment) = 1) /\
  (st = INCOMPLETE <-> prediction (_predict_endpoint segment) <> 1).
Proof.
  unfold analyze_end_of_turn.
  destruct (_process_speech_segment _ _) as [[st0 calls0]|] eqn:Hproc;
    [|discriminate].
  cbv beta iota delta [mbind result_bind]. intros [= _ <- <-] Hin.
  apply process_speech_segment_calls in Hproc
    as [[-> _]|(seg & -> & Hne & ->)].
  - apply elem_of_nil in Hin. contradiction.
  - apply list_elem_of_singleton in Hin as ->.
    split; [reflexivity|]. split; [exact Hne|].
    destruct (Z.eqb_spec (prediction (_predict_endpoint seg)) 1) as [Heq|Hneq].
    + split; split; auto; try discriminate. intros Hc. contradiction.
    + split; split; auto; try discriminate. intros Hc. contradiction.
Qed.

(** C9. Under the single-segment policy an Incomplete answer of
    [analyze_end_of_turn] leaves the buffer empty, the silence accumulator
    at 0 and no speech start recorded, with the trigger on: silence chunks
    alone then run the timer, and with the 3000 ms threshold thirty chunks
    of 100 ms end in a Complete although no speech is buffered. *)
Theorem C9_incomplete_keeps_trigger self self' calls :
  analyze_end_of_turn self = Ok (self', INCOMPLETE, calls) ->
  USE_ONLY_LAST_VAD_SEGMENT = true /\
  _audio_buffer self' = [] /\
  _silence_ms self' = 0%float /\
  _speech_start_time self' = None /\
  _speech_triggered self' = true /\
  (forall silence : list ((nat -> float) * list Byte.byte),
      _stop_ms self = 3000%float ->
      length silence = 30%nat ->
      Forall (fun c => chunk_of_ms (_sample_rate self) 100 c.2) silence ->
      exists self'',
        feed self' (map silence_call silence) =
          Ok (self'', replicate 29 INCOMPLETE ++ [COMPLETE])).
Proof.
  unfold analyze_end_of_turn.
  destruct (_process_speech_segment _ _) as [[st0 calls0]|]; [|discriminate].
  cbv beta iota delta [mbind result_bind].
  destruct st0; [discriminate|].
  cbn [EndOfTurnState_eqb orb USE_ONLY_LAST_VAD_SEGMENT].
  intros [= <- _]. repeat split.
  intros silence Hstop Hlen Hall.
  destruct (feed_thirty_silences (_clear self INCOMPLETE) silence)
    as (self'' & Hfeed & _); auto.
  exists self''. exact Hfeed.
Qed.

(** *** Degenerate buffers *)

(** On an empty buffer the answer is Incomplete, without a classifier call. *)
Lemma analyze_empty_buffer self :
  _audio_buffer self = [] ->
  analyze_end_of_turn self = Ok (_clear self INCOMPLETE, INCOMPLETE, []).
Proof. intros Hbuf. unfold analyze_end_of_turn. rewrite Hbuf. reflexivity. Qed.

(** A buffer whose chunks hold no sample at all: no classifier call. *)
Lemma analyze_zero_samples self t0 m :
  _speech_start_time self = Some t0 ->
  int_of_float (PrimFloat.mul (max_duration_secs (_params self))
                  (float_of_int (sample_rate self))) = Ok m ->
  Forall (fun e : entry => e.2 = []) (_audio_buffer self) ->
  analyze_end_of_turn self = Ok (_clear self INCOMPLETE, INCOMPLETE, []).
Proof.
  intros Hstart Hmax Hall. unfold analyze_end_of_turn, _process_speech_segment.
  destruct (_audio_buffer self) as [|e buf] eqn:Hbuf; [reflexivity|].
  rewrite Hstart, Hmax. cbv beta iota zeta delta [mbind result_bind].
  set (seg := concat _).
  assert (Hseg : seg = []).
  { subst seg. apply concat_nil_Forall. apply Forall_fmap.
    apply Forall_drop. exact Hall. }
  assert (Hcut : (if m <? Z.of_nat (length seg)
                  then slice_from (- m) seg else seg) = []).
  { rewrite Hseg. destruct (m <? _); [apply drop_nil|reflexivity]. }
  rewrite Hcut. reflexivity.
Qed.

(** A non-empty buffer without a recorded speech start: the subtraction
    [self._speech_start_time - ...] is applied to [None]. *)
Lemma analyze_without_speech_start self :
  _audio_buffer self <> [] ->
  _speech_start_time self = None ->
  analyze_end_of_turn self = Raise TypeError.
Proof.
  intros Hbuf Hstart. unfold analyze_end_of_turn, _process_speech_segment.
  destruct (_audio_buffer self); [contradiction|].
  rewrite Hstart. reflexivity.
Qed.

(** C2. The claim fails on the code. On a fresh analyzer one silence chunk
    is buffered and no speech start is recorded; [analyze_end_of_turn]
    then raises TypeError instead of answering Incomplete. *)
Theorem C2_analyze_raises_without_speech_start :
  exists self,
    append_audio (fun _ => 1000%float) (init 16000 default_params)
      [x00; x00] false = Ok (self, INCOMPLETE) /\
    _audio_buffer self = [(1000%float, [0%float])] /\
    _speech_start_time self = None /\
    analyze_end_of_turn self = Raise TypeError.
Proof.
  eexists. split; [vm_compute; reflexivity|].
  split; [reflexivity|]. split; reflexivity.
Qed.

(** *** The duration clamp *)

(** For a positive sample budget [m], a longer segment is cut to its last
    [m] samples before it is classified. *)
Lemma clamp_to_budget self t0 m :
  _speech_start_time self = Some t0 ->
  int_of_float (PrimFloat.mul (max_duration_secs (_params self))
                  (float_of_int (sample_rate self))) = Ok m ->
  0 < m < Z.of_nat (length (extracted_segment self t0)) ->
  let kept := drop (length (extracted_segment self t0) - Z.to_nat m)
                (extracted_segment self t0) in
  Z.of_nat (length kept) = m /\
  exists st self',
    analyze_end_of_turn self = Ok (self', st, [kept]).
Proof.
  intros Hstart Hmax Hm kept.
  assert (Hlen : Z.of_nat (length kept) = m).
  { subst kept. rewrite length_drop. lia. }
  split; [exact Hlen|].
  unfold analyze_end_of_turn, _process_speech_segment.
  unfold extracted_segment in *.
  destruct (_audio_buffer self) as [|e buf] eqn:Hbuf.
  { cbn in Hm. lia. }
  rewrite Hstart, Hmax. cbv beta iota zeta delta [mbind result_bind].
  set (seg := concat _) in *.
  replace (m <? Z.of_nat (length seg)) with true by (symmetry; apply Z.ltb_lt; lia).
  assert (Hslice : slice_from (- m) seg = kept).
  { unfold slice_from. replace (- m <? 0) with true by (symmetry; apply Z.ltb_lt; lia).
    subst kept. f_equal. lia. }
  rewrite Hslice.
  replace (0 <? Z.of_nat (length kept)) with true by (symmetry; apply Z.ltb_lt; lia).
  eexists _, _. reflexivity.
Qed.

(** With [max_duration_secs = 8] at 16 kHz, a 10 second segment (160000
    samples) reaches the classifier as its most recent 128000 samples. *)
Lemma clamp_8s_at_16kHz self t0 :
  max_duration_secs (_params self) = 8%float ->
  sample_rate self = 16000 ->
  _speech_start_time self = Some t0 ->
  length (extracted_segment self t0) = Z.to_nat 160000 ->
  let kept := drop (Z.to_nat 32000) (extracted_segment self t0) in
  length kept = Z.to_nat 128000 /\
  exists st self', analyze_end_of_turn self = Ok (self', st, [kept]).
Proof.
  intros Hmax Hrate Hstart Hlen.
  destruct (clamp_to_budget self t0 128000 Hstart) as [Hk Hex].
  { rewrite Hmax, Hrate. vm_compute. reflexivity. }
  { rewrite Hlen. lia. }
  rewrite Hlen in Hk, Hex.
  replace (Z.to_nat 160000 - Z.to_nat 128000)%nat with (Z.to_nat 32000) in Hk, Hex by lia.
  cbv zeta. split; [lia|exact Hex].
Qed.

(** The duration clamp. A segment longer than a budget
    [m = int(max_duration_secs * sample_rate)] of at least one sample is
    classified as its last [m] samples, the oldest being dropped; with
    8 seconds at 16 kHz a segment of 160000 samples is classified as its most
    recent 128000. *)
Theorem max_duration_clamp :
  (forall self t0 m,
      _speech_start_time self = Some t0 ->
      int_of_float (PrimFloat.mul (max_duration_secs (_params self))
                      (float_of_int (sample_rate self))) = Ok m ->
      0 < m < Z.of_nat (length (extracted_segment self t0)) ->
      let kept := drop (length (extracted_segment self t0) - Z.to_nat m)
                    (extracted_segment self t0) in
      Z.of_nat (length kept) = m /\
      exists st self', analyze_end_of_turn self = Ok (self', st, [kept])) /\
  (forall self t0,
      max_duration_secs (_params self) = 8%float ->
      sample_rate self = 16000 ->
      _speech_start_time self = Some t0 ->
      length (extracted_segment self t0) = Z.to_nat 160000 ->
      let kept := drop (Z.to_nat 32000) (extracted_segment self t0) in
      length kept = Z.to_nat 128000 /\
      exists st self', analyze_end_of_turn self = Ok (self', st, [kept])).
Proof.
  split.
  - intros self t0 m. apply clamp_to_budget.
  - intros self t0. apply clamp_8s_at_16kHz.
Qed.

(** C5. The claim fails on the code when the sample budget
    [int(max_duration_secs * sample_rate)] is 0: the slice
    [segment_audio[-0:]] is the whole segment. With [max_duration_secs = 0]
    at 16 kHz a two-sample segment exceeds the budget of 0 samples and is
    classified whole. *)
Theorem C5_zero_budget_keeps_whole_segment :
  let params := {| stop_secs := 3; pre_speech_ms := 0; max_duration_secs := 0 |} in
  exists self,
    append_audio (fun _ => 1000%float) (init 16000 params)
      [x00; x40; x00; x20] true = Ok (self, INCOMPLETE) /\
    int_of_float (PrimFloat.mul (max_duration_secs (_params self))
                    (float_of_int (sample_rate self))) = Ok 0 /\
    exists st self',
      analyze_end_of_turn self = Ok (self', st, [[0.5%float; 0.25%float]]).
Proof.
  eexists. split; [vm_compute; reflexivity|].
  split; [vm_compute; reflexivity|].
  eexists _, _. vm_compute. reflexivity.
Qed.

(** *** Normalization of the samples *)

Lemma forall_bits_spec n : forall P,
  forall_bits n P = true -> forall z, 0 <= z < 2 ^ Z.of_nat n -> P z = true.
Proof.
  induction n as [|n IH]; intros P HP z Hz.
  - cbn in Hz. replace z with 0 by lia. exact HP.
  - cbn [forall_bits] in HP. apply andb_true_iff in HP as [Heven Hodd].
    rewrite Nat2Z.inj_succ, Z.pow_succ_r in Hz by lia.
    destruct (Z.even z) eqn:Hpar.
    + apply Z.even_spec in Hpar as [h ->].
      apply (IH (fun z => P (2 * z)) Heven h). lia.
    + assert (Hodd' : Z.odd z = true) by (rewrite <- Z.negb_even, Hpar; reflexivity).
      apply Z.odd_spec in Hodd' as [h ->].
      apply (IH (fun z => P (2 * z + 1)) Hodd h). lia.
Qed.

(** All 65536 sample values, checked by evaluation. *)
Lemma normalize_checked_all :
  forall_bits 16 (fun z => normalize_checked (z - 32768)) = true.
Proof. vm_compute. reflexivity. Qed.

Lemma normalize_int16 s :
  int16_range s -> normalize_checked s = true.
Proof.
  intros Hs.
  pose proof (forall_bits_spec 16 _ normalize_checked_all (s + 32768)) as Hc.
  cbv beta in Hc. replace (s + 32768 - 32768) with s in Hc by lia.
  apply Hc. unfold int16_range in Hs. change (2 ^ Z.of_nat 16) with 65536. lia.
Qed.

Lemma int16_of_bytes_range lo hi : int16_range (int16_of_bytes lo hi).
Proof.
  unfold int16_of_bytes, int16_range.
  pose proof (Byte.to_N_bounded lo) as Hlo.
  pose proof (Byte.to_N_bounded hi) as Hhi.
  set (a := Z.of_N (Byte.to_N lo)) in *.
  set (b := Z.of_N (Byte.to_N hi)) in *.
  assert (Ha : 0 <= a < 256) by (subst a; lia).
  assert (Hb : 0 <= b < 256) by (subst b; lia).
  clearbody a b.
  assert (Hu : 0 <= Z.lor a (Z.shiftl b 8) < 2 ^ 16).
  { rewrite Z.shiftl_mul_pow2 by lia. change (2 ^ 8) with 256.
    assert (Hnn : 0 <= Z.lor a (b * 256)) by (apply Z.lor_nonneg; lia).
    split; [exact Hnn|].
    destruct (Z.eq_dec (Z.lor a (b * 256)) 0) as [Hz|Hnz]; [rewrite Hz; lia|].
    apply Z.log2_lt_pow2; [lia|].
    rewrite Z.log2_lor by lia.
    apply Z.max_lub_lt.
    - destruct (Z.eq_dec a 0) as [Hz|Hz]; [rewrite Hz; reflexivity|].
      apply Z.log2_lt_pow2; [lia|]. change (2 ^ 16) with 65536. lia.
    - destruct (Z.eq_dec b 0) as [Hz|Hz]; [rewrite Hz; reflexivity|].
      apply Z.log2_lt_pow2; [lia|]. change (2 ^ 16) with 65536. lia. }
  set (u := Z.lor a (Z.shiftl b 8)) in *. clearbody u.
  change (2 ^ 16) with 65536 in Hu.
  destruct (Z.testbit u 15) eqn:Hbit.
  - apply Z.testbit_true in Hbit; [|lia].
    change (2 ^ 15) with 32768 in Hbit. Z.div_mod_to_equations. lia.
  - apply Z.testbit_false in Hbit; [|lia].
    change (2 ^ 15) with 32768 in Hbit. Z.div_mod_to_equations. lia.
Qed.

Lemma frombuffer_int16_range : forall buffer audio_int16,
  frombuffer_int16 buffer = Ok audio_int16 -> Forall int16_range audio_int16.
Proof.
  fix IH 1. intros [|lo [|hi rest]] audio; cbn [frombuffer_int16].
  - intros [= <-]. constructor.
  - discriminate.
  - destruct (frombuffer_int16 rest) as [samples|] eqn:Hrest; [|discriminate].
    cbv beta iota delta [mbind result_bind]. intros [= <-].
    constructor; [apply int16_of_bytes_range|]. apply (IH rest). exact Hrest.
Qed.

(** The two decoding bytes do not overlap: checked on all pairs. *)
Lemma lor_bytes_checked :
  forall_bits 8 (fun a =>
    forall_bits 8 (fun b => Z.lor a (Z.shiftl b 8) =? a + 256 * b)) = true.
Proof. vm_compute. reflexivity. Qed.

Lemma int16_of_bytes_signed16 lo hi : int16_of_bytes lo hi = signed16 lo hi.
Proof.
  unfold int16_of_bytes, signed16.
  pose proof (Byte.to_N_bounded lo) as Hlo.
  pose proof (Byte.to_N_bounded hi) as Hhi.
  set (a := Z.of_N (Byte.to_N lo)) in *.
  set (b := Z.of_N (Byte.to_N hi)) in *.
  assert (Ha : 0 <= a < 2 ^ Z.of_nat 8)
    by (change (2 ^ Z.of_nat 8) with 256; subst a; lia).
  assert (Hb : 0 <= b < 2 ^ Z.of_nat 8)
    by (change (2 ^ Z.of_nat 8) with 256; subst b; lia).
  clearbody a b.
  pose proof (forall_bits_spec 8 _ lor_bytes_checked a Ha) as Hrow.
  cbv beta in Hrow.
  pose proof (forall_bits_spec 8 _ Hrow b Hb) as Hlor.
  cbv beta in Hlor. apply Z.eqb_eq in Hlor. rewrite Hlor.
  change (2 ^ Z.of_nat 8) with 256 in Ha, Hb.
  set (u := a + 256 * b). assert (Hu : 0 <= u < 65536) by (subst u; lia).
  clearbody u. cbv zeta.
  destruct (Z.testbit u 15) eqn:Hbit.
  - apply Z.testbit_true in Hbit; [|lia].
    change (2 ^ 15) with 32768 in Hbit.
    destruct (u <? 32768) eqn:Hlt; [|reflexivity].
    apply Z.ltb_lt in Hlt. Z.div_mod_to_equations. lia.
  - apply Z.testbit_false in Hbit; [|lia].
    change (2 ^ 15) with 32768 in Hbit.
    destruct (u <? 32768) eqn:Hlt; [reflexivity|].
    apply Z.ltb_ge in Hlt. Z.div_mod_to_equations. lia.
Qed.

(** What [np.frombuffer] decodes: the samples the bytes hold. *)
Lemma frombuffer_int16_samples_of : forall buffer audio_int16,
  frombuffer_int16 buffer = Ok audio_int16 ->
  audio_int16 = samples_of buffer /\
  length buffer = (2 * length audio_int16)%nat.
Proof.
  fix IH 1. intros [|lo [|hi rest]] audio; cbn [frombuffer_int16].
  - intros [= <-]. split; reflexivity.
  - discriminate.
  - destruct (frombuffer_int16 rest) as [samples|] eqn:Hrest; [|discriminate].
    cbv beta iota delta [mbind result_bind]. intros [= <-].
    destruct (IH rest samples Hrest) as [-> Hlen].
    cbn [samples_of length]. rewrite int16_of_bytes_signed16.
    split; [reflexivity|lia].
Qed.

Lemma audio_float32_normalized audio_int16 :
  Forall int16_range audio_int16 ->
  Forall normalized_sample (audio_float32 audio_int16).
Proof.
  intros Hall. unfold audio_float32. apply Forall_map.
  eapply Forall_impl; [exact Hall|]. intros s Hs. cbn.
  exists s. split; [exact Hs|]. split; [reflexivity|].
  apply normalize_int16 in Hs. unfold normalize_checked in Hs.
  apply andb_true_iff in Hs as [Hs _]. exact Hs.
Qed.

Lemma trim_normalized mbt now buf : forall k,
  normalized buf -> normalized (trim mbt now k buf).
Proof.
  induction buf as [|e buf IH]; intros k Hn; cbn [trim]; [exact Hn|].
  destruct (ltb _ _); [|exact Hn].
  apply IH. apply Forall_cons in Hn as [_ Hn]. exact Hn.
Qed.

Lemma append_audio_normalized now self buffer is_speech self' st :
  normalized (_audio_buffer self) ->
  append_audio now self buffer is_speech = Ok (self', st) ->
  normalized (_audio_buffer self').
Proof.
  intros Hn. unfold append_audio.
  destruct (frombuffer_int16 buffer) as [audio|] eqn:Hdec; [|discriminate].
  cbv beta iota delta [mbind result_bind].
  assert (Hn' : normalized
                  (_audio_buffer self ++ [(now 0%nat, audio_float32 audio)])).
  { apply Forall_app. split; [exact Hn|]. constructor; [|constructor].
    apply audio_float32_normalized. eapply frombuffer_int16_range, Hdec. }
  destruct is_speech; [intros [= <- _]; exact Hn'|].
  destruct (_speech_triggered _).
  - destruct (chunk_duration_ms _ _) as [d|]; [|discriminate].
    cbv beta iota zeta.
    destruct (geb _ _); intros [= <- _]; [constructor|exact Hn'].
  - intros [= <- _]. apply trim_normalized. exact Hn'.
Qed.

(** The trimming loop leaves the end of the buffer. *)
Lemma trim_suffix mbt now buf : forall k,
  exists removed, buf = removed ++ trim mbt now k buf.
Proof.
  induction buf as [|e buf IH]; intros k; cbn [trim]; [exists []; reflexivity|].
  destruct (ltb _ _); [|exists []; reflexivity].
  destruct (IH (S k)) as [removed Heq].
  exists (e :: removed). cbn [app]. f_equal. exact Heq.
Qed.

(** What [append_audio] buffers: the normalized incoming samples, under the
    first clock reading, at the end of the buffer. Nothing is removed by a
    speech chunk, nor by a silence chunk of a triggered analyzer that is
    answered Incomplete. *)
Lemma append_audio_buffers now self buffer is_speech self' st :
  append_audio now self buffer is_speech = Ok (self', st) ->
  exists removed,
    _audio_buffer self ++ [(now 0%nat, map normalize (samples_of buffer))] =
      removed ++ _audio_buffer self' /\
    (is_speech = true \/ (_speech_triggered self = true /\ st = INCOMPLETE) ->
     removed = []).
Proof.
  unfold append_audio.
  destruct (frombuffer_int16 buffer) as [audio|] eqn:Hdec; [|discriminate].
  apply frombuffer_int16_samples_of in Hdec as [-> _].
  cbv beta iota delta [mbind result_bind]. unfold audio_float32.
  set (buf := _audio_buffer self ++ _).
  destruct is_speech.
  { intros [= <- _]. exists []. split; [reflexivity|]. auto. }
  cbn [set_buffer _speech_triggered _sample_rate].
  destruct (_speech_triggered self) eqn:Htrig.
  - destruct (chunk_duration_ms _ _) as [d|]; [|discriminate].
    cbv beta iota zeta.
    destruct (geb _ _); intros [= <- <-].
    + exists buf. cbn. rewrite app_nil_r. split; [reflexivity|].
      intros [Hs|[_ Hs]]; discriminate Hs.
    + exists []. split; [reflexivity|]. auto.
  - intros [= <- _]. cbn [_audio_buffer].
    destruct (trim_suffix (max_buffer_time (_params self)) now buf 1)
      as [removed Heq].
    exists removed. split; [exact Heq|].
    intros [Hs|[Hs _]]; discriminate Hs.
Qed.

Lemma analyze_normalized self self' st calls :
  normalized (_audio_buffer self) ->
  analyze_end_of_turn self = Ok (self', st, calls) ->
  normalized (_audio_buffer self') /\
  Forall (Forall normalized_sample) calls.
Proof.
  intros Hn. unfold analyze_end_of_turn, _process_speech_segment.
  destruct (_audio_buffer self) as [|e buf] eqn:Hbuf.
  { cbv beta iota delta [mbind result_bind]. intros [= <- _ <-].
    split; constructor. }
  destruct (_speech_start_time self) as [t0|]; [|discriminate].
  destruct (int_of_float _) as [m|]; [|discriminate].
  cbv beta iota zeta delta [mbind result_bind].
  set (seg0 := concat _).
  assert (Hseg0 : Forall normalized_sample seg0).
  { subst seg0. apply Forall_concat. apply Forall_fmap.
    apply Forall_drop. exact Hn. }
  set (seg := if m <? _ then _ else _).
  assert (Hseg : Forall normalized_sample seg).
  { subst seg. destruct (m <? _); [apply Forall_drop|]; exact Hseg0. }
  destruct (0 <? Z.of_nat (length seg)); cbv beta iota.
  - intros [= <- _ <-]. split; [|constructor; [exact Hseg|constructor]].
    destruct (prediction _ =? 1); cbn; constructor.
  - intros [= <- _ <-]. split; constructor.
Qed.

(** C7. The incoming samples are the 16-bit signed integers the bytes
    hold. Every such sample [s] is turned into the float that denotes
    [s / 32768], a value of [[-1, 1]], before it is buffered: the chunk
    [append_audio] puts at the end of the buffer is made of these floats,
    one for each incoming sample in order, and the buffer it leaves and
    every segment [analyze_end_of_turn] hands to the classifier hold
    nothing else. *)
Theorem C7_samples_normalized :
  (forall buffer audio_int16,
      frombuffer_int16 buffer = Ok audio_int16 ->
      audio_int16 = samples_of buffer /\
      length buffer = (2 * length audio_int16)%nat /\
      Forall int16_range audio_int16) /\
  (forall s,
      int16_range s ->
      exists q,
        exact (normalize s) = Some q /\
        (q == s # 32768)%Q /\ (-1 <= q)%Q /\ (q <= 1)%Q /\
        unit_range (normalize s) = true) /\
  (forall now self buffer is_speech self' st,
      append_audio now self buffer is_speech = Ok (self', st) ->
      exists removed,
        _audio_buffer self
          ++ [(now 0%nat, map normalize (samples_of buffer))] =
          removed ++ _audio_buffer self' /\
        (is_speech = true \/
         (_speech_triggered self = true /\ st = INCOMPLETE) ->
         removed = [])) /\
  (forall now self buffer is_speech self' st,
      normalized (_audio_buffer self) ->
      append_audio now self buffer is_speech = Ok (self', st) ->
      normalized (_audio_buffer self')) /\
  (forall self self' st calls,
      normalized (_audio_buffer self) ->
      analyze_end_of_turn self = Ok (self', st, calls) ->
      normalized (_audio_buffer self') /\
      Forall (Forall normalized_sample) calls).
Proof.
  split; [|split; [|split; [exact append_audio_buffers|]]].
  - intros buffer audio Hdec.
    destruct (frombuffer_int16_samples_of _ _ Hdec) as [Hsamples Hlen].
    split; [exact Hsamples|]. split; [exact Hlen|].
    exact (frombuffer_int16_range _ _ Hdec).
  - intros s Hs. apply normalize_int16 in Hs. unfold normalize_checked in Hs.
    apply andb_true_iff in Hs as [Hunit Hs].
    destruct (exact (normalize s)) as [q|]; [|discriminate].
    apply andb_true_iff in Hs as [Hs Hle1].
    apply andb_true_iff in Hs as [Heq Hle0].
    exists q. split; [reflexivity|].
    split; [apply Qeq_bool_iff; exact Heq|].
    split; [apply Qle_bool_iff; exact Hle0|].
    split; [apply Qle_bool_iff; exact Hle1|exact Hunit].
  - split; [exact append_audio_normalized|exact analyze_normalized].
Qed.

End TurnProperties.

(** * Properties of the two leaf services *)

Section SarvamProperties.
Import Sarvam ServiceProps.
Local Open Scope string_scope.

Lemma unsupported_language language :
  language ∉ supported_languages -> SARVAM_LANGUAGES !! language = None.
Proof. intros Hnot. apply not_elem_of_list_to_map_1. exact Hnot. Qed.

Lemma unsupported_code code :
  code ∉ supported_codes -> mapping !! code = None.
Proof. intros Hnot. apply not_elem_of_list_to_map_1. exact Hnot. Qed.

(** C10. On the 13 supported languages [language_to_sarvam_language] and
    [_map_language_code_to_enum] are inverse to each other, in both
    directions; any other language maps to the code "hi-IN" and any other
    code to [Language.HI_IN]. *)
Theorem C10_language_tables_inverse :
  length supported_languages = 13%nat /\
  NoDup supported_languages /\
  map language_to_sarvam_language supported_languages = supported_codes /\
  (forall language,
      language ∈ supported_languages ->
      _map_language_code_to_enum (language_to_sarvam_language language) = language) /\
  (forall code,
      code ∈ supported_codes ->
      language_to_sarvam_language (_map_language_code_to_enum code) = code) /\
  (forall language,
      language ∉ supported_languages ->
      language_to_sarvam_language language = "hi-IN") /\
  (forall code,
      code ∉ supported_codes ->
      _map_language_code_to_enum code = HI_IN).
Proof.
  split; [reflexivity|].
  split; [compute_done|].
  split; [vm_compute; reflexivity|].
  split; [|split; [|split]].
  - intros language Hin. unfold supported_languages in Hin.
    repeat (apply elem_of_cons in Hin as [->|Hin]; [vm_compute; reflexivity|]).
    apply elem_of_nil in Hin. contradiction.
  - intros code Hin. unfold supported_codes in Hin.
    repeat (apply elem_of_cons in Hin as [->|Hin]; [vm_compute; reflexivity|]).
    apply elem_of_nil in Hin. contradiction.
  - intros language Hnot. unfold language_to_sarvam_language.
    rewrite (unsupported_language _ Hnot). reflexivity.
  - intros code Hnot. unfold _map_language_code_to_enum.
    rewrite (unsupported_code _ Hnot). reflexivity.
Qed.

End SarvamProperties.
Section ServiceFaults.
Import ServiceProps.
Local Open Scope string_scope.

Context {R : Type} `{XTTS.StreamResampler R}.

(** The fuel [stream] gives the inner loop is enough: the loop stops because
    fewer than 48000 bytes are left, never because the fuel ran out. *)
Lemma drain_enough_fuel fuel : forall (self : XTTS.XTTSService R) buffer,
  (length buffer <= fuel)%nat ->
  Z.of_nat (length (XTTS.drain fuel self buffer).1.2) < 48000.
Proof.
  induction fuel as [|fuel IH]; intros self buffer Hfuel; cbn [XTTS.drain].
  - cbn. lia.
  - destruct (48000 <=? Z.of_nat (length buffer))%Z eqn:Hlen.
    + destruct (XTTS.resample _ _ _ _) as [rs resampled].
      specialize (IH (XTTS.set_resampler self rs) (drop (Z.to_nat 48000) buffer)).
      destruct (XTTS.drain fuel _ _) as [[self' rest] frames].
      cbn in *. apply IH. rewrite length_drop. lia.
    + cbn. lia.
Qed.

Lemma run_stt_send_raised self client audio e :
  Sarvam._socket_client self = Some client ->
  Sarvam.send_audio self client audio = Sarvam.SendRaised e ->
  Sarvam.run_stt self audio =
    {| Sarvam.yielded := [None];
       Sarvam.pushed_errors := [ErrorFrame ("Failed to send audio: " ++ e)] |}.
Proof. intros Hsock Hsend. unfold Sarvam.run_stt. rewrite Hsock, Hsend. reflexivity. Qed.

Lemma run_stt_not_connected self audio :
  Sarvam._socket_client self = None ->
  Sarvam.run_stt self audio =
    {| Sarvam.yielded := [None]; Sarvam.pushed_errors := [] |}.
Proof. intros Hsock. unfold Sarvam.run_stt. rewrite Hsock. reflexivity. Qed.

Lemma run_tts_bad_status (self : XTTS.XTTSService R) text speakers url payload
    status body content :
  XTTS.usable_speakers self = Some speakers ->
  XTTS.request self speakers text = Ok (url, payload) ->
  XTTS._aiohttp_session self url payload = XTTS.Response status body content ->
  status <> 200 ->
  XTTS.run_tts self text =
    {| XTTS.yielded :=
         [ErrorFrame ("Error getting audio (status: " ++ pretty status
                      ++ ", error: " ++ body ++ ")")];
       XTTS.finish := Ok self |}.
Proof.
  intros Hsp Hreq Hpost Hstatus. unfold XTTS.run_tts.
  rewrite Hsp, Hreq, Hpost.
  replace (status =? 200)%Z with false by (symmetry; apply Z.eqb_neq; exact Hstatus).
  reflexivity.
Qed.

Lemma run_tts_no_speakers (self : XTTS.XTTSService R) text :
  XTTS.usable_speakers self = None ->
  XTTS.run_tts self text = {| XTTS.yielded := []; XTTS.finish := Ok self |}.
Proof. intros Hsp. unfold XTTS.run_tts. rewrite Hsp. reflexivity. Qed.

(** C6, amended. Every exception the audio send of [run_stt] raises is
    pushed as an ErrorFrame that carries its text, and every response of the
    synthesis request of [run_tts] with a status other than 200 is yielded as
    an ErrorFrame that carries the status and the body. Behind their guards
    no frame is emitted: [run_stt] without a socket yields only [None], and
    [run_tts] without studio speakers yields nothing. *)
Theorem C6_faults_past_the_guards_emit_error_frames :
  (forall self client audio e,
      Sarvam._socket_client self = Some client ->
      Sarvam.send_audio self client audio = Sarvam.SendRaised e ->
      Sarvam.run_stt self audio =
        {| Sarvam.yielded := [None];
           Sarvam.pushed_errors := [ErrorFrame ("Failed to send audio: " ++ e)] |}) /\
  (forall self audio,
      Sarvam._socket_client self = None ->
      Sarvam.run_stt self audio =
        {| Sarvam.yielded := [None]; Sarvam.pushed_errors := [] |}) /\
  (forall (self : XTTS.XTTSService R) text speakers url payload status body content,
      XTTS.usable_speakers self = Some speakers ->
      XTTS.request self speakers text = Ok (url, payload) ->
      XTTS._aiohttp_session self url payload = XTTS.Response status body content ->
      status <> 200 ->
      XTTS.run_tts self text =
        {| XTTS.yielded :=
             [ErrorFrame ("Error getting audio (status: " ++ pretty status
                          ++ ", error: " ++ body ++ ")")];
           XTTS.finish := Ok self |}) /\
  (forall (self : XTTS.XTTSService R) text,
      XTTS.usable_speakers self = None ->
      XTTS.run_tts self text = {| XTTS.yielded := []; XTTS.finish := Ok self |}).
Proof.
  split; [exact run_stt_send_raised|].
  split; [exact run_stt_not_connected|].
  split; [exact run_tts_bad_status|exact run_tts_no_speakers].
Qed.

End ServiceFaults.

(** * Further properties of the turn analyzer *)

Section TurnFurther.
Import PyFloat Turn TurnProps MoreTurnProps.
Context `{SmartTurnModel}.

(** What [append_audio] raises. An odd number of bytes is refused with
    ValueError on every path; whole samples are accepted on a speech chunk and
    on silence before the trigger; with a sample rate of 0 a silence chunk
    after the trigger divides by zero. *)
Theorem append_audio_raises now self buffer is_speech :
  (Nat.even (length buffer) = false ->
   append_audio now self buffer is_speech = Raise ValueError) /\
  (Nat.even (length buffer) = true ->
   is_speech = true \/ _speech_triggered self = false ->
   exists self', append_audio now self buffer is_speech = Ok (self', INCOMPLETE)) /\
  (Nat.even (length buffer) = true ->
   is_speech = false ->
   _speech_triggered self = true ->
   _sample_rate self = 0 ->
   append_audio now self buffer is_speech = Raise ZeroDivisionError).
Proof.
  destruct (frombuffer_int16_parity buffer) as [Heven Hodd].
  split; [|split].
  - intros Hpar. unfold append_audio. rewrite (Hodd Hpar). reflexivity.
  - intros Hpar Hpath. destruct (Heven Hpar) as (audio & Hdec & _).
    destruct is_speech.
    + rewrite (append_audio_speech _ _ _ _ Hdec). eexists. reflexivity.
    + destruct Hpath as [Hs|Hidle]; [discriminate|].
      rewrite (append_audio_idle _ _ _ _ Hidle Hdec). eexists. reflexivity.
  - intros Hpar -> Htrig Hrate. destruct (Heven Hpar) as (audio & Hdec & _).
    unfold append_audio. rewrite Hdec.
    cbv beta iota delta [mbind result_bind set_buffer _speech_triggered _sample_rate].
    fold (_speech_triggered self). fold (_sample_rate self).
    rewrite Htrig, Hrate. reflexivity.
Qed.

Lemma append_audio_same_config now self buffer is_speech self' st :
  append_audio now self buffer is_speech = Ok (self', st) ->
  same_config self self'.
Proof.
  unfold append_audio.
  destruct (frombuffer_int16 buffer) as [audio|]; [|discriminate].
  cbv beta iota delta [mbind result_bind].
  destruct is_speech; [intros [= <- _]; repeat split|].
  destruct (_speech_triggered _).
  - destruct (chunk_duration_ms _ _) as [d|]; [|discriminate].
    cbv beta iota zeta.
    destruct (geb _ _); intros [= <- _]; repeat split.
  - intros [= <- _]. repeat split.
Qed.

Lemma analyze_same_config self self' st calls :
  analyze_end_of_turn self = Ok (self', st, calls) ->
  same_config self self'.
Proof.
  unfold analyze_end_of_turn.
  destruct (_process_speech_segment _ _) as [[st0 calls0]|]; [|discriminate].
  cbv beta iota delta [mbind result_bind].
  destruct (_ || _); intros [= <- _ _]; repeat split.
Qed.

(** The configuration set at construction is never changed: neither by
    [append_audio], nor by [analyze_end_of_turn], nor by any sequence of
    [append_audio] calls, which answers every call it was given. *)
Theorem configuration_is_kept :
  (forall now self buffer is_speech self' st,
      append_audio now self buffer is_speech = Ok (self', st) ->
      same_config self self') /\
  (forall self self' st calls,
      analyze_end_of_turn self = Ok (self', st, calls) ->
      same_config self self') /\
  (forall calls self self' sts,
      feed self calls = Ok (self', sts) ->
      same_config self self' /\ length sts = length calls).
Proof.
  split; [exact append_audio_same_config|].
  split; [exact analyze_same_config|].
  induction calls as [|[[now buffer] is_speech] calls IH]; intros self self' sts.
  - intros [= <- <-]. repeat split.
  - cbn [feed].
    destruct (append_audio now self buffer is_speech) as [[self1 st]|] eqn:Hstep;
      [|discriminate].
    cbv beta iota delta [mbind result_bind].
    destruct (feed self1 calls) as [[self2 sts2]|] eqn:Hrest; [|discriminate].
    intros [= <- <-].
    apply append_audio_same_config in Hstep as (Hp & Hr & Hs).
    destruct (IH _ _ _ Hrest) as [(Hp' & Hr' & Hs') Hlen].
    split; [|cbn; lia].
    repeat split; congruence.
Qed.

(** A speech chunk is answered Incomplete; it sets the trigger, puts the
    silence accumulator back to 0, and records the time of the call as the
    speech start only when none is recorded: later speech chunks keep the
    first one's. *)
Theorem speech_start_recorded_once now self buffer self' st :
  append_audio now self buffer true = Ok (self', st) ->
  st = INCOMPLETE /\
  _speech_triggered self' = true /\
  _silence_ms self' = 0%float /\
  _speech_start_time self' =
    Some (match _speech_start_time self with
          | Some t0 => t0
          | None => now 1%nat
          end).
Proof.
  destruct (frombuffer_int16 buffer) as [audio|] eqn:Hdec.
  - rewrite (append_audio_speech _ _ _ _ Hdec). intros [= <- <-].
    cbn. destruct (_speech_start_time self); repeat split.
  - unfold append_audio. rewrite Hdec. discriminate.
Qed.

Lemma analyze_leaves_empty_buffer self self' st calls :
  analyze_end_of_turn self = Ok (self', st, calls) ->
  _audio_buffer self' = [] /\ _speech_start_time self' = None.
Proof.
  unfold analyze_end_of_turn.
  destruct (_process_speech_segment _ _) as [[st0 calls0]|]; [|discriminate].
  cbv beta iota delta [mbind result_bind].
  replace (EndOfTurnState_eqb st0 COMPLETE || USE_ONLY_LAST_VAD_SEGMENT) with true
    by (destruct st0; reflexivity).
  intros [= <- _ _]. split; reflexivity.
Qed.

(** [analyze_end_of_turn] called again right after it returned finds the
    buffer empty: it answers Incomplete without a classifier call, and leaves
    the trigger on, also after a Complete decision. *)
Theorem analyze_twice self self1 st calls :
  analyze_end_of_turn self = Ok (self1, st, calls) ->
  exists self2,
    analyze_end_of_turn self1 = Ok (self2, INCOMPLETE, []) /\
    _speech_triggered self2 = true /\
    _audio_buffer self2 = [].
Proof.
  intros Hfirst. apply analyze_leaves_empty_buffer in Hfirst as [Hbuf _].
  exists (_clear self1 INCOMPLETE).
  unfold analyze_end_of_turn. rewrite Hbuf. repeat split.
Qed.

(** After an Incomplete answer of [analyze_end_of_turn] the speech start is
    forgotten while the trigger stays on: when a silence chunk follows,
    without a speech chunk in between, the next [analyze_end_of_turn]
    raises TypeError. *)
Theorem analyze_after_incomplete_and_silence now self self1 calls buffer self2 :
  analyze_end_of_turn self = Ok (self1, INCOMPLETE, calls) ->
  append_audio now self1 buffer false = Ok (self2, INCOMPLETE) ->
  analyze_end_of_turn self2 = Raise TypeError.
Proof.
  intros Hfirst Hstep.
  assert (Hs1 : self1 = _clear self INCOMPLETE).
  { revert Hfirst. unfold analyze_end_of_turn.
    destruct (_process_speech_segment _ _) as [[st0 calls0]|]; [|discriminate].
    cbv beta iota delta [mbind result_bind].
    destruct st0; [discriminate|]. intros [= <- _]. reflexivity. }
  subst self1.
  apply analyze_without_speech_start.
  - revert Hstep. unfold append_audio.
    destruct (frombuffer_int16 buffer) as [audio|]; [|discriminate].
    cbv beta iota delta [mbind result_bind]. cbn [_speech_triggered set_buffer _clear
      EndOfTurnState_eqb _audio_buffer _sample_rate _silence_ms _stop_ms].
    destruct (chunk_duration_ms _ _) as [d|]; [|discriminate].
    cbv beta iota zeta. cbn [set_silence _silence_ms _stop_ms].
    destruct (geb _ _); [discriminate|].
    intros [= <-]. cbn. discriminate.
  - revert Hstep. unfold append_audio.
    destruct (frombuffer_int16 buffer) as [audio|]; [|discriminate].
    cbv beta iota delta [mbind result_bind]. cbn [_speech_triggered set_buffer _clear
      EndOfTurnState_eqb _audio_buffer _sample_rate _silence_ms _stop_ms].
    destruct (chunk_duration_ms _ _) as [d|]; [|discriminate].
    cbv beta iota zeta. cbn [set_silence _silence_ms _stop_ms].
    destruct (geb _ _); [discriminate|].
    intros [= <-]. reflexivity.
Qed.

(** The segment handed to the classifier is the end of the buffered audio:
    whatever is left out is older than all of it, and the newest sample is
    always in it. *)
Theorem classified_segment_is_newest self self' st calls segment :
  analyze_end_of_turn self = Ok (self', st, calls) ->
  segment ∈ calls ->
  exists older, buffered_audio (_audio_buffer self) = older ++ segment.
Proof.
  unfold analyze_end_of_turn, _process_speech_segment.
  destruct (_audio_buffer self) as [|e buf] eqn:Hbuf.
  { cbv beta iota delta [mbind result_bind]. intros [= _ _ <-] Hin.
    apply elem_of_nil in Hin. contradiction. }
  destruct (_speech_start_time self) as [t0|]; [|discriminate].
  destruct (int_of_float _) as [m|]; [|discriminate].
  cbv beta iota zeta delta [mbind result_bind].
  set (i := start_index _ _).
  set (seg0 := concat (map snd (drop i (e :: buf)))).
  assert (Hseg0 : buffered_audio (e :: buf) =
                  concat (map snd (take i (e :: buf))) ++ seg0).
  { unfold buffered_audio. subst seg0.
    rewrite <- concat_app, <- map_app, take_drop. reflexivity. }
  set (seg := if m <? _ then _ else _).
  assert (Hseg : exists cut, seg0 = cut ++ seg).
  { subst seg. destruct (m <? _).
    - unfold slice_from. eexists. symmetry. apply take_drop.
    - exists []. reflexivity. }
  destruct Hseg as [cut Hcut].
  destruct (0 <? Z.of_nat (length seg)); cbv beta iota.
  - intros [= _ _ <-] Hin. apply list_elem_of_singleton in Hin as ->.
    exists (concat (map snd (take i (e :: buf))) ++ cut).
    rewrite Hseg0, Hcut, app_assoc. reflexivity.
  - intros [= _ _ <-] Hin. apply elem_of_nil in Hin. contradiction.
Qed.

Lemma first_index_from_none start_time buf : forall i,
  Forall (fun e : entry => geb e.1 start_time = false) buf ->
  first_index_from start_time i buf = None.
Proof.
  induction buf as [|e buf IH]; intros i Hall; [reflexivity|].
  apply Forall_cons in Hall as [He Hall]. cbn [first_index_from].
  destruct (geb _ _); [discriminate|]. apply IH. exact Hall.
Qed.

Lemma first_index_from_found start_time before e after : forall i,
  Forall (fun x : entry => geb x.1 start_time = false) before ->
  geb e.1 start_time = true ->
  first_index_from start_time i (before ++ e :: after) = Some (i + length before)%nat.
Proof.
  induction before as [|x before IH]; intros i Hall He.
  - cbn [app first_index_from length].
    destruct (geb _ _); [|discriminate]. f_equal. lia.
  - apply Forall_cons in Hall as [Hx Hall]. cbn [app first_index_from].
    destruct (geb x.1 _); [discriminate|].
    rewrite (IH (S i) Hall He). f_equal. cbn. lia.
Qed.

(** Where the extracted segment starts: at the first buffered chunk whose
    timestamp is at or after the speech start less the pre-speech time, the
    chunks before it being left out; when no chunk is that recent, nothing
    is left out and the whole buffer is taken. *)
Theorem extracted_segment_start self t0 :
  (forall before e after,
      _audio_buffer self = before ++ e :: after ->
      Forall (fun x : entry => geb x.1 (segment_start_time self t0) = false) before ->
      geb e.1 (segment_start_time self t0) = true ->
      extracted_segment self t0 = buffered_audio (e :: after)) /\
  (Forall (fun x : entry => geb x.1 (segment_start_time self t0) = false)
     (_audio_buffer self) ->
   extracted_segment self t0 = buffered_audio (_audio_buffer self)).
Proof.
  unfold extracted_segment, buffered_audio, segment_start_time, start_index.
  split.
  - intros before e after Hbuf Hall He. rewrite Hbuf.
    rewrite (first_index_from_found _ _ _ _ 0%nat Hall He).
    rewrite Nat.add_0_l, drop_app_length. reflexivity.
  - intros Hall. rewrite (first_index_from_none _ _ 0%nat Hall). reflexivity.
Qed.

(** Silence before any speech never completes a turn: however many chunks
    of whole samples come, each is answered Incomplete, and the analyzer
    stays untriggered with its accumulator and speech start untouched. *)
Theorem idle_silence_stays_idle silence : forall self,
  _speech_triggered self = false ->
  Forall (fun c : (nat -> float) * list Byte.byte =>
            Nat.even (length c.2) = true) silence ->
  exists self',
    feed self (map silence_call silence) =
      Ok (self', replicate (length silence) INCOMPLETE) /\
    _speech_triggered self' = false /\
    _silence_ms self' = _silence_ms self /\
    _speech_start_time self' = _speech_start_time self.
Proof.
  induction silence as [|[now buffer] silence IH]; intros self Hidle Hall.
  - exists self. cbn. auto.
  - apply Forall_cons in Hall as [Hpar Hall]. cbn in Hpar.
    destruct (proj1 (frombuffer_int16_parity buffer) Hpar) as (audio & Hdec & _).
    cbn [map silence_call feed fst snd].
    rewrite (append_audio_idle _ _ _ _ Hidle Hdec).
    cbv beta iota delta [mbind result_bind].
    set (self1 := set_buffer _ _).
    destruct (IH self1) as (self' & Hfeed & Ht & Hs & Hst); auto.
    rewrite Hfeed. exists self'. cbn. auto.
Qed.

End TurnFurther.

(** * Further properties of the XTTS service *)

Section XTTSLanguageProperties.
Import PyStr XTTSLanguage XTTSLanguageProps.
Local Open Scope string_scope.

Lemma BASE_VALUES_codes code : code ∈ BASE_VALUES <-> code ∈ xtts_codes.
Proof.
  unfold BASE_VALUES, BASE_LANGUAGES.
  assert (Hperm : map_to_list (list_to_map BASE_TABLE : gmap Language string)
                    ≡ₚ BASE_TABLE).
  { apply map_to_list_to_map. compute_done. }
  rewrite Hperm. reflexivity.
Qed.

Lemma lower_ascii_idem c : lower_ascii (lower_ascii c) = lower_ascii c.
Proof.
  destruct c as [[] [] [] [] [] [] [] []]; reflexivity.
Qed.

Lemma lower_ascii_dash c :
  Ascii.eqb (lower_ascii c) "-" = Ascii.eqb c "-".
Proof.
  destruct c as [[] [] [] [] [] [] [] []]; reflexivity.
Qed.

Lemma lower_idem s : lower (lower s) = lower s.
Proof.
  induction s as [|c s IH]; [reflexivity|].
  cbn [lower]. rewrite lower_ascii_idem, IH. reflexivity.
Qed.

Lemma before_dash_lower s : before_dash (lower s) = lower (before_dash s).
Proof.
  induction s as [|c s IH]; [reflexivity|].
  cbn [lower before_dash]. rewrite lower_ascii_dash.
  destruct (Ascii.eqb c "-"); [reflexivity|].
  cbn [lower]. rewrite IH. reflexivity.
Qed.

Lemma before_dash_idem s : before_dash (before_dash s) = before_dash s.
Proof.
  induction s as [|c s IH]; [reflexivity|].
  cbn [before_dash]. destruct (Ascii.eqb c "-") eqn:Hc; [reflexivity|].
  cbn [before_dash]. rewrite Hc, IH. reflexivity.
Qed.

Lemma before_dash_region s region :
  dashless s = true ->
  before_dash (s ++ String "-" region) = s.
Proof.
  induction s as [|c s IH]; intros Hs; [reflexivity|].
  cbn [dashless] in Hs. apply andb_true_iff in Hs as [Hc Hs].
  apply negb_true_iff in Hc.
  change (before_dash (String c s ++ String "-" region))
    with (if Ascii.eqb c "-" then EmptyString
          else String c (before_dash (s ++ String "-" region))).
  rewrite Hc, (IH Hs). reflexivity.
Qed.

Lemma before_dash_dashless s : dashless s = true -> before_dash s = s.
Proof.
  induction s as [|c s IH]; intros Hs; [reflexivity|].
  cbn [dashless] in Hs. apply andb_true_iff in Hs as [Hc Hs].
  apply negb_true_iff in Hc.
  cbn [before_dash]. rewrite Hc, (IH Hs). reflexivity.
Qed.

(** What a language outside the dict maps to: it is read off the lowercased
    part of its value before the first dash. *)
Lemma language_to_xtts_language_other v :
  language_to_xtts_language (OtherLanguage v) =
    let base_code := lower (before_dash v) in
    if String.eqb base_code "zh" then Some "zh-cn"
    else if bool_decide (base_code ∈ BASE_VALUES) then Some base_code
    else None.
Proof. reflexivity. Qed.

Lemma language_to_xtts_language_codes language code :
  language_to_xtts_language language = Some code -> code ∈ xtts_codes.
Proof.
  intros Hcode.
  destruct language as [| | | | | | | | | | | | | | | |v].
  1-16: vm_compute in Hcode; injection Hcode as <-; compute_done.
  rewrite language_to_xtts_language_other in Hcode. cbv zeta in Hcode.
  destruct (String.eqb _ "zh"); [injection Hcode as <-; compute_done|].
  destruct (bool_decide _) eqn:Hdec; [|discriminate].
  injection Hcode as <-. apply bool_decide_eq_true in Hdec.
  apply BASE_VALUES_codes. exact Hdec.
Qed.

(** [language_to_xtts_language] answers [None] or one of the sixteen codes
    of the server, never anything else. The sixteen languages the dict
    names map, in order, to the sixteen codes (Chinese to zh-cn), so every
    code it answers is the code of one of them. *)
Theorem xtts_language_supported language code :
  language_to_xtts_language language = Some code ->
  code ∈ xtts_codes /\
  map language_to_xtts_language xtts_members = map Some xtts_codes /\
  exists member,
    member ∈ xtts_members /\ language_to_xtts_language member = Some code.
Proof.
  intros Hcode.
  assert (Hin : code ∈ xtts_codes)
    by exact (language_to_xtts_language_codes _ _ Hcode).
  split; [exact Hin|]. split; [vm_compute; reflexivity|].
  unfold xtts_codes in Hin.
  repeat (apply elem_of_cons in Hin as [->|Hin];
          [match goal with
           | |- exists member, _ /\ _ = Some ?c =>
               first
                 [ exists CS; split; [compute_done|vm_compute; reflexivity]
                 | exists DE; split; [compute_done|vm_compute; reflexivity]
                 | exists EN; split; [compute_done|vm_compute; reflexivity]
                 | exists ES; split; [compute_done|vm_compute; reflexivity]
                 | exists FR; split; [compute_done|vm_compute; reflexivity]
                 | exists HI; split; [compute_done|vm_compute; reflexivity]
                 | exists HU; split; [compute_done|vm_compute; reflexivity]
                 | exists IT; split; [compute_done|vm_compute; reflexivity]
                 | exists JA; split; [compute_done|vm_compute; reflexivity]
                 | exists KO; split; [compute_done|vm_compute; reflexivity]
                 | exists NL; split; [compute_done|vm_compute; reflexivity]
                 | exists PL; split; [compute_done|vm_compute; reflexivity]
                 | exists PT; split; [compute_done|vm_compute; reflexivity]
                 | exists RU; split; [compute_done|vm_compute; reflexivity]
                 | exists TR; split; [compute_done|vm_compute; reflexivity]
                 | exists ZH; split; [compute_done|vm_compute; reflexivity] ]
           end|]).
  apply elem_of_nil in Hin. contradiction.
Qed.

(** Regional and case variants resolve like their base language: the answer
    for a language outside the dict depends only on the lowercased part of
    its value before the first dash, so a region added after a dash and the
    case of the letters change nothing; every variant of Chinese maps to
    zh-cn. *)
Theorem xtts_language_variants v :
  language_to_xtts_language (OtherLanguage v) =
    language_to_xtts_language (OtherLanguage (lower (before_dash v))) /\
  (forall region,
      dashless v = true ->
      language_to_xtts_language (OtherLanguage (v ++ String "-" region)) =
        language_to_xtts_language (OtherLanguage v)) /\
  (lower (before_dash v) = "zh" ->
   language_to_xtts_language (OtherLanguage v) = Some "zh-cn").
Proof.
  split; [|split].
  - rewrite !language_to_xtts_language_other. cbv zeta.
    rewrite before_dash_lower, before_dash_idem, lower_idem. reflexivity.
  - intros region Hv. rewrite !language_to_xtts_language_other. cbv zeta.
    rewrite (before_dash_region _ _ Hv), (before_dash_dashless _ Hv). reflexivity.
  - intros Hzh. rewrite language_to_xtts_language_other. cbv zeta.
    rewrite Hzh. reflexivity.
Qed.

End XTTSLanguageProperties.

Section XTTSFurther.
Import XTTS XTTSStart XTTSStreamProps.
Context {R : Type} `{StreamResampler R}.

(** [start] and the synthesis that follows. With studio speakers already
    loaded [start] asks the server nothing. A status other than 200 is
    pushed as one ErrorFrame and leaves the speakers unset, after which
    [run_tts] yields no frame at all for any text; the same holds after a
    200 answer whose document is empty. A 200 answer with a document that is
    not empty is stored as the studio speakers. *)
Theorem start_then_run_tts (get : string -> GetOutcome) (self : XTTSService R) :
  (forall speakers,
      usable_speakers self = Some speakers ->
      start get self = {| pushed := []; outcome := Ok self |}) /\
  (forall status body document text,
      usable_speakers self = None ->
      get (base_url (_settings self) ++ "/studio_speakers")%string =
        GetResponse status body document ->
      status <> 200 ->
      start get self =
        {| pushed :=
             [ErrorFrame ("Error error getting studio speakers (status: "
                          ++ pretty status ++ ", error: " ++ body ++ ")")%string];
           outcome := Ok self |} /\
      run_tts self text = {| yielded := []; finish := Ok self |}) /\
  (forall body document,
      usable_speakers self = None ->
      get (base_url (_settings self) ++ "/studio_speakers")%string =
        GetResponse 200 body document ->
      let self' := set_studio_speakers self (Some document) in
      start get self = {| pushed := []; outcome := Ok self' |} /\
      (document = ∅ ->
       forall text, run_tts self' text = {| yielded := []; finish := Ok self' |}) /\
      (document <> ∅ -> usable_speakers self' = Some document)).
Proof.
  split; [|split].
  - intros speakers Hsp. unfold start. rewrite Hsp. reflexivity.
  - intros status body document text Hsp Hget Hstatus. split.
    + unfold start. rewrite Hsp, Hget.
      replace (status =? 200) with false by (symmetry; apply Z.eqb_neq; exact Hstatus).
      reflexivity.
    + unfold run_tts. rewrite Hsp. reflexivity.
  - intros body document Hsp Hget self'. split; [|split].
    + unfold start. rewrite Hsp, Hget. reflexivity.
    + intros -> text. unfold run_tts, usable_speakers. cbn. reflexivity.
    + intros Hne. unfold usable_speakers. cbn.
      rewrite bool_decide_eq_false_2 by exact Hne. reflexivity.
Qed.

(** A voice that the studio speakers do not list, or whose entry lacks one
    of the two embeddings, makes [run_tts] raise KeyError before the request
    is sent: no frame is yielded, whatever the server would answer. *)
Theorem run_tts_unknown_voice (self : XTTSService R) speakers text :
  usable_speakers self = Some speakers ->
  (speakers !! _voice_id self = None \/
   exists embeddings,
     speakers !! _voice_id self = Some embeddings /\
     (embeddings !! "speaker_embedding"%string = None \/
      embeddings !! "gpt_cond_latent"%string = None)) ->
  run_tts self text = {| yielded := []; finish := Raise KeyError |}.
Proof.
  intros Hsp Hmissing.
  assert (Hreq : request self speakers text = Raise KeyError).
  { unfold request.
    destruct Hmissing as [->|(embeddings & -> & Hkey)]; [reflexivity|].
    cbv beta iota delta [mbind result_bind].
    destruct Hkey as [->| ->]; [reflexivity|].
    destruct (embeddings !! "speaker_embedding"%string); reflexivity. }
  unfold run_tts. rewrite Hsp, Hreq. reflexivity.
Qed.

Lemma resample_blocks_app blocks1 : forall (self : XTTSService R) blocks2,
  resample_blocks self (blocks1 ++ blocks2) =
    let self1 := (resample_blocks self blocks1).1 in
    ((resample_blocks self1 blocks2).1,
     (resample_blocks self blocks1).2 ++ (resample_blocks self1 blocks2).2).
Proof.
  induction blocks1 as [|block blocks1 IH]; intros self blocks2.
  - cbn. destruct (resample_blocks self blocks2). reflexivity.
  - cbn [app resample_blocks].
    destruct (resample _ _ _ _) as [rs out].
    rewrite IH. cbv zeta.
    destruct (resample_blocks (set_resampler self rs) blocks1) as [self1 frames1].
    cbn [fst snd].
    destruct (resample_blocks self1 blocks2) as [self2 frames2].
    reflexivity.
Qed.

(** The inner loop hands the resampler the full blocks of its buffer and
    keeps the rest. *)
Lemma drain_split fuel : forall (self : XTTSService R) buffer,
  (length buffer <= fuel)%nat ->
  exists full rest,
    split48 buffer full rest /\
    drain fuel self buffer =
      ((resample_blocks self full).1, rest, (resample_blocks self full).2).
Proof.
  induction fuel as [|fuel IH]; intros self buffer Hfuel.
  - exists [], buffer. split; [|reflexivity].
    repeat split; [constructor|]. lia.
  - cbn [drain]. destruct (48000 <=? Z.of_nat (length buffer)) eqn:Hlen.
    + apply Z.leb_le in Hlen.
      destruct (resample _ _ _ _) as [rs out] eqn:Hres.
      destruct (IH (set_resampler self rs) (drop (Z.to_nat 48000) buffer))
        as (full & rest & (Hdata & Hfull & Hrest) & Hdrain).
      { rewrite length_drop. lia. }
      rewrite Hdrain.
      exists (take (Z.to_nat 48000) buffer :: full), rest. split.
      * repeat split.
        -- cbn [concat]. rewrite <- app_assoc, <- Hdata, take_drop. reflexivity.
        -- constructor; [|exact Hfull]. rewrite length_take. lia.
        -- exact Hrest.
      * cbn [resample_blocks]. rewrite Hres.
        destruct (resample_blocks (set_resampler self rs) full). reflexivity.
    + apply Z.leb_gt in Hlen. exists [], buffer. split; [|reflexivity].
      repeat split; [constructor|exact Hlen].
Qed.

(** The outer loop does the same with the bytes of all the chunks. *)
Lemma stream_split content : forall (self : XTTSService R) buffer,
  Z.of_nat (length buffer) < 48000 ->
  exists full rest,
    split48 (buffer ++ concat content) full rest /\
    stream self buffer content =
      ((resample_blocks self full).1, rest, (resample_blocks self full).2).
Proof.
  induction content as [|chunk content IH]; intros self buffer Hbuf.
  - exists [], buffer. split; [|reflexivity].
    repeat split; [rewrite app_nil_r; reflexivity|constructor|exact Hbuf].
  - cbn [stream concat].
    destruct (0 <? Z.of_nat (length chunk)) eqn:Hchunk.
    + destruct (drain_split (length (buffer ++ chunk)) self (buffer ++ chunk))
        as (full1 & rest1 & (Hdata1 & Hfull1 & Hrest1) & Hdrain); [lia|].
      rewrite Hdrain.
      destruct (IH (resample_blocks self full1).1 rest1 Hrest1)
        as (full2 & rest2 & (Hdata2 & Hfull2 & Hrest2) & Hstream).
      rewrite Hstream.
      exists (full1 ++ full2), rest2. split.
      * repeat split.
        -- rewrite app_assoc, Hdata1, concat_app, <- !app_assoc, <- Hdata2.
           reflexivity.
        -- apply Forall_app. split; assumption.
        -- exact Hrest2.
      * rewrite resample_blocks_app. reflexivity.
    + apply Z.ltb_ge in Hchunk.
      assert (chunk = []) as -> by (destruct chunk; [reflexivity|cbn in Hchunk; lia]).
      apply IH. exact Hbuf.
Qed.

Lemma blocks_fuel_split fuel : forall data,
  (length data < fuel)%nat ->
  exists full rest,
    split48 data full rest /\ blocks_fuel fuel data = full ++ tail_block rest.
Proof.
  induction fuel as [|fuel IH]; intros data Hfuel; [lia|].
  cbn [blocks_fuel]. destruct (48000 <=? Z.of_nat (length data)) eqn:Hlen.
  - apply Z.leb_le in Hlen.
    destruct (IH (drop (Z.to_nat 48000) data))
      as (full & rest & (Hdata & Hfull & Hrest) & Hblocks).
    { rewrite length_drop. lia. }
    exists (take (Z.to_nat 48000) data :: full), rest. split.
    + repeat split.
      * cbn [concat]. rewrite <- app_assoc, <- Hdata, take_drop. reflexivity.
      * constructor; [|exact Hfull]. rewrite length_take. lia.
      * exact Hrest.
    + rewrite Hblocks. reflexivity.
  - apply Z.leb_gt in Hlen. exists [], data. split.
    + repeat split; [constructor|exact Hlen].
    + destruct data; reflexivity.
Qed.

(** A stream is cut into full blocks and a shorter rest in one way only. *)
Lemma split48_unique full : forall data rest full' rest',
  split48 data full rest -> split48 data full' rest' ->
  full = full' /\ rest = rest'.
Proof.
  induction full as [|block full IH];
    intros data rest full' rest' (Hd & Hf & Hr) (Hd' & Hf' & Hr').
  - cbn [concat app] in Hd. destruct full' as [|block' full'].
    + cbn [concat app] in Hd'. split; [reflexivity|congruence].
    + apply Forall_cons in Hf' as [Hb' _].
      rewrite Hd in Hd'. apply (f_equal length) in Hd'. cbn [concat] in Hd'.
      rewrite !length_app in Hd'. lia.
  - apply Forall_cons in Hf as [Hb Hf]. destruct full' as [|block' full'].
    + cbn [concat app] in Hd'. rewrite Hd' in Hd.
      apply (f_equal length) in Hd. cbn [concat] in Hd.
      rewrite !length_app in Hd. lia.
    + apply Forall_cons in Hf' as [Hb' Hf'].
      rewrite Hd in Hd'. cbn [concat] in Hd'. rewrite <- !app_assoc in Hd'.
      apply app_inj_1 in Hd' as [-> Htail]; [|congruence].
      destruct (IH (concat full ++ rest) rest full' rest') as [-> ->];
        repeat split; auto.
Qed.

Lemma resample_blocks_frames blocks : forall (self : XTTSService R),
  sample_rate (resample_blocks self blocks).1 = sample_rate self /\
  Forall (fun frame =>
            exists audio, frame = TTSAudioRawFrame audio (sample_rate self) 1)
    (resample_blocks self blocks).2 /\
  length (resample_blocks self blocks).2 = length blocks.
Proof.
  induction blocks as [|block blocks IH]; intros self.
  - cbn. repeat split. constructor.
  - cbn [resample_blocks]. destruct (resample _ _ _ _) as [rs out].
    destruct (IH (set_resampler self rs)) as (Hrate & Hframes & Hlen).
    destruct (resample_blocks (set_resampler self rs) blocks) as [self' frames].
    cbn [fst snd] in *. split; [exact Hrate|]. split; [|cbn [length]; lia].
    constructor; [exists out; reflexivity|exact Hframes].
Qed.

(** A synthesis the server answers with status 200. [run_tts] yields
    TTSStartedFrame, then one audio frame for each block of the answer, then
    TTSStoppedFrame, and nothing else. The blocks are those of the bytes of
    all chunks put end to end, whatever way the answer was chunked: no byte
    is lost or moved, every block but the last holds 48000 bytes, none is
    empty; each goes through the resampler in turn, and its frame carries
    the service's sample rate and one channel. *)
Theorem run_tts_streams_blocks (self : XTTSService R) text speakers url payload
    body content :
  usable_speakers self = Some speakers ->
  request self speakers text = Ok (url, payload) ->
  _aiohttp_session self url payload = Response 200 body content ->
  let blocks := blocks_of (concat content) in
  run_tts self text =
    {| yielded := [TTSStartedFrame] ++ (resample_blocks self blocks).2
                  ++ [TTSStoppedFrame];
       finish := Ok (resample_blocks self blocks).1 |} /\
  concat blocks = concat content /\
  Forall (fun block => (0 < length block <= Z.to_nat 48000)%nat) blocks /\
  (forall i block,
      blocks !! i = Some block -> (S i < length blocks)%nat ->
      length block = Z.to_nat 48000) /\
  Forall (fun frame =>
            exists audio, frame = TTSAudioRawFrame audio (sample_rate self) 1)
    (resample_blocks self blocks).2 /\
  length (resample_blocks self blocks).2 = length blocks.
Proof.
  intros Hsp Hreq Hpost blocks.
  destruct (blocks_fuel_split (S (length (concat content))) (concat content))
    as (full & rest & Hsplit & Hblocks); [lia|].
  fold (blocks_of (concat content)) in Hblocks. fold blocks in Hblocks.
  destruct (stream_split content self []) as (full' & rest' & Hsplit' & Hstream);
    [cbn; lia|].
  cbn [app] in Hsplit'.
  destruct (split48_unique _ _ _ _ _ Hsplit' Hsplit) as [-> ->].
  destruct Hsplit as (Hdata & Hfull & Hrest).
  split; [|split; [|split; [|split; [|apply resample_blocks_frames]]]].
  - unfold run_tts. rewrite Hsp, Hreq, Hpost. cbn [Z.eqb Pos.eqb negb].
    rewrite Hstream, Hblocks, resample_blocks_app. cbv zeta.
    destruct (resample_blocks self full) as [self1 frames1]. cbn [fst snd].
    destruct rest as [|x rest].
    + cbn. rewrite !app_nil_r. reflexivity.
    + cbn [tail_block resample_blocks length].
      replace (0 <? Z.of_nat (S (length rest))) with true
        by (symmetry; apply Z.ltb_lt; lia).
      destruct (resample _ _ _ _) as [rs out]. cbn.
      rewrite <- app_assoc. reflexivity.
  - rewrite Hblocks, concat_app, Hdata. f_equal.
    destruct rest; cbn; [reflexivity|rewrite app_nil_r; reflexivity].
  - rewrite Hblocks. apply Forall_app. split.
    + eapply Forall_impl; [exact Hfull|]. cbn. intros block ->. lia.
    + destruct rest; constructor; [|constructor]. cbn [length] in *. lia.
  - intros i block Hi Hlast. rewrite Hblocks in Hi, Hlast.
    rewrite length_app in Hlast.
    assert (Hfulli : (i < length full)%nat).
    { destruct rest; cbn [tail_block length] in Hlast; lia. }
    rewrite lookup_app_l in Hi by exact Hfulli.
    rewrite Forall_forall in Hfull. apply Hfull.
    eapply list_elem_of_lookup_2. exact Hi.
Qed.

End XTTSFurther.

Section XTTSRequest.
Import PyStr XTTS XTTSLanguage XTTSLanguageProps XTTSStart.
Context {R : Type} `{StreamResampler R}.

Lemma remove_char_filter c s :
  list_ascii_of_string (remove_char c s) =
    List.filter (fun d => negb (Ascii.eqb c d)) (list_ascii_of_string s).
Proof.
  induction s as [|d s IH]; [reflexivity|].
  cbn [remove_char list_ascii_of_string List.filter].
  destruct (Ascii.eqb c d); cbn [negb list_ascii_of_string]; congruence.
Qed.

Lemma filter_filter_or {A} (p q : A -> bool) l :
  List.filter (fun a => negb (q a)) (List.filter (fun a => negb (p a)) l) =
    List.filter (fun a => negb (p a || q a)) l.
Proof.
  induction l as [|a l IH]; [reflexivity|].
  cbn [List.filter]. destruct (p a); cbn [negb orb List.filter];
    [exact IH|]. destruct (q a); cbn [negb]; congruence.
Qed.

(** The body [run_tts] posts: the text with every full stop and every
    asterisk taken out and every other character kept in order, the
    language of the settings, the two embeddings of the voice as the
    studio-speakers document holds them, no wav header and a stream chunk
    size of 20; it goes to the base url followed by /tts_stream. *)
Theorem request_payload (self : XTTSService R) speakers text0 url payload :
  request self speakers text0 = Ok (url, payload) ->
  url = (base_url (_settings self) ++ "/tts_stream")%string /\
  list_ascii_of_string (text payload) =
    List.filter (fun c => negb (Ascii.eqb "." c || Ascii.eqb "*" c))
                (list_ascii_of_string text0) /\
  ~ In "."%char (list_ascii_of_string (text payload)) /\
  ~ In "*"%char (list_ascii_of_string (text payload)) /\
  payload_language payload = XTTS.language (_settings self) /\
  add_wav_header payload = false /\
  stream_chunk_size payload = 20 /\
  exists embeddings,
    speakers !! _voice_id self = Some embeddings /\
    embeddings !! "speaker_embedding"%string = Some (speaker_embedding payload) /\
    embeddings !! "gpt_cond_latent"%string = Some (gpt_cond_latent payload).
Proof.
  intros Hreq. unfold request in Hreq.
  destruct (speakers !! _voice_id self) as [embeddings|] eqn:Hvoice;
    [|discriminate Hreq].
  cbv beta iota delta [mbind result_bind] in Hreq.
  destruct (embeddings !! "speaker_embedding"%string) as [se|] eqn:Hse;
    [|discriminate Hreq].
  destruct (embeddings !! "gpt_cond_latent"%string) as [gcl|] eqn:Hgcl;
    [|discriminate Hreq].
  injection Hreq as <- <-. cbn [text payload_language add_wav_header
    stream_chunk_size speaker_embedding gpt_cond_latent].
  assert (Htext :
    list_ascii_of_string (remove_char "*" (remove_char "." text0)) =
      List.filter (fun c => negb (Ascii.eqb "." c || Ascii.eqb "*" c))
                  (list_ascii_of_string text0)).
  { rewrite !remove_char_filter. apply filter_filter_or. }
  split; [reflexivity|]. split; [exact Htext|].
  split; [|split].
  - rewrite Htext. intros Hin. apply List.filter_In in Hin as [_ Hin].
    discriminate Hin.
  - rewrite Htext. intros Hin. apply List.filter_In in Hin as [_ Hin].
    discriminate Hin.
  - split; [reflexivity|]. split; [reflexivity|]. split; [reflexivity|].
    exists embeddings. split; [reflexivity|]. split; assumption.
Qed.

(** A service as [__init__] builds it knows no studio speakers: until
    [start] has loaded them, [run_tts] yields nothing at all, not even an
    ErrorFrame. The language of every request it makes later is the code
    [language_to_xtts_language] gives for the language it was built with:
    one of the sixteen codes, or none. *)
Theorem init_then_run_tts voice_id base aiohttp_session language rate
    (resampler : R) :
  let self := init voice_id base aiohttp_session language rate resampler in
  (forall text, run_tts self text = {| yielded := []; finish := Ok self |}) /\
  (forall document speakers text url payload,
      request (set_studio_speakers self document) speakers text
        = Ok (url, payload) ->
      payload_language payload = language_to_xtts_language language /\
      url = (base ++ "/tts_stream")%string) /\
  (language_to_xtts_language language = None \/
   exists code,
     language_to_xtts_language language = Some code /\ code ∈ xtts_codes).
Proof.
  intros self. split; [|split].
  - intros text. reflexivity.
  - intros document speakers text url payload Hreq.
    unfold request in Hreq.
    destruct (speakers !! _) as [embeddings|]; [|discriminate Hreq].
    cbv beta iota delta [mbind result_bind] in Hreq.
    destruct (embeddings !! "speaker_embedding"%string); [|discriminate Hreq].
    destruct (embeddings !! "gpt_cond_latent"%string); [|discriminate Hreq].
    injection Hreq as <- <-. split; reflexivity.
  - destruct (language_to_xtts_language language) as [code|] eqn:Hcode;
      [right|left; reflexivity].
    exists code. split; [reflexivity|].
    exact (language_to_xtts_language_codes _ _ Hcode).
Qed.

End XTTSRequest.

(** * Further properties of the Sarvam service *)

Section SarvamFurther.
Import PyStr Sarvam SarvamSession ServiceProps SarvamSessionProps.

Lemma language_to_sarvam_language_supported language :
  language_to_sarvam_language language ∈ supported_codes.
Proof.
  destruct (decide (language ∈ supported_languages)) as [Hin|Hnot].
  - unfold supported_languages in Hin.
    repeat (apply elem_of_cons in Hin as [->|Hin]; [vm_compute; set_solver|]).
    inversion Hin.
  - unfold language_to_sarvam_language.
    rewrite (unsupported_language _ Hnot). cbn. set_solver.
Qed.

Lemma map_language_code_supported code :
  _map_language_code_to_enum code ∈ supported_languages.
Proof.
  destruct (decide (code ∈ supported_codes)) as [Hin|Hnot].
  - unfold supported_codes in Hin.
    repeat (apply elem_of_cons in Hin as [->|Hin]; [vm_compute; set_solver|]).
    inversion Hin.
  - unfold _map_language_code_to_enum.
    rewrite (unsupported_code _ Hnot). cbn. set_solver.
Qed.

(** Whatever the language, [language_to_service_language] answers one of
    the 13 codes, and whatever the code, [_map_language_code_to_enum]
    answers one of the 13 languages; mapping back and forth once more
    changes nothing. *)
Theorem sarvam_language_normalised :
  (forall language,
      language_to_service_language language ∈ supported_codes /\
      language_to_service_language
        (_map_language_code_to_enum (language_to_service_language language))
      = language_to_service_language language) /\
  (forall code,
      _map_language_code_to_enum code ∈ supported_languages /\
      _map_language_code_to_enum
        (language_to_service_language (_map_language_code_to_enum code))
      = _map_language_code_to_enum code).
Proof.
  unfold language_to_service_language. split.
  - intros language. split; [apply language_to_sarvam_language_supported|].
    pose proof (language_to_sarvam_language_supported language) as Hin.
    unfold supported_codes in Hin.
    repeat (apply elem_of_cons in Hin as [->|Hin]; [reflexivity|]).
    inversion Hin.
  - intros code. split; [apply map_language_code_supported|].
    pose proof (map_language_code_supported code) as Hin.
    unfold supported_languages in Hin.
    repeat (apply elem_of_cons in Hin as [->|Hin]; [reflexivity|]).
    inversion Hin.
Qed.

(** ** [strip] and blank transcripts *)

Lemma lstrip_nil l : lstrip l = [] <-> forallb is_space l = true.
Proof.
  induction l as [|c l IH]; cbn [lstrip forallb]; [tauto|].
  destruct (is_space c); cbn [andb]; [exact IH|].
  split; discriminate.
Qed.

Lemma lstrip_head l c rest :
  lstrip l = c :: rest -> is_space c = false.
Proof.
  induction l as [|d l IH]; cbn [lstrip]; [discriminate|].
  destruct (is_space d) eqn:Hd; [exact IH|].
  intros [= -> _]. exact Hd.
Qed.

Lemma strip_blank s :
  nonempty s && nonempty (strip s) = negb (blank s).
Proof.
  unfold strip, blank.
  destruct (lstrip s) as [|c rest] eqn:Hl.
  - apply lstrip_nil in Hl. rewrite Hl. cbn. apply andb_false_r.
  - assert (Hc := lstrip_head _ _ _ Hl).
    assert (forallb is_space s = false) as ->.
    { destruct (forallb _ _) eqn:Hall; [|reflexivity].
      apply lstrip_nil in Hall. congruence. }
    assert (nonempty s = true) as ->.
    { destruct s; [discriminate Hl|reflexivity]. }
    cbn [andb negb].
    destruct (lstrip (rev (c :: rest))) as [|d rest'] eqn:Hr.
    + apply lstrip_nil in Hr. cbn [rev] in Hr.
      rewrite forallb_app in Hr. cbn [forallb] in Hr. rewrite Hc in Hr.
      rewrite andb_false_r in Hr. discriminate.
    + destruct (rev (d :: rest')) as [|x xs] eqn:Hrev; [|reflexivity].
      apply (f_equal (@length N)) in Hrev.
      rewrite length_rev in Hrev. discriminate.
Qed.

(** ** [_handle_response] *)

Lemma attempt_quiet raises calls :
  (forall call, call ∈ calls -> raises call = None) ->
  attempt raises calls = (calls, None).
Proof.
  induction calls as [|call rest IH]; intros Hq; cbn [attempt]; [reflexivity|].
  rewrite (Hq call) by set_solver.
  rewrite IH by (intros; apply Hq; set_solver). reflexivity.
Qed.

Lemma attempt_split raises made call rest e :
  (forall c, c ∈ made -> raises c = None) ->
  raises call = Some e ->
  attempt raises (made ++ call :: rest) = (made, Some e).
Proof.
  induction made as [|c made IH]; intros Hq He; cbn [attempt app].
  - rewrite He. reflexivity.
  - rewrite (Hq c) by set_solver.
    rewrite IH by (try assumption; intros; apply Hq; set_solver).
    reflexivity.
Qed.

(** When no call raises, a transcription response makes the handler stop
    the time-to-first-byte metrics, fire on_utterance_end, push one
    TranscriptionFrame unless the transcript is blank, and stop the
    processing metrics. The frame carries the transcript as received (not
    stripped) and one of the 13 languages, Hindi when the response has no
    language code or an unknown one. *)
Theorem handle_response_transcript self now data :
  let message := TranscriptionResponse data in
  let frame :=
    {| text := transcript data;
       user_id := _user_id self;
       timestamp := now;
       language :=
         _map_language_code_to_enum (default "hi-IN"%string (language_code data));
       result := message |} in
  _handle_response quiet self now message =
    [stop_ttfb_metrics; _call_event_handler "on_utterance_end"]
    ++ (if blank (transcript data) then [] else [push_frame frame])
    ++ [stop_processing_metrics] /\
  language frame ∈ supported_languages /\
  (language_code data = None -> language frame = HI_IN) /\
  (forall code,
      language_code data = Some code -> code ∉ supported_codes ->
      language frame = HI_IN).
Proof.
  intros message frame. repeat split.
  - unfold _handle_response.
    rewrite attempt_quiet by reflexivity.
    unfold message. cbn [response_calls].
    rewrite strip_blank.
    assert (match language_code data with
            | Some code => code
            | None => "hi-IN"%string
            end = default "hi-IN"%string (language_code data)) as ->
      by (destruct (language_code data); reflexivity).
    destruct (blank (transcript data)); reflexivity.
  - apply map_language_code_supported.
  - intros Hnone. unfold frame. cbn [language]. rewrite Hnone. reflexivity.
  - intros code Hcode Hnot. unfold frame. cbn [language]. rewrite Hcode.
    change (default "hi-IN"%string (Some code)) with code.
    unfold _map_language_code_to_enum.
    rewrite (unsupported_code _ Hnot). reflexivity.
Qed.

Local Ltac pushes_case :=
  cbn; split; [lia|split; [lia|split]];
  [ intros frame Hf;
    first
      [ inversion Hf; fail
      | apply list_elem_of_singleton in Hf as ->;
        eexists; cbn; repeat split;
        first [eassumption | reflexivity | apply map_language_code_supported] ]
  | intros error Herr;
    first
      [ inversion Herr; fail
      | apply list_elem_of_singleton in Herr as ->;
        split; [reflexivity|eauto] ] ].

(** Whatever raises, one response makes the handler push at most one
    TranscriptionFrame and at most one ErrorFrame. A frame is pushed only
    for a transcription response whose transcript is not blank, after the
    two calls before it have returned; an ErrorFrame is the last call, and
    its text starts with Failed to handle response. *)
Theorem handle_response_pushes raises self now message :
  let calls := _handle_response raises self now message in
  (length (frames_pushed calls) <= 1)%nat /\
  (length (errors_pushed calls) <= 1)%nat /\
  (forall frame, frame ∈ frames_pushed calls ->
     exists data,
       message = TranscriptionResponse data /\
       blank (transcript data) = false /\
       text frame = transcript data /\
       user_id frame = _user_id self /\
       language frame ∈ supported_languages /\
       raises stop_ttfb_metrics = None /\
       raises (_call_event_handler "on_utterance_end") = None) /\
  (forall error, error ∈ errors_pushed calls ->
     last calls = Some (push_error error) /\
     exists e, error = ErrorFrame ("Failed to handle response: " ++ e)%string).
Proof.
  cbv zeta. unfold _handle_response.
  destruct message as [data|data|type]; cbn [response_calls].
  - destruct (signal_type data); unfold start_metrics; cbn [app attempt];
      repeat (match goal with
              | |- context [raises ?c] => destruct (raises c) eqn:?
              end; cbn [attempt app]);
      pushes_case.
  - rewrite strip_blank.
    destruct (blank (transcript data)) eqn:Hblank; cbn [negb app attempt];
      repeat (match goal with
              | |- context [raises ?c] => destruct (raises c) eqn:?
              end; cbn [attempt app]);
      pushes_case.
  - pushes_case.
Qed.

(** The handler makes the calls for the response in order until one raises;
    it then pushes one ErrorFrame with the exception's text and makes none of
    the remaining calls. So when the on_utterance_end handler raises, the
    transcript is never pushed and the processing metrics are never
    stopped. When no call raises, no ErrorFrame is pushed. *)
Theorem handle_response_failure raises self now :
  (forall message made call rest e,
      response_calls self now message = made ++ call :: rest ->
      (forall c, c ∈ made -> raises c = None) ->
      raises call = Some e ->
      _handle_response raises self now message =
        made ++ [push_error (ErrorFrame ("Failed to handle response: " ++ e)%string)]) /\
  (forall data e,
      raises stop_ttfb_metrics = None ->
      raises (_call_event_handler "on_utterance_end") = Some e ->
      _handle_response raises self now (TranscriptionResponse data) =
        [stop_ttfb_metrics;
         push_error (ErrorFrame ("Failed to handle response: " ++ e)%string)]) /\
  (forall message,
      (forall c, c ∈ response_calls self now message -> raises c = None) ->
      _handle_response raises self now message =
        response_calls self now message /\
      errors_pushed (_handle_response raises self now message) = []).
Proof.
  repeat split.
  - intros message made call rest e Hcalls Hmade Hcall.
    unfold _handle_response. rewrite Hcalls.
    rewrite (attempt_split _ _ _ _ e) by assumption. reflexivity.
  - intros data e Hstop Hevent.
    unfold _handle_response. cbn [response_calls app attempt].
    rewrite Hstop, Hevent. reflexivity.
  - unfold _handle_response. rewrite attempt_quiet by assumption. reflexivity.
  - unfold _handle_response. rewrite attempt_quiet by assumption.
    destruct message as [data|data|type]; cbn [response_calls].
    + destruct (signal_type data); reflexivity.
    + destruct (_ && _); reflexivity.
    + reflexivity.
Qed.

(** ** Connecting and disconnecting *)

Lemma connect_linked open self : linked (_connect open self).1.
Proof.
  unfold _connect, linked.
  destruct (open _); cbn; congruence.
Qed.

Lemma stop_listening_sound self :
  listening_sound self ->
  exists self',
    stop_listening self = Ok self' /\
    service self' = service self /\
    _user_id self' = _user_id self /\
    _websocket_context self' = _websocket_context self /\
    _listening_task self' = None.
Proof.
  intros Hsound. unfold stop_listening.
  destruct self as [svc user context task]. cbn in *.
  destruct task as [[| |e]|]; try (eexists; repeat split; reflexivity).
  exfalso. exact (Hsound e eq_refl).
Qed.

Lemma disconnect_sound self :
  linked self -> listening_sound self ->
  exists self',
    _disconnect self = Ok self' /\
    service self' = set_socket_client (service self) None /\
    _user_id self' = _user_id self /\
    _listening_task self' = None /\
    (_socket_client (service self) = None ->
     _websocket_context self' = _websocket_context self) /\
    (_socket_client (service self) <> None -> _websocket_context self' = None).
Proof.
  intros Hlinked Hsound.
  destruct (stop_listening_sound self Hsound)
    as (mid & Hmid & Hsvc & Huser & Hctx & Htask).
  unfold _disconnect. rewrite Hmid.
  cbv beta iota delta [mbind result_bind].
  rewrite Hctx, Hsvc.
  unfold linked in Hlinked.
  destruct (_websocket_context self) as [context|] eqn:Hc;
    destruct (_socket_client (service self)) as [client|] eqn:Hs.
  - eexists. repeat split; cbn; try congruence.
  - exists mid. repeat split; try congruence.
    destruct (service self); cbn in *. subst. rewrite Hsvc. reflexivity.
  - exfalso. apply Hlinked; congruence.
  - exists mid. repeat split; try congruence.
    destruct (service self); cbn in *. subst. rewrite Hsvc. reflexivity.
Qed.

(** [_disconnect] raises the exception the listening task had failed with,
    and then closes nothing. Otherwise it returns with no socket client and
    no listening task, keeps the model, the language and the sample rate,
    and a [run_stt] after it sends nothing and pushes no error. A context
    manager stored without a socket client (after an ApiError) is kept. *)
Theorem disconnect_closes self :
  linked self ->
  (forall e, _listening_task self = Some (TaskFailed e) ->
             _disconnect self = Raise (Exception e)) /\
  (listening_sound self ->
   exists self',
     _disconnect self = Ok self' /\
     _socket_client (service self') = None /\
     _listening_task self' = None /\
     linked self' /\
     _model (service self') = _model (service self) /\
     _language_string (service self') = _language_string (service self) /\
     sample_rate (service self') = sample_rate (service self) /\
     (_socket_client (service self) = None ->
      _websocket_context self' = _websocket_context self) /\
     (_socket_client (service self) <> None ->
      _websocket_context self' = None) /\
     forall audio,
       run_stt (service self') audio =
         {| yielded := [None]; pushed_errors := [] |}).
Proof.
  intros Hlinked. split.
  - intros e He. unfold _disconnect, stop_listening. rewrite He. reflexivity.
  - intros Hsound.
    destruct (disconnect_sound self Hlinked Hsound)
      as (self' & Hd & Hsvc & Huser & Htask & Hkeep & Hreset).
    exists self'. rewrite Hsvc.
    split; [exact Hd|]. split; [reflexivity|]. split; [exact Htask|].
    split; [unfold linked; rewrite Hsvc; cbn; congruence|].
    split; [reflexivity|]. split; [reflexivity|]. split; [reflexivity|].
    split; [exact Hkeep|]. split; [exact Hreset|].
    intros audio. apply run_stt_not_connected. reflexivity.
Qed.

(** After [_connect] has opened the socket, nothing was pushed, and [run_stt]
    sends the base64 text of the audio with the method that matches the
    endpoint the connection was asked for: [transcribe] on the
    speech-to-text endpoint, [translate] on the translate endpoint. The
    language is passed to the speech-to-text endpoint only, and the sample
    rate of the request is the decimal text of the one sent with the
    audio. *)
Theorem connect_then_run_stt open self client listening audio :
  let request := connect_request (service self) in
  let after := _connect open self in
  open request = Opened client listening ->
  after.2 = [] /\
  _websocket_context after.1 = Some request /\
  _listening_task after.1 = Some listening /\
  request_model request = _model (service self) /\
  request_sample_rate request = pretty (sample_rate (service self)) /\
  match endpoint request with
  | speech_to_text_streaming =>
      request_language_code request = Some (_language_string (service self)) /\
      run_stt (service after.1) audio =
        run_of (transcribe client (b64encode audio) "audio/wav"
                           (sample_rate (service self)))
  | speech_to_text_translate_streaming =>
      request_language_code request = None /\
      run_stt (service after.1) audio =
        run_of (translate client (b64encode audio) "audio/wav"
                          (sample_rate (service self)))
  end.
Proof.
  intros request after Hopen. unfold after, _connect.
  fold request. rewrite Hopen. cbn [fst snd].
  cbn [_websocket_context _listening_task service].
  unfold request, connect_request, run_stt, send_audio.
  cbn [set_socket_client _socket_client _model sample_rate].
  destruct (contains "saarika" (lower (_model (service self))));
    cbn [endpoint request_model request_sample_rate request_language_code];
    repeat split;
    match goal with
    | |- context [run_of ?o] => destruct o; reflexivity
    end.
Qed.

(** A [_connect] that fails pushes exactly one ErrorFrame and sets no new
    socket client: from a state without one, [run_stt] afterwards sends
    nothing and pushes nothing. After an ApiError the context manager that
    was not entered stays stored, and a socket client held before is kept;
    after another exception both are reset. The listening task is not
    touched. *)
Theorem connect_failure open self :
  let request := connect_request (service self) in
  let after := _connect open self in
  (forall client listening, open request <> Opened client listening) ->
  (exists e, after.2 = [ErrorFrame e]) /\
  linked after.1 /\
  _listening_task after.1 = _listening_task self /\
  (_socket_client (service self) = None ->
   forall audio,
     run_stt (service after.1) audio =
       {| yielded := [None]; pushed_errors := [] |}) /\
  (forall e, open request = OpenApiError e ->
     after.2 = [ErrorFrame ("Sarvam API error: " ++ e)%string] /\
     _socket_client (service after.1) = _socket_client (service self) /\
     _websocket_context after.1 = Some request) /\
  (forall e, open request = OpenRaised e ->
     after.2 = [ErrorFrame ("Failed to connect to Sarvam: " ++ e)%string] /\
     _socket_client (service after.1) = None /\
     _websocket_context after.1 = None).
Proof.
  intros request after Hfail.
  split; [|split; [apply connect_linked|]].
  - unfold after, _connect. fold request.
    destruct (open request) as [client listening|e|e] eqn:Hopen; cbn; eauto.
    exfalso. exact (Hfail _ _ eq_refl).
  - unfold after, _connect. fold request.
    destruct (open request) as [client listening|e|e] eqn:Hopen.
    + exfalso. exact (Hfail _ _ eq_refl).
    + cbn. repeat split; try congruence;
        intros; apply run_stt_not_connected; assumption.
    + cbn. repeat split; try congruence;
        intros; apply run_stt_not_connected; reflexivity.
Qed.

(** [set_model] stores the name, disconnects and connects again: the new
    connection is asked for with the new model, on the endpoint the new
    name selects, and with the language string unchanged. When the
    listening task had failed with an exception, [set_model] raises it and
    does not connect again. *)
Theorem set_model_reconnects open self model :
  linked self ->
  (forall e, _listening_task self = Some (TaskFailed e) ->
             set_model open self model = Raise (Exception e)) /\
  (listening_sound self ->
   exists closed,
     set_model open self model = Ok (_connect open closed) /\
     _socket_client (service closed) = None /\
     _listening_task closed = None /\
     _language_string (service closed) = _language_string (service self) /\
     _language_code (service closed) = _language_code (service self) /\
     sample_rate (service closed) = sample_rate (service self) /\
     request_model (connect_request (service closed)) = model /\
     endpoint (connect_request (service closed)) =
       (if contains "saarika" (lower model)
        then speech_to_text_streaming
        else speech_to_text_translate_streaming) /\
     linked (_connect open closed).1).
Proof.
  intros Hlinked.
  set (renamed :=
         {| service := set_model_name (service self) model;
            _user_id := _user_id self;
            _websocket_context := _websocket_context self;
            _listening_task := _listening_task self |}).
  assert (Hrl : linked renamed) by exact Hlinked.
  split.
  - intros e He. unfold set_model. fold renamed.
    unfold _disconnect, stop_listening. cbn [_listening_task renamed].
    rewrite He. reflexivity.
  - intros Hsound.
    assert (Hrs : listening_sound renamed) by exact Hsound.
    destruct (disconnect_sound renamed Hrl Hrs)
      as (closed & Hd & Hsvc & Huser & Htask & Hkeep & Hreset).
    exists closed. unfold set_model. fold renamed. rewrite Hd.
    split; [reflexivity|].
    rewrite Hsvc. cbn [renamed service].
    repeat split; try assumption.
    + unfold connect_request. cbn. destruct (contains _ _); reflexivity.
    + unfold connect_request. cbn. destruct (contains _ _); reflexivity.
    + apply connect_linked.
Qed.

(** A session as [__init__] builds it holds no socket client, and every
    state [_connect], [_disconnect] and [set_model] lead to holds a socket
    client only together with its context manager, and keeps the language
    string [__init__] computed, one of the 13 codes. *)
Theorem session_invariant open :
  (forall model language_code rate user,
      let self := init model language_code rate user in
      linked self /\ language_fixed self /\
      _socket_client (service self) = None) /\
  (forall self,
      linked (_connect open self).1 /\
      (language_fixed self -> language_fixed (_connect open self).1)) /\
  (forall self self',
      linked self -> _disconnect self = Ok self' ->
      linked self' /\ (language_fixed self -> language_fixed self')) /\
  (forall self model after,
      linked self -> set_model open self model = Ok after ->
      linked after.1 /\ (language_fixed self -> language_fixed after.1)) /\
  (forall self,
      language_fixed self ->
      _language_string (service self) ∈ supported_codes).
Proof.
  assert (Hconn : forall self,
             language_fixed self -> language_fixed (_connect open self).1).
  { intros self. unfold language_fixed, _connect.
    destruct (open _); cbn; auto. }
  assert (Hdisc : forall self self',
             linked self -> _disconnect self = Ok self' ->
             linked self' /\ (language_fixed self -> language_fixed self')).
  { intros self self' Hlinked Hd.
    assert (Hsound : listening_sound self).
    { intros e He. unfold _disconnect, stop_listening in Hd.
      rewrite He in Hd. discriminate Hd. }
    destruct (disconnect_sound self Hlinked Hsound)
      as (closed & Hc & Hsvc & _).
    rewrite Hc in Hd. injection Hd as <-.
    unfold linked, language_fixed. rewrite Hsvc. cbn. split; [congruence|auto]. }
  split; [|split; [|split; [|split]]].
  - intros model language_code rate user self.
    unfold linked, language_fixed. cbn. repeat split; congruence.
  - intros self. split; [apply connect_linked|apply Hconn].
  - exact Hdisc.
  - intros self model after Hlinked Hset. unfold set_model in Hset.
    destruct (_disconnect _) as [closed|e] eqn:Hd; [|discriminate Hset].
    cbv beta iota delta [mbind result_bind] in Hset. injection Hset as <-.
    split; [apply connect_linked|]. intros Hfixed. apply Hconn.
    eapply Hdisc; [|exact Hd|exact Hfixed]. exact Hlinked.
  - intros self Hfixed. unfold language_fixed in Hfixed. rewrite Hfixed.
    apply language_to_sarvam_language_supported.
Qed.

End SarvamFurther.

(** * The properties at concrete inputs *)

Import TurnProps ServiceProps Scenarios.

(** An XTTS service without studio speakers yields nothing for a request it
    cannot make, so the claim C6 words for every fault fails there. *)
Lemma C6_no_speakers_no_error_frame : ~ every_fault_emits_error_frame.
Proof.
  intros [_ Htts].
  destruct (Htts unit passthrough
              (tts_service None (XTTS.Response 200 "" [])) "Hello"%string I)
    as [e He].
  cbn in He. apply elem_of_nil in He. exact He.
Qed.

(** The 3200 zero bytes are a 100 ms chunk at 16 kHz. *)
Lemma chunk_16k_is_100ms : chunk_of_ms 16000 100 chunk_16k.
Proof. exists (replicate (Z.to_nat 1600) 0). split; vm_compute; reflexivity. Qed.

(** The 3200 zero bytes hold the samples of 100 ms at 16 kHz. *)
Lemma chunk_16k_lasts_100ms : chunk_lasting 16000 100 chunk_16k.
Proof. split; reflexivity. Qed.

(** C1 at 16 kHz with the default parameters and thirty-one chunks of
    digital silence, the first flagged as speech. *)
Lemma C1_witness :
  exists self',
    Turn.feed (Turn.init 16000 Turn.default_params)
      ((steady_clock, chunk_16k, true)
         :: map silence_call (replicate 30 (steady_clock, chunk_16k))) =
      Ok (self', Turn.INCOMPLETE :: replicate 29 Turn.INCOMPLETE ++ [Turn.COMPLETE]).
Proof.
  apply C1_silence_completion.
  - reflexivity.
  - left. exists 16. split; [lia|reflexivity].
  - exact chunk_16k_lasts_100ms.
  - reflexivity.
  - apply Forall_replicate. exact chunk_16k_lasts_100ms.
Defined.

(** At 1100 Hz the 110 samples of a tenth of a second are computed to last
    the float just below 100 ms, and thirty of them leave the accumulator
    just below 3000 ms: the thirtieth silence chunk is answered Incomplete,
    so the claim C1 words for every sample rate fails there. *)
Lemma C1_thirtieth_incomplete_at_1100Hz : ~ thirtieth_silence_completes.
Proof.
  intros Hclaim.
  destruct (Hclaim 1100 Turn.default_params steady_clock chunk_1100Hz
              (replicate 30 (steady_clock, chunk_1100Hz)))
    as [self' Hfeed].
  - reflexivity.
  - split; reflexivity.
  - reflexivity.
  - apply Forall_replicate. split; reflexivity.
  - vm_compute in Hfeed. discriminate Hfeed.
Qed.

(** C3 on both paths: the silence timer with a 62.5 ms threshold, and the
    classifier predicting 1. *)
Lemma C3_witness :
  cleared (Turn.init 16000 quick_params) /\
  cleared (Turn.init 16000 Turn.default_params).
Proof.
  split.
  - apply (proj1 (C3_post_complete_reset (H := constant_model 1) steady_clock
                    (spoken quick_params) chunk_16k false
                    (Turn.init 16000 quick_params) [])).
    vm_compute. reflexivity.
  - apply (proj2 (C3_post_complete_reset (H := constant_model 1) steady_clock
                    (spoken Turn.default_params) chunk_16k false
                    (Turn.init 16000 Turn.default_params) [[0.5%float]])).
    vm_compute. reflexivity.
Defined.

(** C4: a speech chunk appended to a fresh analyzer, and an idle analyzer
    whose 900 s old entry is trimmed away. *)
Lemma C4_witness :
  (exists audio_int16,
      Turn.frombuffer_int16 [x00; x40] = Ok audio_int16 /\
      Turn._audio_buffer (spoken Turn.default_params) =
        [] ++ [(steady_clock 0%nat, Turn.audio_float32 audio_int16)]) /\
  (exists removed,
      Turn._audio_buffer stale ++ [(1000%float, [0%float])] =
        removed ++ [(1000%float, [0%float])] /\
      (forall i e, removed !! i = Some e ->
                   older Turn.default_params (steady_clock (1 + i)%nat) e = true) /\
      (forall e, head [(1000%float, [0%float])] = Some e ->
                 older Turn.default_params
                   (steady_clock (1 + length removed)%nat) e = false) /\
      [(1000%float, [0%float])] =
        List.filter (fun e => negb (older Turn.default_params 1000 e))
          (Turn._audio_buffer stale ++ [(1000%float, [0%float])])).
Proof.
  split.
  - apply (proj1 (C4_trim_invariant steady_clock
                    (Turn.init 16000 Turn.default_params) [x00; x40]
                    (spoken Turn.default_params) Turn.INCOMPLETE)).
    vm_compute. reflexivity.
  - destruct (proj2 (C4_trim_invariant steady_clock stale [x00; x00]
                       (Turn.set_buffer stale [(1000%float, [0%float])])
                       Turn.INCOMPLETE))
      as (audio & removed & Hdec & Heq & Hrem & Hkeep & Hexact).
    + reflexivity.
    + vm_compute. reflexivity.
    + injection Hdec as <-.
      exists removed. split; [exact Heq|]. split; [exact Hrem|].
      split; [exact Hkeep|].
      apply (Hexact 1000%float).
      * reflexivity.
      * repeat constructor.
Defined.

(** C7 on the samples 0x4000 and 0x8000 and on the states around one speech
    chunk. *)
Lemma C7_witness :
  ([16384; -32768] = samples_of [x00; x40; x00; x80] /\
   length [x00; x40; x00; x80] = (2 * length [16384%Z; (-32768)%Z])%nat /\
   Forall int16_range [16384; -32768]) /\
  (exists q,
      PyFloat.exact (Turn.normalize (-32768)) = Some q /\
      (q == -32768 # 32768)%Q /\ (-1 <= q)%Q /\ (q <= 1)%Q /\
      unit_range (Turn.normalize (-32768)) = true) /\
  (exists removed,
      Turn._audio_buffer (Turn.init 16000 Turn.default_params)
        ++ [(steady_clock 0%nat, map Turn.normalize (samples_of [x00; x40]))] =
        removed ++ Turn._audio_buffer (spoken Turn.default_params) /\
      (true = true \/
       (Turn._speech_triggered (Turn.init 16000 Turn.default_params) = true /\
        Turn.INCOMPLETE = Turn.INCOMPLETE) ->
       removed = [])) /\
  normalized (Turn._audio_buffer (spoken Turn.default_params)) /\
  normalized (Turn._audio_buffer (Turn.init 16000 Turn.default_params)) /\
  Forall (Forall normalized_sample) [[0.5%float]].
Proof.
  destruct (C7_samples_normalized (H := constant_model 1))
    as (Hdec & Hnorm & Hbuffers & Happend & Hanalyze).
  assert (Hspoken : normalized (Turn._audio_buffer (spoken Turn.default_params))).
  { apply (Happend steady_clock (Turn.init 16000 Turn.default_params)
             [x00; x40] true _ Turn.INCOMPLETE).
    - constructor.
    - vm_compute. reflexivity. }
  split; [|split; [|split; [|split; [exact Hspoken|]]]].
  - apply (Hdec [x00; x40; x00; x80]). vm_compute. reflexivity.
  - apply Hnorm. unfold int16_range. lia.
  - apply (Hbuffers steady_clock (Turn.init 16000 Turn.default_params)
             [x00; x40] true (spoken Turn.default_params) Turn.INCOMPLETE).
    vm_compute. reflexivity.
  - apply (Hanalyze (spoken Turn.default_params) _ Turn.COMPLETE).
    + exact Hspoken.
    + vm_compute. reflexivity.
Defined.

(** C8 with a classifier that predicts 1. *)
Lemma C8_witness :
  [[0.5%float]] = [[0.5%float]] /\ [0.5%float] <> [] /\
  (Turn.COMPLETE = Turn.COMPLETE <->
   Turn.prediction (Turn._predict_endpoint (SmartTurnModel := constant_model 1)
                      [0.5%float]) = 1) /\
  (Turn.COMPLETE = Turn.INCOMPLETE <->
   Turn.prediction (Turn._predict_endpoint (SmartTurnModel := constant_model 1)
                      [0.5%float]) <> 1).
Proof.
  apply (C8_classifier_decision (H := constant_model 1)
           (spoken Turn.default_params) (Turn.init 16000 Turn.default_params)).
  - vm_compute. reflexivity.
  - apply list_elem_of_singleton. reflexivity.
Defined.

(** C9 with a classifier that predicts 0, then thirty chunks of silence. *)
Lemma C9_witness :
  Turn._speech_triggered (Turn._clear (spoken Turn.default_params) Turn.INCOMPLETE)
    = true /\
  exists self'',
    Turn.feed (Turn._clear (spoken Turn.default_params) Turn.INCOMPLETE)
      (map silence_call (replicate 30 (steady_clock, chunk_16k))) =
      Ok (self'', replicate 29 Turn.INCOMPLETE ++ [Turn.COMPLETE]).
Proof.
  destruct (C9_incomplete_keeps_trigger (H := constant_model 0)
              (spoken Turn.default_params)
              (Turn._clear (spoken Turn.default_params) Turn.INCOMPLETE)
              [[0.5%float]])
    as (_ & _ & _ & _ & Htrig & Htimer).
  - vm_compute. reflexivity.
  - split; [exact Htrig|]. apply Htimer.
    + vm_compute. reflexivity.
    + reflexivity.
    + apply Forall_replicate. exact chunk_16k_is_100ms.
Defined.

(** C10 on Odia, whose code differs from its tag, and on a language and a
    code outside the tables. *)
Lemma C10_witness :
  Sarvam._map_language_code_to_enum
    (Sarvam.language_to_sarvam_language Sarvam.OR_IN) = Sarvam.OR_IN /\
  Sarvam.language_to_sarvam_language
    (Sarvam._map_language_code_to_enum "od-IN") = "od-IN"%string /\
  Sarvam.language_to_sarvam_language (Sarvam.OtherLanguage "FR") = "hi-IN"%string /\
  Sarvam._map_language_code_to_enum "fr-FR" = Sarvam.HI_IN.
Proof.
  destruct C10_language_tables_inverse
    as (_ & _ & _ & Hthere & Hback & Hlang & Hcode).
  split; [|split; [|split]].
  - apply Hthere. compute_done.
  - apply Hback. compute_done.
  - apply Hlang. compute_done.
  - apply Hcode. compute_done.
Defined.

(** C6, amended, on a socket that raises, on a missing socket, on a
    status 500 and on missing studio speakers. *)
Lemma C6_witness :
  Sarvam.run_stt (stt_service (Some failing_client)) [x00; x01] =
    {| Sarvam.yielded := [None];
       Sarvam.pushed_errors :=
         [ErrorFrame "Failed to send audio: connection closed"] |} /\
  Sarvam.run_stt (stt_service None) [x00; x01] =
    {| Sarvam.yielded := [None]; Sarvam.pushed_errors := [] |} /\
  XTTS.yielded
    (XTTS.run_tts (tts_service (Some one_speaker) (XTTS.Response 500 "busy" []))
       "Hello") =
    [ErrorFrame "Error getting audio (status: 500, error: busy)"] /\
  XTTS.yielded
    (XTTS.run_tts (tts_service None (XTTS.Response 200 "" [])) "Hello") = [].
Proof.
  destruct (C6_faults_past_the_guards_emit_error_frames (R := unit))
    as (Hraised & Hoffline & Hstatus & Hnone).
  split; [|split; [|split]].
  - apply (Hraised _ failing_client); reflexivity.
  - apply Hoffline. reflexivity.
  - rewrite (Hstatus _ "Hello"%string one_speaker
               "http://localhost:8000/tts_stream"%string
               {| XTTS.text := "Hello"; XTTS.payload_language := Some "en"%string;
                  XTTS.speaker_embedding := "[0.1]"%string;
                  XTTS.gpt_cond_latent := "[[0.2]]"%string;
                  XTTS.add_wav_header := false; XTTS.stream_chunk_size := 20 |}
               500 "busy"%string []).
    + vm_compute. reflexivity.
    + vm_compute. reflexivity.
    + vm_compute. reflexivity.
    + reflexivity.
    + lia.
  - rewrite Hnone; reflexivity.
Defined.

(** The clamp on a budget of one sample and on ten seconds at 16 kHz. *)
Lemma max_duration_clamp_witness :
  (Z.of_nat (length [0.25%float]) = 1 /\
   exists st self',
     Turn.analyze_end_of_turn (H := constant_model 0) one_sample_budget =
       Ok (self', st, [[0.25%float]])) /\
  (let kept := drop (Z.to_nat 32000) (extracted_segment ten_seconds 1000) in
   length kept = Z.to_nat 128000 /\
   exists st self',
     Turn.analyze_end_of_turn (H := constant_model 1) ten_seconds =
       Ok (self', st, [kept])).
Proof.
  split.
  - apply (proj1 (max_duration_clamp (H := constant_model 0))
             one_sample_budget 1000%float 1).
    + reflexivity.
    + vm_compute. reflexivity.
    + vm_compute. split; reflexivity.
  - apply (proj2 (max_duration_clamp (H := constant_model 1)) ten_seconds 1000%float).
    + reflexivity.
    + reflexivity.
    + reflexivity.
    + change (extracted_segment ten_seconds 1000)
        with (replicate (Z.to_nat 160000) 0.5%float ++ []).
      rewrite length_app, length_replicate. cbn [length]. lia.
Defined.

(** The empty buffer of a fresh analyzer. *)
Lemma empty_buffer_witness :
  Turn.analyze_end_of_turn (H := constant_model 1)
    (Turn.init 16000 Turn.default_params) =
    Ok (Turn._clear (Turn.init 16000 Turn.default_params) Turn.INCOMPLETE,
        Turn.INCOMPLETE, []).
Proof. apply analyze_empty_buffer. reflexivity. Defined.

(** A buffer of one chunk without samples. *)
Lemma zero_samples_witness :
  Turn.analyze_end_of_turn (H := constant_model 1) spoken_nothing =
    Ok (Turn._clear spoken_nothing Turn.INCOMPLETE, Turn.INCOMPLETE, []).
Proof.
  apply (analyze_zero_samples (H := constant_model 1) spoken_nothing 1000 128000).
  - reflexivity.
  - vm_compute. reflexivity.
  - repeat constructor.
Defined.

(** ** The further properties at concrete inputs *)

Section TurnWitnesses.
Import PyFloat Turn MoreTurnProps MoreScenarios.

(** One byte, one sample on a fresh analyzer, and silence at rate 0. *)
Lemma append_audio_raises_witness :
  append_audio steady_clock (init 16000 default_params) [x00] true
    = Raise ValueError /\
  (exists self',
      append_audio steady_clock (init 16000 default_params) [x00; x40] true
        = Ok (self', INCOMPLETE)) /\
  append_audio steady_clock rate_zero [x00; x00] false
    = Raise ZeroDivisionError.
Proof.
  split; [|split].
  - apply (proj1 (append_audio_raises steady_clock
                    (init 16000 default_params) [x00] true)).
    reflexivity.
  - apply (proj1 (proj2 (append_audio_raises steady_clock
                           (init 16000 default_params) [x00; x40] true))).
    + reflexivity.
    + left. reflexivity.
  - apply (proj2 (proj2 (append_audio_raises steady_clock
                           rate_zero [x00; x00] false))); reflexivity.
Defined.

(** The configuration across one speech chunk. *)
Lemma configuration_is_kept_witness :
  same_config (init 16000 default_params) (spoken default_params).
Proof.
  apply (proj1 (configuration_is_kept (H := constant_model 1)) steady_clock
           (init 16000 default_params) [x00; x40] true
           (spoken default_params) INCOMPLETE).
  vm_compute. reflexivity.
Defined.

(** The first speech chunk of a fresh analyzer. *)
Lemma speech_start_recorded_once_witness :
  INCOMPLETE = INCOMPLETE /\
  _speech_triggered (spoken default_params) = true /\
  _silence_ms (spoken default_params) = 0%float /\
  _speech_start_time (spoken default_params) = Some (steady_clock 1%nat).
Proof.
  apply (speech_start_recorded_once steady_clock
           (init 16000 default_params) [x00; x40]).
  vm_compute. reflexivity.
Defined.

(** A second call after a Complete decision. *)
Lemma analyze_twice_witness :
  exists self2,
    analyze_end_of_turn (H := constant_model 1) (init 16000 default_params)
      = Ok (self2, INCOMPLETE, []) /\
    _speech_triggered self2 = true /\
    _audio_buffer self2 = [].
Proof.
  apply (analyze_twice (H := constant_model 1) (spoken default_params)
           (init 16000 default_params) COMPLETE [[0.5%float]]).
  vm_compute. reflexivity.
Defined.

(** An Incomplete answer, a chunk of silence, and the next call. *)
Lemma analyze_after_incomplete_and_silence_witness :
  analyze_end_of_turn (H := constant_model 0) paused = Raise TypeError.
Proof.
  apply (analyze_after_incomplete_and_silence (H := constant_model 0)
           steady_clock (spoken default_params) undecided [[0.5%float]]
           chunk_16k paused).
  - vm_compute. reflexivity.
  - vm_compute. reflexivity.
Defined.

(** The segment of one buffered sample. *)
Lemma classified_segment_is_newest_witness :
  exists older,
    buffered_audio (_audio_buffer (spoken default_params))
      = older ++ [0.5%float].
Proof.
  apply (classified_segment_is_newest (H := constant_model 1)
           (spoken default_params) (init 16000 default_params) COMPLETE
           [[0.5%float]]).
  - vm_compute. reflexivity.
  - apply list_elem_of_singleton. reflexivity.
Defined.

(** A chunk older than the speech start is left out; a buffer of older
    chunks only is taken whole. *)
Lemma extracted_segment_start_witness :
  TurnProps.extracted_segment two_chunks 1000
    = buffered_audio [(1000%float, [0.5%float])] /\
  TurnProps.extracted_segment stale 1000
    = buffered_audio (_audio_buffer stale).
Proof.
  split.
  - apply (proj1 (extracted_segment_start two_chunks 1000)
             [(999%float, [0.25%float])] (1000%float, [0.5%float]) []).
    + reflexivity.
    + repeat constructor.
    + reflexivity.
  - apply (proj2 (extracted_segment_start stale 1000)).
    repeat constructor.
Defined.

(** One chunk of silence on a fresh analyzer. *)
Lemma idle_silence_stays_idle_witness :
  exists self',
    feed (init 16000 default_params)
      (map TurnProps.silence_call [(steady_clock, chunk_16k)])
      = Ok (self', replicate 1 INCOMPLETE) /\
    _speech_triggered self' = false /\
    _silence_ms self' = _silence_ms (init 16000 default_params) /\
    _speech_start_time self' = _speech_start_time (init 16000 default_params).
Proof.
  apply (idle_silence_stays_idle [(steady_clock, chunk_16k)] (init 16000 default_params)).
  - reflexivity.
  - repeat constructor.
Defined.

End TurnWitnesses.

Section XTTSWitnesses.
Import PyStr XTTS XTTSLanguage XTTSLanguageProps XTTSStart XTTSStreamProps
  MoreScenarios.

(** Spanish of Spain, whose value is es-ES. *)
Lemma xtts_language_supported_witness :
  "es"%string ∈ xtts_codes /\
  map language_to_xtts_language xtts_members = map Some xtts_codes /\
  exists member,
    member ∈ xtts_members /\ language_to_xtts_language member = Some "es"%string.
Proof.
  apply (xtts_language_supported (OtherLanguage "es-ES")).
  vm_compute. reflexivity.
Defined.

(** Mexican Spanish, and Chinese of Taiwan in capitals. *)
Lemma xtts_language_variants_witness :
  language_to_xtts_language (OtherLanguage "es-MX")
    = language_to_xtts_language (OtherLanguage "es") /\
  language_to_xtts_language (OtherLanguage "ZH-TW") = Some "zh-cn"%string.
Proof.
  split.
  - apply (proj1 (proj2 (xtts_language_variants "es")) "MX"%string).
    reflexivity.
  - apply (proj2 (proj2 (xtts_language_variants "ZH-TW"))).
    reflexivity.
Defined.

(** A server that answers the speakers request with status 500. *)
Lemma start_then_run_tts_witness :
  start server_down (tts_service None (Response 200 "" []))
    = {| pushed :=
           [ErrorFrame
              "Error error getting studio speakers (status: 500, error: down)"];
         outcome := Ok (tts_service None (Response 200 "" [])) |} /\
  run_tts (tts_service None (Response 200 "" [])) "Hello"
    = {| yielded := []; finish := Ok (tts_service None (Response 200 "" [])) |}.
Proof.
  apply (proj1 (proj2 (start_then_run_tts server_down
                         (tts_service None (Response 200 "" []))))
           500 "down"%string ∅ "Hello"%string).
  - reflexivity.
  - reflexivity.
  - lia.
Defined.

(** A document that does not list the voice. *)
Lemma run_tts_unknown_voice_witness :
  run_tts (tts_service (Some other_speaker) (Response 200 "" [])) "Hello"
    = {| yielded := []; finish := Raise KeyError |}.
Proof.
  apply (run_tts_unknown_voice _ other_speaker).
  - vm_compute. reflexivity.
  - left. vm_compute. reflexivity.
Defined.

(** Three bytes: one frame between the two markers. *)
Lemma run_tts_streams_blocks_witness :
  yielded (run_tts (tts_service (Some one_speaker) (Response 200 "" three_bytes))
             "Hello")
    = [TTSStartedFrame; TTSAudioRawFrame [x00; x01; x02] 24000 1;
       TTSStoppedFrame].
Proof.
  destruct (run_tts_streams_blocks
              (tts_service (Some one_speaker) (Response 200 "" three_bytes))
              "Hello"%string one_speaker
              "http://localhost:8000/tts_stream"%string
              {| text := "Hello"; payload_language := Some "en"%string;
                 speaker_embedding := "[0.1]"%string;
                 gpt_cond_latent := "[[0.2]]"%string;
                 add_wav_header := false; stream_chunk_size := 20 |}
              ""%string three_bytes) as [Hrun _].
  - vm_compute. reflexivity.
  - vm_compute. reflexivity.
  - reflexivity.
  - rewrite Hrun. vm_compute. reflexivity.
Defined.

(** A sentence with a full stop and two asterisks. *)
Lemma request_payload_witness :
  list_ascii_of_string "Hi you" =
    List.filter (fun c => negb (Ascii.eqb "." c || Ascii.eqb "*" c))
                (list_ascii_of_string "Hi. *you*") /\
  ~ In "."%char (list_ascii_of_string "Hi you").
Proof.
  destruct (request_payload
              (tts_service (Some one_speaker) (Response 200 "" []))
              one_speaker "Hi. *you*"%string
              "http://localhost:8000/tts_stream"%string
              {| text := "Hi you"; payload_language := Some "en"%string;
                 speaker_embedding := "[0.1]"%string;
                 gpt_cond_latent := "[[0.2]]"%string;
                 add_wav_header := false; stream_chunk_size := 20 |})
    as (_ & Htext & Hstop & _).
  - vm_compute. reflexivity.
  - split; assumption.
Defined.

(** A service built for English, before [start]. *)
Lemma init_then_run_tts_witness :
  run_tts (init "Ana" "http://localhost:8000" (fun _ _ => PostRaised "down")
                EN 24000 tt) "Hello"
    = {| yielded := [];
         finish := Ok (init "Ana" "http://localhost:8000"
                            (fun _ _ => PostRaised "down") EN 24000 tt) |}.
Proof.
  apply (proj1 (init_then_run_tts "Ana" "http://localhost:8000"
                  (fun _ _ => PostRaised "down") EN 24000 tt)).
Defined.

End XTTSWitnesses.

Section SarvamWitnesses.
Import PyStr Sarvam SarvamSession SarvamSessionProps MoreScenarios.

(** A transcript of a space, a no-break space and an em space, with no
    language code; and a transcript of one word. *)
Lemma handle_response_transcript_witness :
  _handle_response quiet session "12:00"
    (TranscriptionResponse (heard [32; 160; 8195]%N))
    = [stop_ttfb_metrics; _call_event_handler "on_utterance_end";
       stop_processing_metrics] /\
  frames_pushed
    (_handle_response quiet session "12:00"
       (TranscriptionResponse (heard (code_points " namaste "))))
    = [{| text := code_points " namaste ";
          user_id := "user-1";
          timestamp := "12:00";
          language := HI_IN;
          result := TranscriptionResponse (heard (code_points " namaste ")) |}].
Proof.
  split.
  - rewrite (proj1 (handle_response_transcript session "12:00"%string
                      (heard [32; 160; 8195]%N))).
    reflexivity.
  - rewrite (proj1 (handle_response_transcript session "12:00"%string
                      (heard (code_points " namaste ")))).
    reflexivity.
Defined.

(** One transcript while the event handler raises. *)
Lemma handle_response_pushes_witness :
  (length (frames_pushed
             (_handle_response handler_raises session "12:00"
                (TranscriptionResponse (heard (code_points "namaste"))))) <= 1)%nat.
Proof.
  exact (proj1 (handle_response_pushes handler_raises session "12:00"%string
                  (TranscriptionResponse (heard (code_points "namaste"))))).
Defined.

(** The event handler raises: the transcript is lost. *)
Lemma handle_response_failure_witness :
  _handle_response handler_raises session "12:00"
    (TranscriptionResponse (heard (code_points "namaste")))
    = [stop_ttfb_metrics;
       push_error (ErrorFrame "Failed to handle response: boom")].
Proof.
  apply (proj1 (proj2 (handle_response_failure handler_raises session
                         "12:00"%string)) (heard (code_points "namaste")) "boom"%string);
    reflexivity.
Defined.

(** Disconnecting an open session. *)
Lemma disconnect_closes_witness :
  exists self',
    _disconnect connected = Ok self' /\
    _socket_client (service self') = None.
Proof.
  destruct (proj2 (disconnect_closes connected
                     ltac:(intros _; discriminate))
              ltac:(intros e; discriminate))
    as (self' & Hd & Hsocket & _).
  exists self'. split; assumption.
Defined.

(** Audio sent right after the socket opened. *)
Lemma connect_then_run_stt_witness :
  run_stt (service connected) [x00; x01]
    = {| Sarvam.yielded := [None];
         pushed_errors :=
           [ErrorFrame "Failed to send audio: connection closed"] |}.
Proof.
  destruct (connect_then_run_stt opens session failing_client TaskCancelled
              [x00; x01] eq_refl) as (_ & _ & _ & _ & _ & Hsend).
  exact (proj2 Hsend).
Defined.

(** A refused connection. *)
Lemma connect_failure_witness :
  (_connect refused session).2
    = [ErrorFrame "Failed to connect to Sarvam: refused"].
Proof.
  destruct (connect_failure refused session ltac:(intros c l; discriminate))
    as (_ & _ & _ & _ & _ & Hraised).
  apply (Hraised "refused"%string). reflexivity.
Defined.

(** Switching an open session to a translate model. *)
Lemma set_model_reconnects_witness :
  exists closed,
    set_model opens connected "saaras:v2" = Ok (_connect opens closed) /\
    endpoint (connect_request (service closed))
      = speech_to_text_translate_streaming.
Proof.
  destruct (proj2 (set_model_reconnects opens connected "saaras:v2"%string
                     ltac:(intros _; discriminate))
              ltac:(intros e; discriminate))
    as (closed & Hset & _ & _ & _ & _ & _ & _ & Hendpoint & _).
  exists closed. split; [exact Hset|exact Hendpoint].
Defined.

(** The session as built. *)
Lemma session_invariant_witness :
  linked session /\ language_fixed session.
Proof.
  destruct (proj1 (session_invariant opens) "saarika:v2.5"%string HI_IN 16000
              "user-1"%string) as (Hlinked & Hfixed & _).
  split; assumption.
Defined.

End SarvamWitnesses.
